(** * sandbox-device-plugin: device discovery, Allocate, CDI key ordering,
      name formatting and the plugin instance life cycle

    A shallow embedding of [pkg/device_plugin] (Go) and the properties of
    its specification.  Go strings are byte sequences and are modelled by
    [string] (a list of 8-bit [ascii]); Go maps are [gmap]s; a Go result
    pair [(T, error)] is a pair whose second component is [option error]
    ([None] is Go's [nil] error) and whose pointer-typed first component is
    an [option] ([None] is the [nil] pointer). *)

From Stdlib Require Import ZArith String Ascii List Permutation Sorted Lia.
From stdpp Require Import base option list strings gmap fin_maps pretty sorting.

Local Open Scope string_scope.
Local Open Scope list_scope.
Local Open Scope Z_scope.

(** ** Errors *)

(** Go [error] values.  [ExtErr] is an error produced outside the package
    (os, net, grpc, nvpci); only [errors.Is(err, fs.ErrNotExist)] /
    [os.IsNotExist(err)] is ever asked of it.  [Errorf] is [fmt.Errorf]
    without [%w], [Wrapf] is [fmt.Errorf("<prefix>: %w", err)]. *)
Inductive error : Type :=
| ExtErr (isNotExist : bool) (msg : string)
| Errorf (msg : string)
| Wrapf (prefix : string) (inner : error).

Fixpoint errors_Is_ErrNotExist (e : error) : bool :=
  match e with
  | ExtErr b _ => b
  | Errorf _ => false
  | Wrapf _ inner => errors_Is_ErrNotExist inner
  end.

(** ** The device data model ([device_plugin.go]) *)

(** [NvidiaPCIDevice]: the package's own snapshot of a device. [DeviceID]
    is a [uint16], [IommuGroup] an [int]. *)
Record NvidiaPCIDevice : Type := {
  Address : string;
  DeviceID : Z;
  DeviceName : string;
  IommuGroup : Z;
  IommuFD : string;
  IsNVSwitch : bool
}.

(** ** The kubelet device-plugin API messages that [Allocate] uses *)

Record DeviceSpec : Type := {
  ContainerPath : string;
  HostPath : string;
  Permissions : string
}.

Record ContainerAllocateRequest : Type := { DevicesIDs : list string }.
Record AllocateRequest : Type := { ContainerRequests : list ContainerAllocateRequest }.
Record ContainerAllocateResponse : Type := { Devices : list DeviceSpec }.
Record AllocateResponse : Type := { ContainerResponses : list ContainerAllocateResponse }.

(** ** Go library functions the package calls *)

(** Bytes are compared through their code. *)
Definition byte_in (lo hi c : ascii) : bool :=
  ((N_of_ascii lo <=? N_of_ascii c) && (N_of_ascii c <=? N_of_ascii hi))%N.

Definition is_lower (c : ascii) : bool := byte_in "a" "z" c.
Definition is_upper (c : ascii) : bool := byte_in "A" "Z" c.
Definition is_digit (c : ascii) : bool := byte_in "0" "9" c.
Definition is_ascii (c : ascii) : bool := (N_of_ascii c <? 128)%N.

Fixpoint string_forallb (p : ascii -> bool) (s : string) : bool :=
  match s with
  | EmptyString => true
  | String c r => p c && string_forallb p r
  end.

Fixpoint string_mem (c : ascii) (s : string) : bool :=
  match s with
  | EmptyString => false
  | String d r => Ascii.eqb c d || string_mem c r
  end.

(** [strings.TrimLeft(s, cutset)] for a cutset of ASCII bytes: the leading
    bytes of [s] that occur in [cutset] are dropped. *)
Fixpoint strings_TrimLeft (s cutset : string) : string :=
  match s with
  | EmptyString => EmptyString
  | String c r => if string_mem c cutset then strings_TrimLeft r cutset else s
  end.

(** The digit loop of [strconv.Atoi] / [ParseUint] in base 10: [None] is
    the syntax error for a byte that is no digit. *)
Fixpoint parse_digits (s : string) (n : Z) : option Z :=
  match s with
  | EmptyString => Some n
  | String ch r =>
      if is_digit ch then parse_digits r (n * 10 + (Z.of_N (N_of_ascii ch) - 48))
      else None
  end.

(** [strconv.Atoi] for a 64-bit [int]: an optional sign, then one or
    more decimal digits; [None] is a non-nil error (syntax, or a value
    outside the range of [int]). *)
Definition strconv_Atoi (s : string) : option Z :=
  match s with
  | EmptyString => None
  | String c r =>
      let neg := Ascii.eqb c "-" in
      let body := if Ascii.eqb c "-" || Ascii.eqb c "+" then r else s in
      match body with
      | EmptyString => None
      | _ =>
          match parse_digits body 0 with
          | None => None
          | Some n =>
              let v := if neg then - n else n in
              if (- 2 ^ 63 <=? v) && (v <=? 2 ^ 63 - 1) then Some v else None
          end
      end
  end.

(** [strconv.Itoa] *)
Definition strconv_Itoa (n : Z) : string := pretty n.

Definition hex_digit (d : Z) : ascii :=
  match String.get (Z.to_nat d) "0123456789abcdef" with
  | Some c => c
  | None => "0"%char
  end.

(** [fmt.Sprintf("%04x", d)] for a [uint16] [d]. *)
Definition Sprintf_04x (d : Z) : string :=
  String (hex_digit (d / 4096 mod 16))
    (String (hex_digit (d / 256 mod 16))
       (String (hex_digit (d / 16 mod 16))
          (String (hex_digit (d mod 16)) EmptyString))).

(** [strings.ReplaceAll(s, old, new)] for one-byte [old] and [new]. *)
Fixpoint strings_ReplaceAll1 (s : string) (old new : ascii) : string :=
  match s with
  | EmptyString => EmptyString
  | String c r =>
      String (if Ascii.eqb c old then new else c) (strings_ReplaceAll1 r old new)
  end.

(** The class [\s] of Go's [regexp]: tab, newline, form feed, carriage
    return and space. *)
Definition is_regexp_space (c : ascii) : bool :=
  let n := N_of_ascii c in
  ((n =? 9) || (n =? 10) || (n =? 12) || (n =? 13) || (n =? 32))%N.

(** [regexp.MustCompile(`\s+`).ReplaceAllString(s, "_")]: every maximal
    run of [\s] bytes becomes one underscore.  [in_run] tells that the
    previous byte belonged to a run. *)
Fixpoint replace_space_runs (in_run : bool) (s : string) : string :=
  match s with
  | EmptyString => EmptyString
  | String c r =>
      if is_regexp_space c then
        if in_run then replace_space_runs true r
        else String "_" (replace_space_runs true r)
      else String c (replace_space_runs false r)
  end.

(** The class [[a-zA-Z0-9_-]]. *)
Definition is_name_byte (c : ascii) : bool :=
  is_lower c || is_upper c || is_digit c || Ascii.eqb c "_" || Ascii.eqb c "-".

(** [regexp.MustCompile(`[^a-zA-Z0-9_-]+`).ReplaceAllString(s, "")]: a
    byte of a UTF-8 string below 128 is a rune of its own and every other
    byte belongs to a rune outside the class (or is invalid and read as
    U+FFFD), so the runs removed are exactly the bytes outside the
    class. *)
Fixpoint remove_non_name_bytes (s : string) : string :=
  match s with
  | EmptyString => EmptyString
  | String c r =>
      if is_name_byte c then String c (remove_non_name_bytes r)
      else remove_non_name_bytes r
  end.

(** The class [[A-Z0-9_-]]. *)
Definition is_output_byte (c : ascii) : bool :=
  is_upper c || is_digit c || Ascii.eqb c "_" || Ascii.eqb c "-".

Definition ascii_upper (c : ascii) : ascii :=
  if is_lower c then ascii_of_N (N_of_ascii c - 32) else c.

(** What [strings.ToUpper] does on a string of ASCII bytes only. *)
Fixpoint ascii_ToUpper (s : string) : string :=
  match s with
  | EmptyString => EmptyString
  | String c r => String (ascii_upper c) (ascii_ToUpper r)
  end.

(** ** The enumeration provider ([go-nvlib], [nvpci]) *)

(** [nvpci.NvidiaPCIDevice], with the fields the package reads. *)
Record nvpci_NvidiaPCIDevice : Type := {
  nvpci_Address : string;
  nvpci_Vendor : Z;
  nvpci_Class : Z;
  nvpci_Device : Z;
  nvpci_DeviceName : string;
  nvpci_Driver : string;
  nvpci_IommuGroup : Z;
  nvpci_IommuFD : string
}.

(** The host as the package sees it: the outcome of [os.Stat] on a path
    ([None] is success) and of [nvpciLib.GetAllDevices()]. *)
Record Host : Type := {
  os_Stat : string -> option error;
  GetAllDevices : list nvpci_NvidiaPCIDevice * option error
}.

(** Package constants that are declared outside the files at hand, and
    the functions of other packages that the code calls: [filepath.Join],
    [path.Base], [strings.ToUpper] and the classifiers [IsGPU()] and
    [IsNVSwitch()] of [nvpci]. *)
Class Externals : Type := {
  vfioDevicePath : string;
  rootPath : string;
  iommuDevicePath : string;
  DeviceNamespace : string;
  filepath_Join : list string -> string;
  path_Base : string -> string;
  strings_ToUpper : string -> string;
  nvpci_IsGPU : nvpci_NvidiaPCIDevice -> bool;
  nvpci_IsNVSwitch : nvpci_NvidiaPCIDevice -> bool
}.

(** Constants of the kubelet device-plugin API, [v1beta1]. *)
Definition pluginapi_Healthy : string := "Healthy".
Definition pluginapi_Unhealthy : string := "Unhealthy".
Definition pluginapi_Version : string := "v1beta1".
Definition pluginapi_DevicePluginPath : string := "/var/lib/kubelet/device-plugins/".
Definition pluginapi_KubeletSocket : string := pluginapi_DevicePluginPath +:+ "kubelet.sock".

(** ** Allocate ([generic_device_plugin.go]) *)

Section Allocation.

Context `{Externals}.

(** [supportsIOMMUFD] *)
Definition supportsIOMMUFD (h : Host) : bool * option error :=
  match os_Stat h (filepath_Join [rootPath; iommuDevicePath]) with
  | Some err =>
      if errors_Is_ErrNotExist err then (false, None) else (false, Some err)
  | None => (true, None)
  end.

(** The device node that [Allocate] appends for path [p]. *)
Definition mrw_spec (p : string) : DeviceSpec :=
  {| ContainerPath := p; HostPath := p; Permissions := "mrw" |}.

(** [for _, dev := range nvDevs { ... }] of [Allocate]: [inl] is the
    early [return nil, err]. *)
Fixpoint Allocate_devs (iommufdSupported : bool) (nvDevs : list NvidiaPCIDevice)
    (deviceSpecs : list DeviceSpec) : error + list DeviceSpec :=
  match nvDevs with
  | [] => inr deviceSpecs
  | dev :: rest =>
      if iommufdSupported then
        if String.eqb (IommuFD dev) "" then
          inl (Errorf ("iommufd device not available for device " +:+ Address dev))
        else
          Allocate_devs iommufdSupported rest
            (deviceSpecs
               ++ [mrw_spec (filepath_Join [vfioDevicePath; "devices"; IommuFD dev])])
      else Allocate_devs iommufdSupported rest deviceSpecs
  end.

(** [for _, iommuID := range req.DevicesIDs { ... }] *)
Fixpoint Allocate_ids (iommufdSupported : bool)
    (returnIommuMap : gmap string (list NvidiaPCIDevice))
    (ids : list string) (deviceSpecs : list DeviceSpec) : error + list DeviceSpec :=
  match ids with
  | [] => inr deviceSpecs
  | iommuID :: rest =>
      match returnIommuMap !! iommuID with
      | None => inl (Errorf ("invalid allocation request: unknown iommu id: " +:+ iommuID))
      | Some nvDevs =>
          match Allocate_devs iommufdSupported nvDevs deviceSpecs with
          | inl err => inl err
          | inr deviceSpecs1 =>
              let deviceSpecs2 :=
                if iommufdSupported then deviceSpecs1
                else deviceSpecs1
                       ++ [mrw_spec (filepath_Join [vfioDevicePath; "vfio"])]
                       ++ [mrw_spec (filepath_Join [vfioDevicePath; iommuID])] in
              Allocate_ids iommufdSupported returnIommuMap rest deviceSpecs2
          end
      end
  end.

(** [for _, req := range reqs.ContainerRequests { ... }] *)
Fixpoint Allocate_reqs (iommufdSupported : bool)
    (returnIommuMap : gmap string (list NvidiaPCIDevice))
    (reqs : list ContainerAllocateRequest)
    (responses : list ContainerAllocateResponse)
    : error + list ContainerAllocateResponse :=
  match reqs with
  | [] => inr responses
  | req :: rest =>
      match Allocate_ids iommufdSupported returnIommuMap (DevicesIDs req) [] with
      | inl err => inl err
      | inr deviceSpecs =>
          Allocate_reqs iommufdSupported returnIommuMap rest
            (responses ++ [{| Devices := deviceSpecs |}])
      end
  end.

(** [Allocate] *)
Definition Allocate (h : Host) (returnIommuMap : gmap string (list NvidiaPCIDevice))
    (reqs : AllocateRequest) : option AllocateResponse * option error :=
  match supportsIOMMUFD h with
  | (_, Some err) => (None, Some (Wrapf "could not determine iommufd support" err))
  | (iommufdSupported, None) =>
      match Allocate_reqs iommufdSupported returnIommuMap (ContainerRequests reqs) [] with
      | inl err => (None, Some err)
      | inr responses => (Some {| ContainerResponses := responses |}, None)
      end
  end.

(** For the statements about [Allocate]: the device node of a device in
    fd mode, the two device nodes of a key in legacy mode, the nodes a
    requested key contributes, the answer to one container request, and
    the keys that pass (known and, in fd mode, every device of the
    unit with a handle). *)
Definition fd_node (dev : NvidiaPCIDevice) : DeviceSpec :=
  {| ContainerPath := filepath_Join [vfioDevicePath; "devices"; IommuFD dev];
     HostPath := filepath_Join [vfioDevicePath; "devices"; IommuFD dev];
     Permissions := "mrw" |}.

Definition legacy_nodes (iommuID : string) : list DeviceSpec :=
  [ {| ContainerPath := filepath_Join [vfioDevicePath; "vfio"];
       HostPath := filepath_Join [vfioDevicePath; "vfio"];
       Permissions := "mrw" |};
    {| ContainerPath := filepath_Join [vfioDevicePath; iommuID];
       HostPath := filepath_Join [vfioDevicePath; iommuID];
       Permissions := "mrw" |} ].

Definition unit_nodes (fd : bool) (m : gmap string (list NvidiaPCIDevice))
    (iommuID : string) : list DeviceSpec :=
  if fd then map fd_node (default [] (m !! iommuID)) else legacy_nodes iommuID.

Definition container_response (fd : bool) (m : gmap string (list NvidiaPCIDevice))
    (req : ContainerAllocateRequest) : ContainerAllocateResponse :=
  {| Devices := flat_map (unit_nodes fd m) (DevicesIDs req) |}.

Definition key_ok (fd : bool) (m : gmap string (list NvidiaPCIDevice))
    (iommuID : string) : Prop :=
  exists nvDevs, m !! iommuID = Some nvDevs /\
    (fd = true -> Forall (fun dev => IommuFD dev <> "") nvDevs).

End Allocation.

(** ** Discovery ([device_plugin.go]) *)

(** The package-level variables [iommuMap], [deviceMap] and
    [nvSwitchDeviceIDs].  A [nil] Go map reads as the empty map, and the
    pass only writes to maps it has just made, so both are [∅] here. *)
Record DiscoveryState : Type := {
  iommuMap : gmap string (list NvidiaPCIDevice);
  deviceMap : gmap string (list string);
  nvSwitchDeviceIDs : gmap string bool
}.

Section Discovery.

Context `{Externals}.

(** The body of [for _, dev := range devices] in
    [createIommuDeviceMap]; [continue] leaves the state as it is. *)
Definition discover_device (iommufdSupported : bool) (st : DiscoveryState)
    (dev : nvpci_NvidiaPCIDevice) : DiscoveryState :=
  if negb (nvpci_IsGPU dev) && negb (nvpci_IsNVSwitch dev) then st
  else if negb (String.eqb (nvpci_Driver dev) "vfio-pci") then st
  else
    let iommuKey :=
      if iommufdSupported && negb (String.eqb (nvpci_IommuFD dev) "")
      then nvpci_IommuFD dev
      else strconv_Itoa (nvpci_IommuGroup dev) in
    let deviceID := Sprintf_04x (nvpci_Device dev) in
    let deviceMap1 :=
      match iommuMap st !! iommuKey with
      | None =>
          <[deviceID := default [] (deviceMap st !! deviceID) ++ [iommuKey]]> (deviceMap st)
      | Some _ => deviceMap st
      end in
    let isSwitch := nvpci_IsNVSwitch dev in
    let nvSwitchDeviceIDs1 :=
      if isSwitch then <[deviceID := true]> (nvSwitchDeviceIDs st)
      else nvSwitchDeviceIDs st in
    {| iommuMap :=
         <[iommuKey := default [] (iommuMap st !! iommuKey)
                         ++ [{| Address := nvpci_Address dev;
                                DeviceID := nvpci_Device dev;
                                DeviceName := nvpci_DeviceName dev;
                                IommuGroup := nvpci_IommuGroup dev;
                                IommuFD := nvpci_IommuFD dev;
                                IsNVSwitch := isSwitch |}]]> (iommuMap st);
       deviceMap := deviceMap1;
       nvSwitchDeviceIDs := nvSwitchDeviceIDs1 |}.

(** [createIommuDeviceMap]: the state after the call, from the state
    before it. *)
Definition createIommuDeviceMap (h : Host) (st : DiscoveryState) : DiscoveryState :=
  match supportsIOMMUFD h with
  | (_, Some err) => st
  | (iommufdSupported, None) =>
      let st0 := {| iommuMap := ∅; deviceMap := ∅; nvSwitchDeviceIDs := ∅ |} in
      match GetAllDevices h with
      | (_, Some err) => st0
      | (devices, None) => fold_left (discover_device iommufdSupported) devices st0
      end
  end.

(** What the loop of [createIommuDeviceMap] keeps true: the key list of
    every class has no duplicate, and each of its keys is a key of the
    unit index. *)
Definition class_index_inv (st : DiscoveryState) : Prop :=
  forall deviceID keys,
    deviceMap st !! deviceID = Some keys ->
    NoDup keys /\ forall k, k ∈ keys -> is_Some (iommuMap st !! k).

(** [isNVSwitchDeviceID] *)
Definition isNVSwitchDeviceID (st : DiscoveryState) (deviceID : string) : bool :=
  default false (nvSwitchDeviceIDs st !! deviceID).

(** [getIommuMap] *)
Definition getIommuMap (st : DiscoveryState) : gmap string (list NvidiaPCIDevice) :=
  iommuMap st.

(** [formatDeviceName] *)
Definition formatDeviceName (name : string) : string :=
  if String.eqb name "" then ""
  else
    let name := strings_ToUpper name in
    let name := strings_ReplaceAll1 name "/" "_" in
    let name := strings_ReplaceAll1 name "." "_" in
    let name := replace_space_runs false name in
    let name := remove_non_name_bytes name in
    name.

End Discovery.

(** ** Ordering of unit keys in the CDI writer ([cdi.go]) *)

(** [extractNumber] *)
Definition extractNumber (s : string) : Z :=
  let numStr :=
    strings_TrimLeft s "abcdefghijklmnopqrstuvwxyzABCDEFGHIJKLMNOPQRSTUVWXYZ" in
  match strconv_Atoi numStr with
  | Some n => n
  | None => 0
  end.

(** Comparison by an integer key. *)
Definition less_by_key {A : Type} (f : A -> Z) (a b : A) : bool := f a <? f b.

(** The [less] closure that [generateCDISpecForClass] hands to
    [sort.Slice], on the elements it compares. *)
Definition iommuKeyLess (a b : string) : bool := extractNumber a <? extractNumber b.

(** What [sort.Slice] promises of the slice [sorted] it leaves behind for
    the slice [l] it was given: the same elements, and no element is
    [less] than one before it.  The sort is not stable, so elements that
    tie may come in any order. *)
Definition sort_Slice_post {A : Type} (less : A -> A -> bool) (l sorted : list A) : Prop :=
  Permutation l sorted /\ StronglySorted (fun a b => less b a = false) sorted.

(** The inner loop of [insertionSortLessFunc], on the reversed sorted
    prefix: the new element moves left while it is [less] than its left
    neighbour. *)
Fixpoint insert_from_right {A : Type} (less : A -> A -> bool) (x : A) (rev_prefix : list A)
    : list A :=
  match rev_prefix with
  | [] => [x]
  | y :: r => if less x y then y :: insert_from_right less x r else x :: y :: r
  end.

(** [insertionSortLessFunc], the algorithm [sort.Slice] runs on slices of
    at most 12 elements. *)
Definition insertionSort {A : Type} (less : A -> A -> bool) (l : list A) : list A :=
  rev (fold_left (fun rev_prefix x => insert_from_right less x rev_prefix) l []).

(** [sortedKeys] of [generateCDISpecForClass] for short key lists. *)
Definition sortedKeys (scopedIommuKeys : list string) : list string :=
  insertionSort iommuKeyLess scopedIommuKeys.

(** Strictly increasing, and non-decreasing, sequences of integers. *)
Definition strictly_increasing (l : list Z) : Prop := StronglySorted Z.lt l.
Definition non_decreasing (l : list Z) : Prop := StronglySorted Z.le l.

(** ** The plugin instance ([generic_device_plugin.go]) *)

(** [pluginapi.Device] *)
Record Device : Type := { ID : string; Health : string }.

Record ListAndWatchResponse : Type := { lw_Devices : list Device }.

Record DevicePluginOptions : Type := {
  PreStartRequired : bool;
  GetPreferredAllocationAvailable : bool
}.

Record PreStartContainerRequest : Type := { psc_DevicesIDs : list string }.

(** [pluginapi.PreStartContainerResponse] has no fields. *)
Inductive PreStartContainerResponse : Type := PreStartContainerResponse_empty.

Record ContainerPreferredAllocationRequest : Type := {
  AvailableDeviceIDs : list string;
  MustIncludeDeviceIDs : list string;
  AllocationSize : Z
}.
Record PreferredAllocationRequest : Type := {
  pa_ContainerRequests : list ContainerPreferredAllocationRequest
}.
Record ContainerPreferredAllocationResponse : Type := { DeviceIDs : list string }.
Record PreferredAllocationResponse : Type := {
  pa_ContainerResponses : list ContainerPreferredAllocationResponse
}.

(** The generated getter [GetContainerResponses] of
    [PreferredAllocationResponse], which reads a [nil] message as the
    empty one. *)
Definition GetContainerResponses (m : option PreferredAllocationResponse)
    : list ContainerPreferredAllocationResponse :=
  match m with
  | Some r => pa_ContainerResponses r
  | None => []
  end.

(** A [grpc.Server] made by [grpc.NewServer]. *)
Inductive grpc_Server : Type := grpc_NewServer.

(** A channel is known by its identity. *)
Definition chan : Type := nat.

(** [GenericDevicePlugin].  [devs] holds pointers in Go; no two entries
    made by the package share a [Device], and entries that would share one
    have the same [ID], so a health update by [ID] reads the same on the
    list of values.  [term] is the buffer of the channel of capacity 1;
    the unbuffered channels [healthy] and [unhealthy] hold nothing. *)
Record GenericDevicePlugin : Type := {
  devs : list Device;
  server : option grpc_Server;
  socketPath : string;
  stop : option chan;
  term : list bool;
  devicePath : string;
  deviceName : string;
  devsHealth : list Device
}.

Definition set_stop (c : chan) (dpi : GenericDevicePlugin) : GenericDevicePlugin :=
  {| devs := devs dpi; server := server dpi; socketPath := socketPath dpi;
     stop := Some c; term := term dpi; devicePath := devicePath dpi;
     deviceName := deviceName dpi; devsHealth := devsHealth dpi |}.

Definition set_server (s : option grpc_Server) (dpi : GenericDevicePlugin)
    : GenericDevicePlugin :=
  {| devs := devs dpi; server := s; socketPath := socketPath dpi;
     stop := stop dpi; term := term dpi; devicePath := devicePath dpi;
     deviceName := deviceName dpi; devsHealth := devsHealth dpi |}.

Definition set_term (t : list bool) (dpi : GenericDevicePlugin) : GenericDevicePlugin :=
  {| devs := devs dpi; server := server dpi; socketPath := socketPath dpi;
     stop := stop dpi; term := t; devicePath := devicePath dpi;
     deviceName := deviceName dpi; devsHealth := devsHealth dpi |}.

Definition set_devs (d : list Device) (dpi : GenericDevicePlugin) : GenericDevicePlugin :=
  {| devs := d; server := server dpi; socketPath := socketPath dpi;
     stop := stop dpi; term := term dpi; devicePath := devicePath dpi;
     deviceName := deviceName dpi; devsHealth := devsHealth dpi |}.

(** [NewGenericDevicePlugin] *)
Definition NewGenericDevicePlugin (deviceName0 devicePath0 : string) (devices : list Device)
    : GenericDevicePlugin :=
  {| devs := devices;
     server := None;
     socketPath := pluginapi_DevicePluginPath +:+ "sandbox-" +:+ deviceName0 +:+ ".sock";
     stop := None;
     term := [];
     devicePath := devicePath0;
     deviceName := deviceName0;
     devsHealth := [] |}.

(** What an instance does to the world outside its own fields, in the
    order it does it. *)
Inductive action : Type :=
| ActRemove (path : string)
| ActListen (path : string)
| ActServe (srv : grpc_Server) (path : string)
| ActProbe (path : string)
| ActConnect (path : string)
| ActRegisterRPC (version endpoint resourceName : string)
| ActGoHealthCheck
| ActSendTerm (v : bool)
| ActServerStop (srv : grpc_Server).

(** How the calls that leave the package turn out during one [Start] or
    [Stop]: [os.Remove], [net.Listen], the readiness probe, the connection
    to the kubelet socket and the registration call. *)
Record Outcomes : Type := {
  remove_result : option error;
  listen_result : option error;
  probe_result : option error;
  connect_result : option error;
  register_result : option error
}.

(** What a method that can wait on a channel comes to. *)
Inductive completion (A : Type) : Type :=
| Returns (a : A)
| Blocks.
Arguments Returns {A} a.
Arguments Blocks {A}.

(** What the [select] of [ListAndWatch] receives: a key on [unhealthy] or
    on [healthy], or the end of the session on [stop] or [term]. *)
Inductive signal : Type :=
| RecvUnhealthy (id : string)
| RecvHealthy (id : string)
| RecvStop
| RecvTerm.

Definition is_health_signal (s : signal) : Prop :=
  match s with
  | RecvUnhealthy _ | RecvHealthy _ => True
  | RecvStop | RecvTerm => False
  end.

(** [pluginapi.Empty] *)
Inductive pluginapi_Empty : Type := Empty_message.

Section Instance.

Context `{Externals}.

(** [cleanup] *)
Definition cleanup (o : Outcomes) (dpi : GenericDevicePlugin)
    : list action * option error :=
  ([ActRemove (socketPath dpi)],
   match remove_result o with
   | Some err => if negb (errors_Is_ErrNotExist err) then Some err else None
   | None => None
   end).

(** [Register] *)
Definition Register (o : Outcomes) (dpi : GenericDevicePlugin)
    : list action * option error :=
  match connect_result o with
  | Some err => ([ActConnect pluginapi_KubeletSocket], Some err)
  | None =>
      ([ActConnect pluginapi_KubeletSocket;
        ActRegisterRPC pluginapi_Version (path_Base (socketPath dpi))
          (DeviceNamespace +:+ "/" +:+ deviceName dpi)],
       register_result o)
  end.

(** [Start]: the instance afterwards, what was done, and the error
    returned. *)
Definition Start (o : Outcomes) (stop0 : chan) (dpi : GenericDevicePlugin)
    : GenericDevicePlugin * list action * option error :=
  match server dpi with
  | Some _ => (dpi, [], Some (Errorf "gRPC server already started"))
  | None =>
      let dpi := set_stop stop0 dpi in
      let '(done1, err) := cleanup o dpi in
      match err with
      | Some err => (dpi, done1, Some err)
      | None =>
          match listen_result o with
          | Some err => (dpi, done1 ++ [ActListen (socketPath dpi)], Some err)
          | None =>
              let dpi := set_server (Some grpc_NewServer) dpi in
              let done2 :=
                done1 ++ [ActListen (socketPath dpi);
                          ActServe grpc_NewServer (socketPath dpi);
                          ActProbe (socketPath dpi)] in
              (* the probe's error is logged and then overwritten *)
              let '(done3, err) := Register o dpi in
              match err with
              | Some err => (dpi, done2 ++ done3, Some err)
              | None => (dpi, done2 ++ done3 ++ [ActGoHealthCheck], None)
              end
          end
      end
  end.

(** [Stop].  The send on [term] waits when the buffer already holds a
    value. *)
Definition Stop (o : Outcomes) (dpi : GenericDevicePlugin)
    : GenericDevicePlugin * list action * completion (option error) :=
  match server dpi with
  | None => (dpi, [], Returns None)
  | Some srv =>
      match term dpi with
      | _ :: _ => (dpi, [], Blocks)
      | [] =>
          let dpi := set_term [true] dpi in
          let dpi := set_server None dpi in
          let '(done1, err) := cleanup o dpi in
          (dpi, [ActSendTerm true; ActServerStop srv] ++ done1, Returns err)
      end
  end.

(** [for _, dev := range dpi.devs { if key == dev.ID { dev.Health = h } }] *)
Definition mark_health (key h : string) (ds : list Device) : list Device :=
  map (fun dev => if String.eqb key (ID dev) then {| ID := ID dev; Health := h |} else dev) ds.

(** The [for { select { ... } }] of [ListAndWatch] over the signals it
    receives, in the order it receives them: the instance afterwards,
    the responses sent, and whether the method returned ([Returns None])
    or still waits in [select] ([Blocks]).  A receive on [term] takes the
    value out of its buffer. *)
Fixpoint ListAndWatch_loop (dpi : GenericDevicePlugin) (received : list signal)
    : GenericDevicePlugin * list ListAndWatchResponse * completion (option error) :=
  match received with
  | [] => (dpi, [], Blocks)
  | RecvUnhealthy unhealthy :: rest =>
      let dpi := set_devs (mark_health unhealthy pluginapi_Unhealthy (devs dpi)) dpi in
      let '(dpi', sent, c) := ListAndWatch_loop dpi rest in
      (dpi', {| lw_Devices := devs dpi |} :: sent, c)
  | RecvHealthy healthy :: rest =>
      let dpi := set_devs (mark_health healthy pluginapi_Healthy (devs dpi)) dpi in
      let '(dpi', sent, c) := ListAndWatch_loop dpi rest in
      (dpi', {| lw_Devices := devs dpi |} :: sent, c)
  | RecvStop :: _ => (dpi, [], Returns None)
  | RecvTerm :: _ => (set_term (tail (term dpi)) dpi, [], Returns None)
  end.

(** [ListAndWatch]: each [s.Send] transmits the list as it is when it
    is sent. *)
Definition ListAndWatch (dpi : GenericDevicePlugin) (received : list signal)
    : GenericDevicePlugin * list ListAndWatchResponse * completion (option error) :=
  let '(dpi', sent, c) := ListAndWatch_loop dpi received in
  (dpi', {| lw_Devices := devs dpi |} :: sent, c).

(** [GetDevicePluginOptions] *)
Definition GetDevicePluginOptions (dpi : GenericDevicePlugin) (e : pluginapi_Empty)
    : option DevicePluginOptions * option error :=
  (Some {| PreStartRequired := false; GetPreferredAllocationAvailable := false |}, None).

(** [PreStartContainer] *)
Definition PreStartContainer (dpi : GenericDevicePlugin) (req : PreStartContainerRequest)
    : option PreStartContainerResponse * option error :=
  (Some PreStartContainerResponse_empty, None).

(** [GetPreferredAllocation] *)
Definition GetPreferredAllocation (dpi : GenericDevicePlugin)
    (req : PreferredAllocationRequest)
    : option PreferredAllocationResponse * option error :=
  (None, None).

(** The responses a session has sent after the signals [received]. *)
Definition sent_by (dpi : GenericDevicePlugin) (received : list signal)
    : list ListAndWatchResponse :=
  snd (fst (ListAndWatch dpi received)).

End Instance.


(** ** Discovery: what the loop keeps, and under which key *)

Section DiscoveryReading.

Context `{Externals}.

(** The devices that pass the two [continue] tests of the loop of
    [createIommuDeviceMap]. *)
Definition discovery_kept (dev : nvpci_NvidiaPCIDevice) : bool :=
  (nvpci_IsGPU dev || nvpci_IsNVSwitch dev) && String.eqb (nvpci_Driver dev) "vfio-pci".

(** The [iommuKey] the loop computes for a device. *)
Definition discovery_key (iommufdSupported : bool) (dev : nvpci_NvidiaPCIDevice) : string :=
  if iommufdSupported && negb (String.eqb (nvpci_IommuFD dev) "")
  then nvpci_IommuFD dev
  else strconv_Itoa (nvpci_IommuGroup dev).

(** The [NvidiaPCIDevice] the loop appends for a device. *)
Definition discovery_snapshot (dev : nvpci_NvidiaPCIDevice) : NvidiaPCIDevice :=
  {| Address := nvpci_Address dev;
     DeviceID := nvpci_Device dev;
     DeviceName := nvpci_DeviceName dev;
     IommuGroup := nvpci_IommuGroup dev;
     IommuFD := nvpci_IommuFD dev;
     IsNVSwitch := nvpci_IsNVSwitch dev |}.

(** The same key, read off a stored device. *)
Definition unit_key_of (iommufdSupported : bool) (d : NvidiaPCIDevice) : string :=
  if iommufdSupported && negb (String.eqb (IommuFD d) "")
  then IommuFD d
  else strconv_Itoa (IommuGroup d).

(** The unit index and the class index list the same keys: every key of
    the unit index is listed by a class, by one class only, and no class
    has an empty list. *)
Definition index_agree (st : DiscoveryState) : Prop :=
  (forall k, is_Some (iommuMap st !! k) ->
     exists deviceID keys, deviceMap st !! deviceID = Some keys /\ k ∈ keys) /\
  (forall id1 id2 keys1 keys2 k,
     deviceMap st !! id1 = Some keys1 -> deviceMap st !! id2 = Some keys2 ->
     k ∈ keys1 -> k ∈ keys2 -> id1 = id2) /\
  (forall deviceID keys, deviceMap st !! deviceID = Some keys -> keys <> []).

End DiscoveryReading.

(** ** Names of classes ([device_plugin.go]) *)

Section Names.

Context `{Externals}.

(** The inner loop of [getDeviceNameForID]: [Some] is the [return] at the
    first device with the ID. *)
Fixpoint getDeviceNameForID_devices (devices : list NvidiaPCIDevice) (deviceID : string)
    : option string :=
  match devices with
  | [] => None
  | dev :: rest =>
      if String.eqb (Sprintf_04x (DeviceID dev)) deviceID
      then Some (formatDeviceName (DeviceName dev))
      else getDeviceNameForID_devices rest deviceID
  end.

(** [getDeviceNameForID].  [range_iommuMap] holds the entries of
    [iommuMap] in the order in which this call's [range] visits them (Go
    leaves that order open). *)
Fixpoint getDeviceNameForID (range_iommuMap : list (string * list NvidiaPCIDevice))
    (deviceID : string) : string :=
  match range_iommuMap with
  | [] => ""
  | (_, devices) :: rest =>
      match getDeviceNameForID_devices devices deviceID with
      | Some name => name
      | None => getDeviceNameForID rest deviceID
      end
  end.

End Names.

(** ** The CDI writer ([cdi.go]) *)

(** The messages of [specs-go] that the writer fills in. *)
Module specs.

Record DeviceNode : Type := { Path : string }.
Record ContainerEdits : Type := { DeviceNodes : list DeviceNode }.
Record Device : Type := { Name : string; Edits : ContainerEdits }.
Record Spec : Type := { Version : string; Kind : string; Devices : list Device }.

End specs.

Definition kataCompatibleCDIVersion : string := "0.5.0".

(** Constants of the package declared outside the files at hand,
    [cdiapi.GenerateNameForSpec], and [sort.Slice] as
    [generateCDISpecForClass] calls it: on a copy of the keys, with the
    closure that compares by [extractNumber]. *)
Class CDIExternals : Type := {
  cdiVendor : string;
  cdiRoot : string;
  cdiapi_GenerateNameForSpec : specs.Spec -> string * option error;
  sort_Slice_keys : list string -> list string
}.

(** How the calls that reach the file system turn out: [os.MkdirAll],
    [cdiapi.NewCache] and [cache.WriteSpec]. *)
Record CDIOutcomes : Type := {
  MkdirAll_result : option error;
  NewCache_result : option error;
  WriteSpec_result : specs.Spec -> string -> option error
}.

(** What the writer does to the file system. *)
Inductive cdi_action : Type :=
| CdiMkdirAll (path : string)
| CdiWriteSpec (spec : specs.Spec) (specName : string).

Section CDI.

Context `{Externals} `{CDIExternals}.

(** The device nodes [generateCDISpecForClass] builds for one device of
    the unit [iommuKey]. *)
Definition cdi_deviceNodes (iommufdSupported : bool) (iommuKey : string)
    (dev : NvidiaPCIDevice) : list specs.DeviceNode :=
  if iommufdSupported && negb (String.eqb (IommuFD dev) "") then
    [ {| specs.Path := filepath_Join [vfioDevicePath; "devices"; IommuFD dev] |} ]
  else
    [ {| specs.Path := filepath_Join [vfioDevicePath; "vfio"] |};
      {| specs.Path := filepath_Join [vfioDevicePath; iommuKey] |} ].

(** The two nested loops of [generateCDISpecForClass] over the sorted
    keys: one entry per device, named by the key of its unit.  A key
    that is not in the unit index has no devices. *)
Definition cdi_deviceSpecs (iommufdSupported : bool)
    (m : gmap string (list NvidiaPCIDevice)) (sortedKeys : list string)
    : list specs.Device :=
  flat_map
    (fun iommuKey =>
       map (fun dev =>
              {| specs.Name := iommuKey;
                 specs.Edits :=
                   {| specs.DeviceNodes := cdi_deviceNodes iommufdSupported iommuKey dev |} |})
           (default [] (m !! iommuKey)))
    sortedKeys.

(** [generateCDISpecForClass]: what was written, and the error
    returned. *)
Definition generateCDISpecForClass (h : Host) (c : CDIOutcomes)
    (m : gmap string (list NvidiaPCIDevice)) (class : string)
    (scopedIommuKeys : list string) : list cdi_action * option error :=
  match supportsIOMMUFD h with
  | (_, Some err) => ([], Some (Wrapf "failed to check IOMMUFD support" err))
  | (iommufdSupported, None) =>
      let sortedKeys := sort_Slice_keys scopedIommuKeys in
      let deviceSpecs := cdi_deviceSpecs iommufdSupported m sortedKeys in
      match deviceSpecs with
      | [] => ([], None)
      | _ :: _ =>
          let spec := {| specs.Version := kataCompatibleCDIVersion;
                         specs.Kind := cdiVendor +:+ "/" +:+ class;
                         specs.Devices := deviceSpecs |} in
          match cdiapi_GenerateNameForSpec spec with
          | (_, Some err) => ([], Some (Wrapf "failed to generate CDI spec name" err))
          | (specName, None) =>
              match NewCache_result c with
              | Some err => ([], Some (Wrapf "failed to create CDI cache" err))
              | None =>
                  match WriteSpec_result c spec specName with
                  | Some err =>
                      ([CdiWriteSpec spec specName],
                       Some (Wrapf ("failed to save CDI spec " +:+ specName) err))
                  | None => ([CdiWriteSpec spec specName], None)
                  end
              end
          end
      end
  end.

(** The keys of the classes of one category, in the order of the
    [range]: the loops that fill [gpuKeys] and [nvSwitchKeys]. *)
Definition category_keys (st : DiscoveryState) (nvswitch : bool)
    (range_deviceMap : list (string * list string)) : list string :=
  flat_map (fun '(deviceID, keys) =>
              if Bool.eqb (isNVSwitchDeviceID st deviceID) nvswitch then keys else [])
    range_deviceMap.

(** The loops of [GenerateCDISpec] that write one spec per device ID of a
    category, up to the first error. *)
Fixpoint GenerateCDISpec_per_type (h : Host) (c : CDIOutcomes) (st : DiscoveryState)
    (nvswitch : bool)
    (range_iommuMap : string -> list (string * list NvidiaPCIDevice))
    (range_deviceMap : list (string * list string)) : list cdi_action * option error :=
  match range_deviceMap with
  | [] => ([], None)
  | (deviceID, keys) :: rest =>
      if Bool.eqb (isNVSwitchDeviceID st deviceID) nvswitch then
        let className := getDeviceNameForID (range_iommuMap deviceID) deviceID in
        let className := if String.eqb className "" then deviceID else className in
        match generateCDISpecForClass h c (iommuMap st) className keys with
        | (done1, Some err) =>
            (done1, Some (Wrapf ("failed to generate CDI spec for " +:+ className) err))
        | (done1, None) =>
            let '(done2, err) :=
              GenerateCDISpec_per_type h c st nvswitch range_iommuMap rest in
            (done1 ++ done2, err)
        end
      else GenerateCDISpec_per_type h c st nvswitch range_iommuMap rest
  end.

(** One category of [GenerateCDISpec]: with an alias, all its keys in one
    spec; without, one spec per device ID. *)
Definition GenerateCDISpec_category (h : Host) (c : CDIOutcomes) (st : DiscoveryState)
    (nvswitch : bool) (alias failure : string)
    (range_iommuMap : string -> list (string * list NvidiaPCIDevice))
    (range_deviceMap : list (string * list string)) : list cdi_action * option error :=
  if negb (String.eqb alias "") then
    match category_keys st nvswitch range_deviceMap with
    | [] => ([], None)
    | keys =>
        match generateCDISpecForClass h c (iommuMap st) alias keys with
        | (done1, Some err) => (done1, Some (Wrapf failure err))
        | (done1, None) => (done1, None)
        end
    end
  else GenerateCDISpec_per_type h c st nvswitch range_iommuMap range_deviceMap.

(** [GenerateCDISpec].  [range_gpu] and [range_nvswitch] hold the entries
    of [deviceMap] in the order in which the loop over the GPUs and the
    loop over the NVSwitches visit them. *)
Definition GenerateCDISpec (h : Host) (c : CDIOutcomes) (st : DiscoveryState)
    (PGPUAlias NVSwitchAlias : string)
    (range_iommuMap : string -> list (string * list NvidiaPCIDevice))
    (range_gpu range_nvswitch : list (string * list string))
    : list cdi_action * option error :=
  if bool_decide (iommuMap st = ∅) then ([], None)
  else
    match MkdirAll_result c with
    | Some err =>
        ([CdiMkdirAll cdiRoot],
         Some (Wrapf ("failed to create CDI directory " +:+ cdiRoot) err))
    | None =>
        match GenerateCDISpec_category h c st false PGPUAlias
                "failed to generate GPU CDI spec" range_iommuMap range_gpu with
        | (done1, Some err) => (CdiMkdirAll cdiRoot :: done1, Some err)
        | (done1, None) =>
            let '(done2, err) :=
              GenerateCDISpec_category h c st true NVSwitchAlias
                "failed to generate NVSwitch CDI spec" range_iommuMap range_nvswitch in
            (CdiMkdirAll cdiRoot :: done1 ++ done2, err)
        end
    end.

(** The names of the entries of the specs written. *)
Definition written_names (done : list cdi_action) : list string :=
  flat_map (fun a =>
              match a with
              | CdiWriteSpec spec _ => map specs.Name (specs.Devices spec)
              | CdiMkdirAll _ => []
              end) done.

End CDI.

(** ** Restart and the health watcher ([generic_device_plugin.go]) *)

(** An event of [fsnotify]: the path and the operation bits. *)
Record fsnotify_Event : Type := { ev_Name : string; ev_Op : N }.

(** The operations of [fsnotify]: [Create Op = 1 << iota], then [Write],
    [Remove], [Rename], [Chmod]. *)
Definition fsnotify_Create : N := 1.
Definition fsnotify_Write : N := 2.
Definition fsnotify_Remove : N := 4.
Definition fsnotify_Rename : N := 8.
Definition fsnotify_Chmod : N := 16.

(** What the [select] of [healthCheck] receives. *)
Inductive watch_input : Type :=
| WatchStop
| WatchEvent (event : fsnotify_Event).

(** How the loop of [healthCheck] ends: still waiting in [select],
    returned on [stop], or at the removal of the socket, where it calls
    [restart] and returns. *)
Inductive watch_end : Type :=
| StillWatching
| WatchStopped
| SocketRemoved.

(** How the set-up of the watcher turns out: [fsnotify.NewWatcher] and
    [watcher.Add] on a path. *)
Record WatchOutcomes : Type := {
  NewWatcher_result : option error;
  watcher_Add_result : string -> option error
}.

Section Watcher.

Context `{Externals}.

(** [filepath.Dir] of the Go library. *)
Variable filepath_Dir : string -> string.

(** [restart]: [Stop], whose error is dropped, then [Start] with a
    channel of its own.  [o1] and [o2] are the outcomes during [Stop]
    and during [Start]. *)
Definition restart (o1 o2 : Outcomes) (stop0 : chan) (dpi : GenericDevicePlugin)
    : GenericDevicePlugin * list action * completion (option error) :=
  match server dpi with
  | None =>
      (dpi, [],
       Returns (Some (Errorf ("grpc server instance not found for " +:+ deviceName dpi))))
  | Some _ =>
      match Stop o1 dpi with
      | (dpi1, done1, Blocks) => (dpi1, done1, Blocks)
      | (dpi1, done1, Returns _) =>
          let '(dpi2, done2, err) := Start o2 stop0 dpi1 in
          (dpi2, done1 ++ done2, Returns err)
      end
  end.

(** The loop of [healthCheck] that watches the device paths: the map
    from path to device ID so far, the paths handed to [watcher.Add],
    and the error of the first [watcher.Add] that fails (the path is
    entered in the map before the error is looked at). *)
Fixpoint healthCheck_watch (w : WatchOutcomes) (path : string) (ds : list Device)
    (pathDeviceMap : gmap string string) (watched : list string)
    : gmap string string * list string * option error :=
  match ds with
  | [] => (pathDeviceMap, watched, None)
  | dev :: rest =>
      let devicePath := filepath_Join [path; ID dev] in
      let pathDeviceMap := <[devicePath := ID dev]> pathDeviceMap in
      match watcher_Add_result w devicePath with
      | Some err => (pathDeviceMap, watched ++ [devicePath], Some err)
      | None => healthCheck_watch w path rest pathDeviceMap (watched ++ [devicePath])
      end
  end.

(** The set-up of [healthCheck], up to its loop: the map from path to
    device ID, the paths handed to [watcher.Add], and the error returned,
    if any. *)
Definition healthCheck_setup (w : WatchOutcomes) (h : Host) (dpi : GenericDevicePlugin)
    : gmap string string * list string * option error :=
  match NewWatcher_result w with
  | Some err => (∅, [], Some err)
  | None =>
      match watcher_Add_result w (filepath_Dir (socketPath dpi)) with
      | Some err => (∅, [filepath_Dir (socketPath dpi)], Some err)
      | None =>
          match os_Stat h (devicePath dpi) with
          | Some err =>
              if negb (errors_Is_ErrNotExist err)
              then (∅, [filepath_Dir (socketPath dpi)], Some err)
              else healthCheck_watch w (devicePath dpi) (devs dpi) ∅
                     [filepath_Dir (socketPath dpi)]
          | None =>
              healthCheck_watch w (devicePath dpi) (devs dpi) ∅
                [filepath_Dir (socketPath dpi)]
          end
      end
  end.

End Watcher.

(** The [for { select { ... } }] of [healthCheck] over what it receives:
    the keys it sends on [healthy] and [unhealthy], named as
    [ListAndWatch] receives them (the channels are unbuffered), and how
    the loop ends. *)
Fixpoint healthCheck_loop (pathDeviceMap : gmap string string) (socketPath0 : string)
    (received : list watch_input) : list signal * watch_end :=
  match received with
  | [] => ([], StillWatching)
  | WatchStop :: _ => ([], WatchStopped)
  | WatchEvent event :: rest =>
      match pathDeviceMap !! ev_Name event with
      | Some v =>
          if (ev_Op event =? fsnotify_Create)%N then
            let '(sent, e) := healthCheck_loop pathDeviceMap socketPath0 rest in
            (RecvHealthy v :: sent, e)
          else if (ev_Op event =? fsnotify_Remove)%N || (ev_Op event =? fsnotify_Rename)%N then
            let '(sent, e) := healthCheck_loop pathDeviceMap socketPath0 rest in
            (RecvUnhealthy v :: sent, e)
          else healthCheck_loop pathDeviceMap socketPath0 rest
      | None =>
          if String.eqb (ev_Name event) socketPath0 && (ev_Op event =? fsnotify_Remove)%N
          then ([], SocketRemoved)
          else healthCheck_loop pathDeviceMap socketPath0 rest
      end
  end.

(** ** One plugin per class ([device_plugin.go], [gfd.go]) *)

Section Plugins.

Context `{Externals}.

(** [startDevicePluginFunc]: [dp.Start(stop)] with the channel of the
    package. *)
Definition startDevicePluginFunc (o : Outcomes) (stop0 : chan) (dp : GenericDevicePlugin)
    : GenericDevicePlugin * option error :=
  let '(dp, _, err) := Start o stop0 dp in (dp, err).

(** The body of the loop of [createDevicePlugins] up to
    [NewGenericDevicePlugin]: the instance made for one entry of
    [deviceMap].  [range_iommuMap] is the order in which the call of
    [getDeviceNameForID] visits [iommuMap]. *)
Definition createDevicePlugins_plugin (st : DiscoveryState) (iommufdSupported : bool)
    (PGPUAlias NVSwitchAlias : string)
    (range_iommuMap : list (string * list NvidiaPCIDevice))
    (deviceID : string) (iommuKeys : list string) : GenericDevicePlugin :=
  let devs :=
    map (fun iommuKey => {| ID := iommuKey; Health := pluginapi_Healthy |}) iommuKeys in
  let deviceName :=
    if isNVSwitchDeviceID st deviceID then
      if negb (String.eqb NVSwitchAlias "") then NVSwitchAlias
      else getDeviceNameForID range_iommuMap deviceID
    else if negb (String.eqb PGPUAlias "") then PGPUAlias
    else getDeviceNameForID range_iommuMap deviceID in
  let deviceName := if String.eqb deviceName "" then deviceID else deviceName in
  let devicePath := if iommufdSupported then "/dev/vfio/devices/" else "/dev/vfio/" in
  NewGenericDevicePlugin deviceName devicePath devs.

(** The loop of [createDevicePlugins] over [deviceMap], in the order
    [range_deviceMap] of this call: the instances handed to
    [startDevicePlugin], and [devicePlugins], the instances whose start
    returned no error, as the start left them. *)
Fixpoint createDevicePlugins_loop
    (startDevicePlugin : GenericDevicePlugin -> GenericDevicePlugin * option error)
    (st : DiscoveryState) (iommufdSupported : bool) (PGPUAlias NVSwitchAlias : string)
    (range_iommuMap : string -> list (string * list NvidiaPCIDevice))
    (range_deviceMap : list (string * list string))
    (devicePlugins : list GenericDevicePlugin)
    : list GenericDevicePlugin * list GenericDevicePlugin :=
  match range_deviceMap with
  | [] => ([], devicePlugins)
  | (deviceID, iommuKeys) :: rest =>
      let dp := createDevicePlugins_plugin st iommufdSupported PGPUAlias NVSwitchAlias
                  (range_iommuMap deviceID) deviceID iommuKeys in
      let '(dp', err) := startDevicePlugin dp in
      let devicePlugins :=
        match err with
        | Some _ => devicePlugins
        | None => devicePlugins ++ [dp']
        end in
      let '(made, devicePlugins) :=
        createDevicePlugins_loop startDevicePlugin st iommufdSupported PGPUAlias
          NVSwitchAlias range_iommuMap rest devicePlugins in
      (dp :: made, devicePlugins)
  end.

(** [createDevicePlugins], up to the receive on [stop]. *)
Definition createDevicePlugins
    (startDevicePlugin : GenericDevicePlugin -> GenericDevicePlugin * option error)
    (h : Host) (st : DiscoveryState) (PGPUAlias NVSwitchAlias : string)
    (range_iommuMap : string -> list (string * list NvidiaPCIDevice))
    (range_deviceMap : list (string * list string))
    : list GenericDevicePlugin * list GenericDevicePlugin :=
  match supportsIOMMUFD h with
  | (_, Some _) => ([], [])
  | (iommufdSupported, None) =>
      createDevicePlugins_loop startDevicePlugin st iommufdSupported PGPUAlias
        NVSwitchAlias range_iommuMap range_deviceMap []
  end.

(** [getGPUDeviceName] *)
Fixpoint getGPUDeviceName (st : DiscoveryState) (PGPUAlias : string)
    (range_iommuMap : string -> list (string * list NvidiaPCIDevice))
    (range_deviceMap : list (string * list string)) : string :=
  match range_deviceMap with
  | [] => ""
  | (deviceID, _) :: rest =>
      if isNVSwitchDeviceID st deviceID
      then getGPUDeviceName st PGPUAlias range_iommuMap rest
      else
        let deviceName :=
          if negb (String.eqb PGPUAlias "") then PGPUAlias
          else getDeviceNameForID (range_iommuMap deviceID) deviceID in
        let deviceName := if String.eqb deviceName "" then deviceID else deviceName in
        deviceName
  end.

End Plugins.

(** The device IDs that a list of plugins offers to the kubelet. *)
Definition advertised_IDs (plugins : list GenericDevicePlugin) : list string :=
  flat_map (fun dp => map ID (devs dp)) plugins.
(** ** Values for the examples *)

(** [filepath.Join] on elements whose joined path is already clean: the
    non-empty elements, separated by a slash. *)
Definition join_clean (elems : list string) : string :=
  String.concat "/" (filter (fun e => negb (String.eqb e "")) elems).

(** [path.Base] on a non-empty path that does not end in a slash: what
    follows the last slash. *)
Fixpoint base_of (p last_elem : string) : string :=
  match p with
  | EmptyString => last_elem
  | String c r =>
      if Ascii.eqb c "/" then base_of r EmptyString
      else base_of r (last_elem +:+ String c EmptyString)
  end.

(** The externals of a host with the usual constants; the classifiers are
    those of [nvpci] (VGA and 3D controller classes, NVSwitch class). *)
Definition exampleExternals : Externals :=
  {| vfioDevicePath := "/dev/vfio";
     rootPath := "/tmp/kubevirt-test";
     iommuDevicePath := "dev/iommu";
     DeviceNamespace := "nvidia.com";
     filepath_Join := join_clean;
     path_Base := fun p => base_of p EmptyString;
     strings_ToUpper := ascii_ToUpper;
     nvpci_IsGPU := fun d => (nvpci_Class d =? 196608) || (nvpci_Class d =? 197120);
     nvpci_IsNVSwitch := fun d => nvpci_Class d =? 425984 |}.

(** [getFakeIommuMap] of the package's tests. *)
Definition fakeIommuMap : gmap string (list NvidiaPCIDevice) :=
  <["1" := [{| Address := "0000:01:00.0"; DeviceID := 7040;
               DeviceName := "GeForce GTX 1080"; IommuGroup := 1;
               IommuFD := "vfio3"; IsNVSwitch := false |}]]>
  (<["2" := [{| Address := "0000:02:00.0"; DeviceID := 7041;
                DeviceName := "GeForce GTX 1070"; IommuGroup := 2;
                IommuFD := "vfio4"; IsNVSwitch := false |}]]>
  (<["3" := [{| Address := "0000:03:00.0"; DeviceID := 7042;
                DeviceName := "GeForce GTX 1060"; IommuGroup := 3;
                IommuFD := ""; IsNVSwitch := false |}]]> ∅)).

(** A host without [/dev/iommu] (legacy mode), one with it (fd mode),
    and one whose enumeration fails. *)
Definition legacyHost : Host :=
  {| os_Stat := fun _ => Some (ExtErr true "no such file or directory");
     GetAllDevices := ([], None) |}.
Definition fdHost : Host :=
  {| os_Stat := fun _ => None; GetAllDevices := ([], None) |}.
Definition enumFailsHost : Host :=
  {| os_Stat := fun _ => Some (ExtErr true "no such file or directory");
     GetAllDevices := ([], Some (ExtErr false "enumeration failed")) |}.

Definition request (keys : list (list string)) : AllocateRequest :=
  {| ContainerRequests := map (fun ks => {| DevicesIDs := ks |}) keys |}.

(** The device list of the package's tests. *)
Definition testDevices : list Device :=
  [ {| ID := "1"; Health := pluginapi_Healthy |};
    {| ID := "2"; Health := pluginapi_Healthy |} ].

(** The answers of the package's tests: group 1 in legacy mode, groups 1
    and 2 in fd mode. *)
Definition legacyResponse1 : AllocateResponse :=
  {| ContainerResponses :=
       [ {| Devices := [ {| ContainerPath := "/dev/vfio/vfio"; HostPath := "/dev/vfio/vfio";
                            Permissions := "mrw" |};
                         {| ContainerPath := "/dev/vfio/1"; HostPath := "/dev/vfio/1";
                            Permissions := "mrw" |} ] |} ] |}.

Definition fdResponse12 : AllocateResponse :=
  {| ContainerResponses :=
       [ {| Devices := [ {| ContainerPath := "/dev/vfio/devices/vfio3";
                            HostPath := "/dev/vfio/devices/vfio3";
                            Permissions := "mrw" |};
                         {| ContainerPath := "/dev/vfio/devices/vfio4";
                            HostPath := "/dev/vfio/devices/vfio4";
                            Permissions := "mrw" |} ] |} ] |}.

(** A host whose capability check fails: [os.Stat] fails with an error
    other than not-found. *)
Definition statFailsHost : Host :=
  {| os_Stat := fun _ => Some (ExtErr false "permission denied");
     GetAllDevices := ([], None) |}.

Definition emptyState : DiscoveryState :=
  {| iommuMap := ∅; deviceMap := ∅; nvSwitchDeviceIDs := ∅ |}.

(** A state left by an earlier pass that found the GPU of group 1. *)
Definition priorState : DiscoveryState :=
  {| iommuMap :=
       <["1" := [{| Address := "0000:01:00.0"; DeviceID := 7040;
                    DeviceName := "GeForce GTX 1080"; IommuGroup := 1;
                    IommuFD := ""; IsNVSwitch := false |}]]> ∅;
     deviceMap := <["1b80" := ["1"]]> ∅;
     nvSwitchDeviceIDs := ∅ |}.

Definition vfioGPU (address : string) (device : Z) (name : string) (group : Z)
    : nvpci_NvidiaPCIDevice :=
  {| nvpci_Address := address; nvpci_Vendor := 4318; nvpci_Class := 197120;
     nvpci_Device := device; nvpci_DeviceName := name; nvpci_Driver := "vfio-pci";
     nvpci_IommuGroup := group; nvpci_IommuFD := "" |}.

(** A legacy-mode host with one GPU in group 1 and two functions of
    another in group 2. *)
Definition sharedGroupHost : Host :=
  {| os_Stat := fun _ => Some (ExtErr true "no such file or directory");
     GetAllDevices :=
       ([vfioGPU "0000:01:00.0" 7040 "GeForce GTX 1080" 1;
         vfioGPU "0000:02:00.0" 7041 "GeForce GTX 1070" 2;
         vfioGPU "0000:02:00.1" 7041 "GeForce GTX 1070" 2], None) |}.

(** A start in which everything succeeds but the registration call. *)
Definition registrationRefused : Outcomes :=
  {| remove_result := Some (ExtErr true "no such file or directory");
     listen_result := None;
     probe_result := None;
     connect_result := None;
     register_result := Some (ExtErr false "registration refused") |}.

(** CDI externals for the examples: the usual vendor and root, a spec
    name made of the kind with a dash for the slash, and the insertion
    sort for [sort.Slice]. *)
Definition exampleCDIExternals : CDIExternals :=
  {| cdiVendor := "nvidia.com";
     cdiRoot := "/var/run/cdi";
     cdiapi_GenerateNameForSpec :=
       fun spec => (strings_ReplaceAll1 (specs.Kind spec) "/" "-", None);
     sort_Slice_keys := sortedKeys |}.

(** Every call to the file system succeeds. *)
Definition cdiSucceeds : CDIOutcomes :=
  {| MkdirAll_result := None;
     NewCache_result := None;
     WriteSpec_result := fun _ _ => None |}.


(** A device bound to [vfio-pci] with a class and an IOMMUFD handle of
    its own. *)
Definition vfioDevice (address : string) (class device : Z) (name : string) (group : Z)
    (fd : string) : nvpci_NvidiaPCIDevice :=
  {| nvpci_Address := address; nvpci_Vendor := 4318; nvpci_Class := class;
     nvpci_Device := device; nvpci_DeviceName := name; nvpci_Driver := "vfio-pci";
     nvpci_IommuGroup := group; nvpci_IommuFD := fd |}.

(** A legacy-mode host with a GPU in group 7 and an NVSwitch in group
    9. *)
Definition switchHost : Host :=
  {| os_Stat := fun _ => Some (ExtErr true "no such file or directory");
     GetAllDevices :=
       ([vfioDevice "0000:01:00.0" 197120 8963 "H100" 7 "";
         vfioDevice "0000:05:00.0" 425984 8867 "NVSwitch" 9 ""], None) |}.

(** An fd-mode host on which every device has a handle, and one with a
    device in group 3 that has none. *)
Definition fdDevicesHost : Host :=
  {| os_Stat := fun _ => None;
     GetAllDevices :=
       ([vfioDevice "0000:01:00.0" 197120 7040 "GeForce GTX 1080" 1 "vfio3";
         vfioDevice "0000:02:00.0" 197120 7041 "GeForce GTX 1070" 2 "vfio4"], None) |}.

(** A legacy-mode host whose only device is bound to another driver. *)
Definition otherDriverHost : Host :=
  {| os_Stat := fun _ => Some (ExtErr true "no such file or directory");
     GetAllDevices :=
       ([{| nvpci_Address := "0000:01:00.0"; nvpci_Vendor := 4318; nvpci_Class := 197120;
            nvpci_Device := 7040; nvpci_DeviceName := "GeForce GTX 1080";
            nvpci_Driver := "nvidia"; nvpci_IommuGroup := 1; nvpci_IommuFD := "" |}],
        None) |}.

(** A start in which everything succeeds, and one whose listen fails. *)
Definition startSucceeds : Outcomes :=
  {| remove_result := None; listen_result := None; probe_result := None;
     connect_result := None; register_result := None |}.
Definition listenFails : Outcomes :=
  {| remove_result := None;
     listen_result := Some (ExtErr false "address already in use");
     probe_result := None; connect_result := None; register_result := None |}.

(** The instance of the package's tests, and the same instance with a
    server running. *)
Definition testPlugin : GenericDevicePlugin :=
  NewGenericDevicePlugin "foo" "/dev/vfio/" testDevices.
Definition runningPlugin : GenericDevicePlugin :=
  set_server (Some grpc_NewServer) testPlugin.

(** [filepath.Dir] on a clean path with a slash that is not the root:
    what precedes the last slash. *)
Fixpoint dir_of (p before pending : string) : string :=
  match p with
  | EmptyString => before
  | String c r =>
      if Ascii.eqb c "/" then dir_of r (before +:+ pending) (String c EmptyString)
      else dir_of r before (pending +:+ String c EmptyString)
  end.

(** A watcher that can be created and watches every path. *)
Definition watchSucceeds : WatchOutcomes :=
  {| NewWatcher_result := None; watcher_Add_result := fun _ => None |}.

(** The map from path to device ID that the watcher of [testPlugin]
    builds. *)
Definition testPathDeviceMap : gmap string string :=
  <["/dev/vfio/2" := "2"]> (<["/dev/vfio/1" := "1"]> ∅).

(** [filepath.Join] on elements that are clean but for one slash at the
    end: the slash at the end of an element is dropped. *)
Fixpoint trim_slash (e : string) : string :=
  match e with
  | EmptyString => EmptyString
  | String c r =>
      if Ascii.eqb c "/" && String.eqb r "" then EmptyString else String c (trim_slash r)
  end.

Definition join_trim (elems : list string) : string :=
  join_clean (map trim_slash elems).

(** The externals of the examples with that [filepath.Join]. *)
Definition trimmingExternals : Externals :=
  {| vfioDevicePath := "/dev/vfio";
     rootPath := "/";
     iommuDevicePath := "dev/iommu";
     DeviceNamespace := "nvidia.com";
     filepath_Join := join_trim;
     path_Base := fun p => base_of p EmptyString;
     strings_ToUpper := ascii_ToUpper;
     nvpci_IsGPU := fun d => (nvpci_Class d =? 196608) || (nvpci_Class d =? 197120);
     nvpci_IsNVSwitch := fun d => nvpci_Class d =? 425984 |}.
(** * Properties *)

(** ** Allocate *)

Section AllocateFacts.

Context `{Externals}.

Lemma Allocate_devs_legacy nvDevs acc :
  Allocate_devs false nvDevs acc = inr acc.
Proof. induction nvDevs as [|dev rest IH]; simpl; auto. Qed.

Lemma Allocate_devs_fd_ok nvDevs acc :
  Forall (fun dev => IommuFD dev <> "") nvDevs ->
  Allocate_devs true nvDevs acc = inr (acc ++ map fd_node nvDevs).
Proof.
  intros Hall. revert acc.
  induction Hall as [|dev rest Hdev _ IH]; intros acc; simpl.
  - by rewrite app_nil_r.
  - destruct (String.eqb_spec (IommuFD dev) "") as [Heq|_]; [done|].
    rewrite IH, <- app_assoc. reflexivity.
Qed.

Lemma Allocate_devs_fd_missing nvDevs acc dev :
  dev ∈ nvDevs -> IommuFD dev = "" ->
  exists err, Allocate_devs true nvDevs acc = inl err.
Proof.
  intros Hin Hfd. revert acc.
  induction nvDevs as [|d rest IH]; intros acc; [by apply elem_of_nil in Hin|].
  simpl. destruct (String.eqb_spec (IommuFD d) "") as [_|Hne]; [eauto|].
  apply elem_of_cons in Hin as [->|Hin]; [done|]. by apply IH.
Qed.

Lemma Allocate_devs_fd_inv nvDevs acc specs :
  Allocate_devs true nvDevs acc = inr specs ->
  Forall (fun dev => IommuFD dev <> "") nvDevs.
Proof.
  revert acc. induction nvDevs as [|d rest IH]; intros acc; simpl; [constructor|].
  destruct (String.eqb_spec (IommuFD d) "") as [_|Hne]; [done|].
  intros Hrun. constructor; eauto.
Qed.

Lemma Allocate_ids_ok fd m ids acc :
  Forall (key_ok fd m) ids ->
  Allocate_ids fd m ids acc = inr (acc ++ flat_map (unit_nodes fd m) ids).
Proof.
  intros Hall. revert acc.
  induction Hall as [|k rest (nvDevs & Hk & Hfd) _ IH]; intros acc; simpl.
  - by rewrite app_nil_r.
  - rewrite Hk. unfold unit_nodes at 1. rewrite Hk. simpl. destruct fd.
    + rewrite Allocate_devs_fd_ok by auto. rewrite IH, <- app_assoc. reflexivity.
    + rewrite Allocate_devs_legacy, IH, <- !app_assoc. reflexivity.
Qed.

Lemma Allocate_ids_inv fd m ids acc specs :
  Allocate_ids fd m ids acc = inr specs -> Forall (key_ok fd m) ids.
Proof.
  revert acc. induction ids as [|k rest IH]; intros acc; simpl; [constructor|].
  destruct (m !! k) as [nvDevs|] eqn:Hk; [|done].
  destruct (Allocate_devs fd nvDevs acc) as [err|specs1] eqn:Hdevs; [done|].
  intros Hrun. constructor; [|eauto].
  exists nvDevs. split; [done|]. intros ->. eauto using Allocate_devs_fd_inv.
Qed.

Lemma Allocate_reqs_ok fd m reqs acc :
  Forall (fun req => Forall (key_ok fd m) (DevicesIDs req)) reqs ->
  Allocate_reqs fd m reqs acc = inr (acc ++ map (container_response fd m) reqs).
Proof.
  intros Hall. revert acc.
  induction Hall as [|req rest Hreq _ IH]; intros acc; simpl.
  - by rewrite app_nil_r.
  - rewrite (Allocate_ids_ok _ _ _ [] Hreq). simpl.
    rewrite IH, <- app_assoc. reflexivity.
Qed.

Lemma Allocate_reqs_inv fd m reqs acc responses :
  Allocate_reqs fd m reqs acc = inr responses ->
  Forall (fun req => Forall (key_ok fd m) (DevicesIDs req)) reqs.
Proof.
  revert acc. induction reqs as [|req rest IH]; intros acc; simpl; [constructor|].
  destruct (Allocate_ids fd m (DevicesIDs req) []) as [err|specs] eqn:Hids; [done|].
  intros Hrun. constructor; eauto using Allocate_ids_inv.
Qed.

Lemma Allocate_reqs_bad_key fd m reqs acc req k :
  req ∈ reqs -> k ∈ DevicesIDs req -> ~ key_ok fd m k ->
  exists err, Allocate_reqs fd m reqs acc = inl err.
Proof.
  intros Hreq Hk Hbad.
  destruct (Allocate_reqs fd m reqs acc) as [err|responses] eqn:Hrun; [eauto|].
  exfalso. apply Hbad.
  apply Allocate_reqs_inv in Hrun.
  rewrite Forall_forall in Hrun. specialize (Hrun req Hreq).
  rewrite Forall_forall in Hrun. by apply Hrun.
Qed.

(** [Allocate] returns either a response and no error, or an error and
    no response. *)
Lemma Allocate_result_shape h m reqs :
  (exists resp, Allocate h m reqs = (Some resp, None)) \/
  (exists err, Allocate h m reqs = (None, Some err)).
Proof.
  unfold Allocate.
  destruct (supportsIOMMUFD h) as [fd [err|]]; [eauto|].
  destruct (Allocate_reqs fd m (ContainerRequests reqs) []); eauto.
Qed.

(** C1: a batch in which some container request names a unit key that
    is not in the IOMMU map makes [Allocate] return an error and the
    nil response, whatever the other keys and requests of the batch
    are: no response for any container is produced. *)
Theorem Allocate_unknown_key_fails_whole_call
    (h : Host) (m : gmap string (list NvidiaPCIDevice)) (reqs : AllocateRequest)
    (req : ContainerAllocateRequest) (iommuID : string) :
  req ∈ ContainerRequests reqs ->
  iommuID ∈ DevicesIDs req ->
  m !! iommuID = None ->
  exists err, Allocate h m reqs = (None, Some err).
Proof.
  intros Hreq Hk Hunknown. unfold Allocate.
  destruct (supportsIOMMUFD h) as [fd [err|]]; [eauto|].
  destruct (Allocate_reqs_bad_key fd m (ContainerRequests reqs) [] req iommuID)
    as [err Herr]; auto.
  - intros (nvDevs & Hsome & _). congruence.
  - rewrite Herr. eauto.
Qed.

Lemma length_flat_map_const {A B : Type} (f : A -> list B) (n : nat) (l : list A) :
  (forall a, length (f a) = n) -> length (flat_map f l) = (n * length l)%nat.
Proof.
  intros Hf. induction l as [|a l IH]; simpl; [lia|].
  rewrite length_app, Hf, IH. lia.
Qed.

Lemma length_flat_map_sum {A B : Type} (f : A -> list B) (l : list A) :
  length (flat_map f l) = sum_list (map (fun a => length (f a)) l).
Proof.
  induction l as [|a l IH]; simpl; [done|]. by rewrite length_app, IH.
Qed.

(** C2: what [Allocate] answers for known unit keys.  In fd mode a
    requested unit with a device that has no fd handle fails the call;
    a successful call answers each container request with exactly one
    device node per device of each requested unit, in order, each with
    host path and container path [<vfioDevicePath>/devices/<IommuFD>]
    and permissions ["mrw"].  In legacy mode a successful call answers
    each container request with exactly two device nodes per requested
    key, [<vfioDevicePath>/vfio] and [<vfioDevicePath>/<key>], host
    path and container path alike and permissions ["mrw"], however many
    devices the unit holds.  The call succeeds whenever every requested
    key is known and, in fd mode, every device of the requested units
    has a handle. *)
Theorem Allocate_device_nodes_per_mode
    (h : Host) (m : gmap string (list NvidiaPCIDevice)) (reqs : AllocateRequest) :
  (supportsIOMMUFD h = (true, None) ->
   forall req iommuID nvDevs dev,
     req ∈ ContainerRequests reqs -> iommuID ∈ DevicesIDs req ->
     m !! iommuID = Some nvDevs -> dev ∈ nvDevs -> IommuFD dev = "" ->
     exists err, Allocate h m reqs = (None, Some err)) /\
  (supportsIOMMUFD h = (true, None) ->
   forall resp, Allocate h m reqs = (Some resp, None) ->
     ContainerResponses resp =
       map (fun req =>
              {| Devices :=
                   flat_map (fun iommuID =>
                      map (fun dev =>
                             {| ContainerPath :=
                                  filepath_Join [vfioDevicePath; "devices"; IommuFD dev];
                                HostPath :=
                                  filepath_Join [vfioDevicePath; "devices"; IommuFD dev];
                                Permissions := "mrw" |})
                          (default [] (m !! iommuID)))
                     (DevicesIDs req) |})
           (ContainerRequests reqs) /\
     Forall2 (fun req r =>
                length (Devices r) =
                  sum_list (map (fun iommuID => length (default [] (m !! iommuID)))
                              (DevicesIDs req)))
             (ContainerRequests reqs) (ContainerResponses resp)) /\
  (supportsIOMMUFD h = (false, None) ->
   forall resp, Allocate h m reqs = (Some resp, None) ->
     ContainerResponses resp =
       map (fun req =>
              {| Devices :=
                   flat_map (fun iommuID =>
                      [ {| ContainerPath := filepath_Join [vfioDevicePath; "vfio"];
                           HostPath := filepath_Join [vfioDevicePath; "vfio"];
                           Permissions := "mrw" |};
                        {| ContainerPath := filepath_Join [vfioDevicePath; iommuID];
                           HostPath := filepath_Join [vfioDevicePath; iommuID];
                           Permissions := "mrw" |} ])
                     (DevicesIDs req) |})
           (ContainerRequests reqs) /\
     Forall2 (fun req r => length (Devices r) = (2 * length (DevicesIDs req))%nat)
             (ContainerRequests reqs) (ContainerResponses resp)) /\
  (forall fd, supportsIOMMUFD h = (fd, None) ->
     (forall req iommuID, req ∈ ContainerRequests reqs -> iommuID ∈ DevicesIDs req ->
        exists nvDevs, m !! iommuID = Some nvDevs /\
          (fd = true -> forall dev, dev ∈ nvDevs -> IommuFD dev <> "")) ->
     exists resp, Allocate h m reqs = (Some resp, None)).
Proof.
  assert (Hrun : forall fd resp,
             supportsIOMMUFD h = (fd, None) ->
             Allocate h m reqs = (Some resp, None) ->
             ContainerResponses resp
             = map (container_response fd m) (ContainerRequests reqs)).
  { intros fd resp Hfd. unfold Allocate. rewrite Hfd.
    destruct (Allocate_reqs fd m (ContainerRequests reqs) []) as [err|rs] eqn:Hrs;
      [done|].
    intros [= <-]. simpl.
    pose proof (Allocate_reqs_inv _ _ _ _ _ Hrs) as Hok.
    rewrite (Allocate_reqs_ok _ _ _ [] Hok) in Hrs. by injection Hrs as <-. }
  split; [|split; [|split]].
  - intros Hfd req iommuID nvDevs dev Hreq Hk Hm Hdev Hnofd.
    unfold Allocate. rewrite Hfd.
    destruct (Allocate_reqs_bad_key true m (ContainerRequests reqs) [] req iommuID)
      as [err Herr]; auto.
    + intros (nvDevs' & Hm' & Hall). rewrite Hm in Hm'. injection Hm' as <-.
      specialize (Hall eq_refl). rewrite Forall_forall in Hall. by apply (Hall dev).
    + rewrite Herr. eauto.
  - intros Hfd resp Hresp. rewrite (Hrun true resp Hfd Hresp). split; [reflexivity|].
    clear. induction (ContainerRequests reqs) as [|req rest IH]; simpl;
      constructor; auto.
    simpl. rewrite length_flat_map_sum. f_equal. apply map_ext. intros k.
    unfold unit_nodes. by rewrite length_map.
  - intros Hfd resp Hresp. rewrite (Hrun false resp Hfd Hresp). split; [reflexivity|].
    clear. induction (ContainerRequests reqs) as [|req rest IH]; simpl;
      constructor; auto.
    simpl. rewrite (length_flat_map_const _ 2); [lia|done].
  - intros fd Hfd Hall. unfold Allocate. rewrite Hfd.
    rewrite (Allocate_reqs_ok fd m (ContainerRequests reqs) []); [eauto|].
    rewrite Forall_forall. intros req Hreq. rewrite Forall_forall. intros k Hk.
    destruct (Hall req k Hreq Hk) as (nvDevs & Hm & Hdevs).
    exists nvDevs. split; [done|]. intros ->. rewrite Forall_forall. auto.
Qed.

End AllocateFacts.

(** ** Discovery *)

Section DiscoveryFacts.

Context `{Externals}.

Lemma class_index_inv_empty :
  class_index_inv {| iommuMap := ∅; deviceMap := ∅; nvSwitchDeviceIDs := ∅ |}.
Proof. intros deviceID keys. simpl. by rewrite lookup_empty. Qed.

Lemma discover_device_inv fd st dev :
  class_index_inv st -> class_index_inv (discover_device fd st dev).
Proof.
  intros Hinv. unfold discover_device.
  destruct (negb (nvpci_IsGPU dev) && negb (nvpci_IsNVSwitch dev)); [done|].
  destruct (negb (String.eqb (nvpci_Driver dev) "vfio-pci")); [done|].
  set (iommuKey := if fd && negb (String.eqb (nvpci_IommuFD dev) "")
                   then nvpci_IommuFD dev else strconv_Itoa (nvpci_IommuGroup dev)).
  set (deviceID := Sprintf_04x (nvpci_Device dev)).
  intros id keys. simpl.
  destruct (iommuMap st !! iommuKey) as [unit|] eqn:Hunit.
  - intros Hkeys. destruct (Hinv id keys Hkeys) as [Hnodup Hdom].
    split; [done|]. intros k Hk.
    destruct (decide (iommuKey = k)) as [<-|Hne].
    + rewrite lookup_insert_eq. eauto.
    + rewrite lookup_insert_ne by done. auto.
  - destruct (decide (deviceID = id)) as [<-|Hne].
    + rewrite lookup_insert_eq. intros [= <-].
      assert (Hold : NoDup (default [] (deviceMap st !! deviceID)) /\
                     forall k, k ∈ default [] (deviceMap st !! deviceID) ->
                               is_Some (iommuMap st !! k)).
      { destruct (deviceMap st !! deviceID) as [old|] eqn:Hold'; simpl.
        - eauto.
        - split; [constructor|]. intros k Hk. by apply elem_of_nil in Hk. }
      destruct Hold as [Hnodup Hdom]. split.
      * apply NoDup_app. split; [done|]. split; [|apply NoDup_singleton].
        intros k Hk Hk'. apply list_elem_of_singleton in Hk'. subst k.
        apply Hdom in Hk. rewrite Hunit in Hk. by destruct Hk.
      * intros k Hk. apply elem_of_app in Hk as [Hk|Hk].
        -- destruct (decide (iommuKey = k)) as [<-|Hne].
           ++ rewrite lookup_insert_eq. eauto.
           ++ rewrite lookup_insert_ne by done. auto.
        -- apply list_elem_of_singleton in Hk. subst k.
           rewrite lookup_insert_eq. eauto.
    + rewrite lookup_insert_ne by done. intros Hkeys.
      destruct (Hinv id keys Hkeys) as [Hnodup Hdom].
      split; [done|]. intros k Hk.
      destruct (decide (iommuKey = k)) as [<-|Hne'].
      * rewrite lookup_insert_eq. eauto.
      * rewrite lookup_insert_ne by done. auto.
Qed.

Lemma discover_devices_inv fd devices st :
  class_index_inv st -> class_index_inv (fold_left (discover_device fd) devices st).
Proof.
  revert st. induction devices as [|dev rest IH]; intros st Hinv; simpl; [done|].
  apply IH. by apply discover_device_inv.
Qed.

(** C3, as amended: a pass whose capability check fails leaves the unit
    index, the class index and the NVSwitch set as they were; a pass
    whose enumeration fails leaves all three empty, whatever they held
    before. *)
Theorem createIommuDeviceMap_on_failure (h : Host) (st : DiscoveryState) :
  (forall err, snd (supportsIOMMUFD h) = Some err ->
     createIommuDeviceMap h st = st) /\
  (forall err, snd (supportsIOMMUFD h) = None -> snd (GetAllDevices h) = Some err ->
     createIommuDeviceMap h st
     = {| iommuMap := ∅; deviceMap := ∅; nvSwitchDeviceIDs := ∅ |}).
Proof.
  unfold createIommuDeviceMap. split.
  - intros err. destruct (supportsIOMMUFD h) as [fd [e|]]; simpl; [done|discriminate].
  - intros err. destruct (supportsIOMMUFD h) as [fd [e|]]; simpl; [discriminate|].
    intros _. destruct (GetAllDevices h) as [devices [e|]]; simpl; [done|discriminate].
Qed.

(** C4: after a discovery pass no class of the class index lists a unit
    key twice, whatever the enumeration returned and however many kept
    devices share a key. *)
Theorem createIommuDeviceMap_class_keys_NoDup
    (h : Host) (st : DiscoveryState) (deviceID : string) (keys : list string) :
  snd (supportsIOMMUFD h) = None ->
  deviceMap (createIommuDeviceMap h st) !! deviceID = Some keys ->
  NoDup keys.
Proof.
  unfold createIommuDeviceMap.
  destruct (supportsIOMMUFD h) as [fd [e|]]; simpl; [discriminate|]. intros _.
  destruct (GetAllDevices h) as [devices [e|]].
  - simpl. by rewrite lookup_empty.
  - intros Hkeys.
    apply (discover_devices_inv fd devices _ class_index_inv_empty deviceID keys Hkeys).
Qed.

End DiscoveryFacts.

(** ** Ordering of unit keys for CDI generation *)

Section SortByKey.

Context {A : Type} (f : A -> Z).

Lemma StronglySorted_weaken (R S : A -> A -> Prop) (l : list A) :
  (forall a b, R a b -> S a b) -> StronglySorted R l -> StronglySorted S l.
Proof.
  intros HRS. induction 1 as [|a l Hl IH Ha]; constructor; [done|].
  eapply Forall_impl; [exact Ha|]. auto.
Qed.

Lemma StronglySorted_map (R : Z -> Z -> Prop) (l : list A) :
  StronglySorted R (map f l) <-> StronglySorted (fun a b => R (f a) (f b)) l.
Proof.
  induction l as [|a l IH]; simpl.
  - split; constructor.
  - rewrite !StronglySorted_cons, IH, Forall_map. reflexivity.
Qed.

Lemma StronglySorted_rev (R : A -> A -> Prop) (l : list A) :
  StronglySorted (fun a b => R b a) l -> StronglySorted R (rev l).
Proof.
  induction 1 as [|a l Hl IH Ha]; simpl; [constructor|].
  apply StronglySorted_app_2; [|done|repeat constructor].
  intros x1 x2 Hx1 Hx2. apply list_elem_of_singleton in Hx2. subst x2.
  rewrite Forall_forall in Ha. apply Ha.
  apply list_elem_of_In. apply in_rev. by apply list_elem_of_In.
Qed.

Lemma sort_Slice_post_by_key (l sorted : list A) :
  sort_Slice_post (less_by_key f) l sorted <->
  Permutation l sorted /\ non_decreasing (map f sorted).
Proof.
  unfold sort_Slice_post, non_decreasing. rewrite StronglySorted_map.
  split; intros [Hp Hs]; (split; [done|]);
    (eapply StronglySorted_weaken; [|exact Hs]);
    intros a b; unfold less_by_key; lia.
Qed.

Lemma insert_from_right_perm (x : A) (revp : list A) :
  Permutation (x :: revp) (insert_from_right (less_by_key f) x revp).
Proof.
  induction revp as [|y r IH]; simpl; [done|].
  destruct ((less_by_key f) x y); [|done].
  rewrite perm_swap. by constructor.
Qed.

Lemma insert_from_right_sorted (x : A) (revp : list A) :
  StronglySorted (fun a b => f b <= f a) revp ->
  StronglySorted (fun a b => f b <= f a) (insert_from_right (less_by_key f) x revp).
Proof.
  induction 1 as [|y r Hr IH Hy]; simpl.
  - repeat constructor.
  - unfold less_by_key at 1. destruct (Z.ltb_spec (f x) (f y)) as [Hlt|Hge].
    + constructor; [done|].
      rewrite Forall_forall in *. intros z Hz.
      rewrite <- insert_from_right_perm in Hz.
      apply elem_of_cons in Hz as [-> | Hz]; [lia|auto].
    + constructor; [by constructor|].
      constructor; [done|].
      rewrite Forall_forall in *. intros z Hz. specialize (Hy z Hz). lia.
Qed.

Lemma insertion_loop_spec (l acc : list A) :
  StronglySorted (fun a b => f b <= f a) acc ->
  Permutation (rev acc ++ l)
    (rev (fold_left (fun revp x => insert_from_right (less_by_key f) x revp) l acc)) /\
  StronglySorted (fun a b => f b <= f a)
    (fold_left (fun revp x => insert_from_right (less_by_key f) x revp) l acc).
Proof.
  revert acc. induction l as [|x l IH]; intros acc Hacc; simpl.
  - by rewrite app_nil_r.
  - destruct (IH (insert_from_right (less_by_key f) x acc) (insert_from_right_sorted x acc Hacc))
      as [Hp Hs].
    split; [|done]. etransitivity; [|exact Hp].
    change (x :: l) with ([x] ++ l). rewrite app_assoc.
    apply Permutation_app_tail. change (rev acc ++ [x]) with (rev (x :: acc)).
    rewrite <- !Permutation_rev. apply insert_from_right_perm.
Qed.

(** The insertion sort meets the contract of [sort.Slice]. *)
Lemma insertionSort_post (l : list A) :
  sort_Slice_post (less_by_key f) l (insertionSort (less_by_key f) l).
Proof.
  apply sort_Slice_post_by_key. unfold insertionSort, non_decreasing.
  destruct (insertion_loop_spec l []) as [Hp Hs]; [constructor|].
  split; [exact Hp|].
  apply StronglySorted_map, StronglySorted_rev. exact Hs.
Qed.

(** Two strictly increasing arrangements of the same elements are the
    same list. *)
Lemma strictly_increasing_unique (l1 l2 : list A) :
  strictly_increasing (map f l1) -> strictly_increasing (map f l2) ->
  Permutation l1 l2 -> l1 = l2.
Proof.
  unfold strictly_increasing. rewrite !StronglySorted_map.
  apply StronglySorted_unique_strong. intros; lia.
Qed.

(** A non-decreasing sequence without repeated values is strictly
    increasing. *)
Lemma non_decreasing_NoDup_strict (zs : list Z) :
  non_decreasing zs -> NoDup zs -> strictly_increasing zs.
Proof.
  unfold non_decreasing, strictly_increasing.
  induction 1 as [|z zs Hzs IH Hz]; intros Hnd; [constructor|].
  apply NoDup_cons in Hnd as [Hnotin Hnd]. constructor; [auto|].
  rewrite Forall_forall in *. intros y Hy.
  specialize (Hz y Hy). assert (z <> y) by (intros ->; done). lia.
Qed.

End SortByKey.

Lemma sortedKeys_post (scopedIommuKeys : list string) :
  sort_Slice_post iommuKeyLess scopedIommuKeys (sortedKeys scopedIommuKeys).
Proof. apply (insertionSort_post extractNumber). Qed.

(** C5, as amended: whatever order [sort.Slice] leaves the unit keys in,
    it is a rearrangement of the keys given that is non-decreasing in
    [extractNumber] (the integer after the leading letters, 0 when what
    follows them is no integer); it is strictly increasing when no two
    keys have the same number; and the keys ["vfio9"], ["vfio10"], ["8"],
    given in any order, come out as ["8"], ["vfio9"], ["vfio10"]. *)
Theorem sortedKeys_order (scopedIommuKeys sorted : list string) :
  sort_Slice_post iommuKeyLess scopedIommuKeys sorted ->
  Permutation scopedIommuKeys sorted /\
  non_decreasing (map extractNumber sorted) /\
  (NoDup (map extractNumber scopedIommuKeys) ->
   strictly_increasing (map extractNumber sorted)) /\
  (Permutation scopedIommuKeys ["vfio9"; "vfio10"; "8"] ->
   sorted = ["8"; "vfio9"; "vfio10"]).
Proof.
  intros Hpost. apply (sort_Slice_post_by_key extractNumber) in Hpost as [Hperm Hsorted].
  assert (Hstrict : NoDup (map extractNumber scopedIommuKeys) ->
                    strictly_increasing (map extractNumber sorted)).
  { intros Hnodup. apply non_decreasing_NoDup_strict; [done|].
    by rewrite <- (Permutation_map extractNumber Hperm). }
  repeat split; auto.
  intros Hkeys. apply (strictly_increasing_unique extractNumber).
  - apply Hstrict. rewrite (Permutation_map extractNumber Hkeys).
    change (map extractNumber ["vfio9"; "vfio10"; "8"]) with [9; 10; 8].
    apply (bool_decide_unpack _). by vm_compute.
  - change (map extractNumber ["8"; "vfio9"; "vfio10"]) with [8; 9; 10].
    repeat constructor; lia.
  - rewrite <- Hperm, Hkeys.
    change ["vfio9"; "vfio10"; "8"] with (["vfio9"; "vfio10"] ++ ["8"]).
    rewrite Permutation_app_comm. reflexivity.
Qed.

(** The keys ["8"] and ["vfio8"] (a unit keyed by its group in fd mode
    beside a unit keyed by its handle) have the same number: no outcome
    of the sort is strictly increasing. *)
Lemma sortedKeys_ties_counterexample :
  NoDup ["8"; "vfio8"] /\
  sortedKeys ["8"; "vfio8"] = ["8"; "vfio8"] /\
  ~ (exists sorted,
       sort_Slice_post iommuKeyLess ["8"; "vfio8"] sorted /\
       strictly_increasing (map extractNumber sorted)).
Proof.
  split; [|split].
  - apply (bool_decide_unpack _). by vm_compute.
  - reflexivity.
  - intros (sorted & [Hperm _] & Hstrict).
    apply Permutation_length_2_inv in Hperm as [-> | ->];
      change (strictly_increasing [8; 8]) in Hstrict;
      apply StronglySorted_inv in Hstrict as [_ Hhd];
      apply Forall_cons in Hhd as [Hlt _]; lia.
Qed.

Lemma sortedKeys_order_witness :
  Permutation ["vfio9"; "vfio10"; "8"] (sortedKeys ["vfio9"; "vfio10"; "8"]) /\
  non_decreasing (map extractNumber (sortedKeys ["vfio9"; "vfio10"; "8"])) /\
  strictly_increasing (map extractNumber (sortedKeys ["vfio9"; "vfio10"; "8"])) /\
  sortedKeys ["vfio9"; "vfio10"; "8"] = ["8"; "vfio9"; "vfio10"].
Proof.
  destruct (sortedKeys_order ["vfio9"; "vfio10"; "8"] (sortedKeys ["vfio9"; "vfio10"; "8"])
              (sortedKeys_post ["vfio9"; "vfio10"; "8"]))
    as (Hperm & Hsorted & Hstrict & Hexample).
  split; [exact Hperm|]. split; [exact Hsorted|]. split.
  - apply Hstrict. apply (bool_decide_unpack _). by vm_compute.
  - apply Hexample. reflexivity.
Defined.

(** ** Name formatting *)

(** The bytes of [[A-Z0-9_-]]. *)
Lemma is_output_byte_facts (c : ascii) :
  is_output_byte c = true ->
  is_ascii c = true /\ is_lower c = false /\ Ascii.eqb c "/" = false /\
  Ascii.eqb c "." = false /\ is_regexp_space c = false /\ is_name_byte c = true.
Proof.
  destruct c as [[] [] [] [] [] [] [] []]; vm_compute; intros Hc;
    first [discriminate Hc | repeat split].
Qed.

Lemma name_byte_not_lower (c : ascii) :
  is_name_byte c = true -> is_lower c = false -> is_output_byte c = true.
Proof.
  unfold is_name_byte, is_output_byte. intros Hname Hlow. rewrite Hlow in Hname.
  exact Hname.
Qed.

Lemma ReplaceAll1_no_lower (s : string) (old new : ascii) :
  is_lower new = false ->
  string_forallb (fun c => negb (is_lower c)) s = true ->
  string_forallb (fun c => negb (is_lower c)) (strings_ReplaceAll1 s old new) = true.
Proof.
  intros Hnew. induction s as [|c r IH]; simpl; [done|].
  intros [Hc Hr]%andb_prop. rewrite (IH Hr), andb_true_r.
  destruct (Ascii.eqb c old); [by rewrite Hnew|done].
Qed.

Lemma replace_space_runs_no_lower (in_run : bool) (s : string) :
  string_forallb (fun c => negb (is_lower c)) s = true ->
  string_forallb (fun c => negb (is_lower c)) (replace_space_runs in_run s) = true.
Proof.
  revert in_run. induction s as [|c r IH]; intros in_run; simpl; [done|].
  intros [Hc Hr]%andb_prop.
  destruct (is_regexp_space c); [destruct in_run|]; simpl.
  - by apply IH.
  - by apply IH.
  - by rewrite Hc, IH.
Qed.

Lemma remove_non_name_bytes_output (s : string) :
  string_forallb (fun c => negb (is_lower c)) s = true ->
  string_forallb is_output_byte (remove_non_name_bytes s) = true.
Proof.
  induction s as [|c r IH]; simpl; [done|].
  intros [Hc Hr]%andb_prop.
  destruct (is_name_byte c) eqn:Hname; simpl; [|auto].
  rewrite (name_byte_not_lower c Hname), (IH Hr); [done|].
  by destruct (is_lower c).
Qed.

Lemma output_string_ascii (s : string) :
  string_forallb is_output_byte s = true -> string_forallb is_ascii s = true.
Proof.
  induction s as [|c r IH]; simpl; [done|].
  intros [Hc Hr]%andb_prop.
  destruct (is_output_byte_facts c Hc) as (-> & _). auto.
Qed.

Lemma ascii_ToUpper_output (s : string) :
  string_forallb is_output_byte s = true -> ascii_ToUpper s = s.
Proof.
  induction s as [|c r IH]; simpl; [done|].
  intros [Hc Hr]%andb_prop.
  destruct (is_output_byte_facts c Hc) as (_ & Hlow & _).
  unfold ascii_upper. rewrite Hlow, (IH Hr). done.
Qed.

Lemma ReplaceAll1_absent (s : string) (old new : ascii) :
  string_forallb (fun c => negb (Ascii.eqb c old)) s = true ->
  strings_ReplaceAll1 s old new = s.
Proof.
  induction s as [|c r IH]; simpl; [done|].
  intros [Hc Hr]%andb_prop. rewrite (IH Hr).
  by destruct (Ascii.eqb c old).
Qed.

Lemma string_forallb_impl (p q : ascii -> bool) (s : string) :
  (forall c, p c = true -> q c = true) ->
  string_forallb p s = true -> string_forallb q s = true.
Proof.
  intros Hpq. induction s as [|c r IH]; simpl; [done|].
  intros [Hc Hr]%andb_prop. by rewrite (Hpq c Hc), (IH Hr).
Qed.

Lemma replace_space_runs_output (s : string) :
  string_forallb is_output_byte s = true -> replace_space_runs false s = s.
Proof.
  induction s as [|c r IH]; simpl; [done|].
  intros [Hc Hr]%andb_prop.
  destruct (is_output_byte_facts c Hc) as (_ & _ & _ & _ & -> & _).
  by rewrite (IH Hr).
Qed.

Lemma remove_non_name_bytes_id (s : string) :
  string_forallb is_output_byte s = true -> remove_non_name_bytes s = s.
Proof.
  induction s as [|c r IH]; simpl; [done|].
  intros [Hc Hr]%andb_prop.
  destruct (is_output_byte_facts c Hc) as (_ & _ & _ & _ & _ & ->).
  by rewrite (IH Hr).
Qed.

Lemma ascii_ToUpper_no_lower (s : string) :
  string_forallb (fun c => negb (is_lower c)) (ascii_ToUpper s) = true.
Proof.
  induction s as [|c r IH]; simpl; [done|]. rewrite IH, andb_true_r.
  destruct c as [[] [] [] [] [] [] [] []]; reflexivity.
Qed.

Section FormatFacts.

Context `{Externals}.

(** What is known of [strings.ToUpper]: on a string of ASCII bytes it
    maps the bytes [a]..[z] to [A]..[Z] and leaves the others, and no
    string it returns holds a byte [a]..[z]. *)
Hypothesis ToUpper_ascii :
  forall s, string_forallb is_ascii s = true -> strings_ToUpper s = ascii_ToUpper s.
Hypothesis ToUpper_no_lower :
  forall s, string_forallb (fun c => negb (is_lower c)) (strings_ToUpper s) = true.

Lemma formatDeviceName_output (name : string) :
  string_forallb is_output_byte (formatDeviceName name) = true.
Proof.
  unfold formatDeviceName. destruct (String.eqb name ""); [done|].
  apply remove_non_name_bytes_output, replace_space_runs_no_lower.
  do 2 (apply ReplaceAll1_no_lower; [done|]). apply ToUpper_no_lower.
Qed.

Lemma formatDeviceName_fixes_output (s : string) :
  string_forallb is_output_byte s = true -> formatDeviceName s = s.
Proof.
  intros Hs. unfold formatDeviceName.
  destruct (String.eqb_spec s "") as [->|_]; [done|].
  rewrite (ToUpper_ascii s (output_string_ascii s Hs)), (ascii_ToUpper_output s Hs).
  assert (Hslash : string_forallb (fun c => negb (Ascii.eqb c "/")) s = true).
  { eapply string_forallb_impl; [|exact Hs]. intros c Hc.
    by destruct (is_output_byte_facts c Hc) as (_ & _ & -> & _). }
  assert (Hdot : string_forallb (fun c => negb (Ascii.eqb c ".")) s = true).
  { eapply string_forallb_impl; [|exact Hs]. intros c Hc.
    by destruct (is_output_byte_facts c Hc) as (_ & _ & _ & -> & _). }
  rewrite (ReplaceAll1_absent s "/" "_" Hslash), (ReplaceAll1_absent s "." "_" Hdot).
  by rewrite (replace_space_runs_output s Hs), (remove_non_name_bytes_id s Hs).
Qed.

(** C6: [formatDeviceName] is a function of every string; formatting a
    formatted name gives it back; the empty string is formatted to the
    empty string; and every byte of a formatted name is one of
    [A]..[Z], [0]..[9], [_] and [-]. *)
Theorem formatDeviceName_idempotent (name : string) :
  formatDeviceName (formatDeviceName name) = formatDeviceName name /\
  formatDeviceName "" = "" /\
  string_forallb is_output_byte (formatDeviceName name) = true.
Proof.
  split; [|split].
  - apply formatDeviceName_fixes_output, formatDeviceName_output.
  - reflexivity.
  - apply formatDeviceName_output.
Qed.

End FormatFacts.

Lemma formatDeviceName_idempotent_witness :
  formatDeviceName (H := exampleExternals)
    (formatDeviceName (H := exampleExternals) "GK104.GL [GRID/K520]")
  = formatDeviceName (H := exampleExternals) "GK104.GL [GRID/K520]" /\
  formatDeviceName (H := exampleExternals) "" = "" /\
  string_forallb is_output_byte
    (formatDeviceName (H := exampleExternals) "GK104.GL [GRID/K520]") = true.
Proof.
  apply (formatDeviceName_idempotent (H := exampleExternals)).
  - intros s _. reflexivity.
  - intros s. apply ascii_ToUpper_no_lower.
Defined.

(** The cases of the package's tests. *)
Example formatDeviceName_tests :
  formatDeviceName (H := exampleExternals) "geforce gtx 1080" = "GEFORCE_GTX_1080" /\
  formatDeviceName (H := exampleExternals) "GK104.GL [GRID/K520]" = "GK104_GL_GRID_K520" /\
  formatDeviceName (H := exampleExternals) "GeForce   GTX  1080" = "GEFORCE_GTX_1080" /\
  formatDeviceName (H := exampleExternals) "Device [Name] (Rev A)" = "DEVICE_NAME_REV_A" /\
  formatDeviceName (H := exampleExternals) "" = "".
Proof. repeat split. Qed.

(** ** The plugin instance *)

Section InstanceFacts.

Context `{Externals}.

(** C7: when [Start] gets as far as the registration and the
    registration fails, [Start] returns the error of [Register]; the
    instance keeps the server it made and its socket path; and all that
    was done is the removal of the stale socket, the listen, the serve
    and the probe, followed by the registration attempt: the server is
    not stopped and the socket is not removed after the listen. *)
Theorem Start_registration_failure_keeps_endpoint
    (o : Outcomes) (stop0 : chan) (dpi : GenericDevicePlugin) (err : error) :
  server dpi = None ->
  snd (cleanup o dpi) = None ->
  listen_result o = None ->
  snd (Register o dpi) = Some err ->
  exists dpi' done,
    Start o stop0 dpi = (dpi', done, Some err) /\
    server dpi' = Some grpc_NewServer /\
    socketPath dpi' = socketPath dpi /\
    done = [ActRemove (socketPath dpi);
            ActListen (socketPath dpi);
            ActServe grpc_NewServer (socketPath dpi);
            ActProbe (socketPath dpi)] ++ fst (Register o dpi) /\
    (forall srv, ActServerStop srv ∉ done) /\
    (forall path, ActRemove path ∉ fst (Register o dpi)).
Proof.
  intros Hserver Hclean Hlisten Hreg.
  assert (Hnostop : forall srv, ActServerStop srv ∉ fst (Register o dpi)).
  { intros srv. unfold Register. destruct (connect_result o); simpl;
      rewrite ?elem_of_cons, elem_of_nil; intros Hin;
      repeat (destruct Hin as [Hin|Hin]; [discriminate|]); done. }
  assert (Hnoremove : forall path, ActRemove path ∉ fst (Register o dpi)).
  { intros path. unfold Register. destruct (connect_result o); simpl;
      rewrite ?elem_of_cons, elem_of_nil; intros Hin;
      repeat (destruct Hin as [Hin|Hin]; [discriminate|]); done. }
  unfold Start. rewrite Hserver.
  unfold cleanup in *. simpl in *. rewrite Hclean, Hlisten.
  change (Register o (set_server (Some grpc_NewServer) (set_stop stop0 dpi)))
    with (Register o dpi).
  destruct (Register o dpi) as [done3 res] eqn:HR. simpl in *. subst res.
  eexists _, _. split; [reflexivity|]. repeat split; auto.
  intros srv. rewrite !elem_of_cons. intros Hin.
  repeat (destruct Hin as [Hin|Hin]; [discriminate|]). by apply (Hnostop srv).
Qed.

(** C8: [GetDevicePluginOptions] returns options with
    [PreStartRequired] false and no error; [PreStartContainer] returns
    the empty response and no error; [GetPreferredAllocation] returns
    no error and the nil response, which reads as the response without
    container responses. *)
Theorem auxiliary_endpoints
    (dpi : GenericDevicePlugin) (e : pluginapi_Empty)
    (pre : PreStartContainerRequest) (pref : PreferredAllocationRequest) :
  (exists options,
     GetDevicePluginOptions dpi e = (Some options, None) /\
     PreStartRequired options = false) /\
  PreStartContainer dpi pre = (Some PreStartContainerResponse_empty, None) /\
  GetPreferredAllocation dpi pref = (None, None) /\
  GetContainerResponses (fst (GetPreferredAllocation dpi pref)) = [].
Proof. repeat split. eexists. split; reflexivity. Qed.

(** C10: [Stop] on an instance without a server returns nil and does
    nothing: nothing is sent on [term], the server field and every
    other field stay as they were, and the socket file is not
    removed. *)
Theorem Stop_without_server_is_noop (o : Outcomes) (dpi : GenericDevicePlugin) :
  server dpi = None ->
  Stop o dpi = (dpi, [], Returns None).
Proof. intros Hserver. unfold Stop. by rewrite Hserver. Qed.

End InstanceFacts.

(** ** The device-list session *)

Lemma mark_health_ID (key h : string) (ds : list Device) :
  map ID (mark_health key h ds) = map ID ds.
Proof.
  unfold mark_health. rewrite map_map. apply map_ext. intros dev.
  by destruct (String.eqb key (ID dev)).
Qed.

Lemma mark_health_unmatched (key h : string) (ds : list Device) :
  key ∉ map ID ds -> mark_health key h ds = ds.
Proof.
  unfold mark_health. induction ds as [|dev rest IH]; simpl; [done|].
  intros Hnotin. apply not_elem_of_cons in Hnotin as [Hne Hrest].
  destruct (String.eqb_spec key (ID dev)) as [Heq|_]; [done|].
  by rewrite IH.
Qed.

(** A session that has received health signals only goes on from the
    instance they left. *)
Lemma ListAndWatch_loop_app (dpi : GenericDevicePlugin) (received later : list signal) :
  Forall is_health_signal received ->
  ListAndWatch_loop dpi (received ++ later)
  = (let '(dpi1, sent1, _) := ListAndWatch_loop dpi received in
     let '(dpi2, sent2, c) := ListAndWatch_loop dpi1 later in
     (dpi2, sent1 ++ sent2, c)).
Proof.
  intros Hall. revert dpi.
  induction Hall as [|s rest Hs _ IH]; intros dpi.
  - simpl. by destruct (ListAndWatch_loop dpi later) as [[dpi2 sent2] c2].
  - destruct s as [k|k| |]; try done; simpl; rewrite IH;
      destruct (ListAndWatch_loop _ rest) as [[dpi1 sent1] c1];
      destruct (ListAndWatch_loop dpi1 later) as [[dpi2 sent2] c2]; reflexivity.
Qed.

(** The response sent last shows the device list the instance holds, and
    one response was sent per signal. *)
Lemma ListAndWatch_loop_last (dpi : GenericDevicePlugin) (received : list signal) :
  Forall is_health_signal received ->
  last ({| lw_Devices := devs dpi |} :: snd (fst (ListAndWatch_loop dpi received)))
  = Some {| lw_Devices := devs (fst (fst (ListAndWatch_loop dpi received))) |} /\
  length (snd (fst (ListAndWatch_loop dpi received))) = length received.
Proof.
  intros Hall. revert dpi.
  induction Hall as [|s rest Hs _ IH]; intros dpi; [done|].
  destruct s as [k|k| |]; try done; simpl.
  - destruct (IH (set_devs (mark_health k pluginapi_Unhealthy (devs dpi)) dpi))
      as [IH1 IH2].
    destruct (ListAndWatch_loop _ rest) as [[dpi1 sent1] c1]. simpl in *.
    by rewrite IH2.
  - destruct (IH (set_devs (mark_health k pluginapi_Healthy (devs dpi)) dpi))
      as [IH1 IH2].
    destruct (ListAndWatch_loop _ rest) as [[dpi1 sent1] c1]. simpl in *.
    by rewrite IH2.
Qed.

(** Only [Health] is written: the [ID]s stay, in the list held and in
    every response. *)
Lemma ListAndWatch_loop_IDs (dpi : GenericDevicePlugin) (received : list signal) :
  map ID (devs (fst (fst (ListAndWatch_loop dpi received)))) = map ID (devs dpi) /\
  Forall (fun r => map ID (lw_Devices r) = map ID (devs dpi))
    (snd (fst (ListAndWatch_loop dpi received))).
Proof.
  revert dpi. induction received as [|s rest IH]; intros dpi; [by split|].
  destruct s as [k|k| |]; simpl; try (by split).
  - destruct (IH (set_devs (mark_health k pluginapi_Unhealthy (devs dpi)) dpi))
      as [IH1 IH2].
    destruct (ListAndWatch_loop _ rest) as [[dpi1 sent1] c1]. simpl in *.
    rewrite mark_health_ID in *. split; [done|].
    constructor; [apply mark_health_ID|done].
  - destruct (IH (set_devs (mark_health k pluginapi_Healthy (devs dpi)) dpi))
      as [IH1 IH2].
    destruct (ListAndWatch_loop _ rest) as [[dpi1 sent1] c1]. simpl in *.
    rewrite mark_health_ID in *. split; [done|].
    constructor; [apply mark_health_ID|done].
Qed.

(** C9: in a session that has received health signals only, the next
    healthy or unhealthy signal adds exactly one response to those sent
    (so far one on opening and one per signal), whether or not its key
    is the [ID] of a device; when it is the [ID] of none, the response
    equals the one sent last; and every response sent lists the [ID]s of
    the instance's devices, in the same order. *)
Theorem ListAndWatch_one_emission_per_signal
    (dpi : GenericDevicePlugin) (received : list signal) (sig : signal) (key : string) :
  Forall is_health_signal received ->
  sig = RecvUnhealthy key \/ sig = RecvHealthy key ->
  exists resp,
    sent_by dpi (received ++ [sig]) = sent_by dpi received ++ [resp] /\
    length (sent_by dpi received) = S (length received) /\
    (key ∉ map ID (devs dpi) -> last (sent_by dpi received) = Some resp) /\
    Forall (fun r => map ID (lw_Devices r) = map ID (devs dpi))
      (sent_by dpi (received ++ [sig])).
Proof.
  intros Hall Hsig.
  pose proof (ListAndWatch_loop_last dpi received Hall) as [Hlast Hlen].
  pose proof (ListAndWatch_loop_IDs dpi received) as [Hids _].
  pose proof (ListAndWatch_loop_IDs dpi (received ++ [sig])) as [_ Hsent].
  unfold sent_by, ListAndWatch in *.
  rewrite (ListAndWatch_loop_app dpi received [sig] Hall) in Hsent |- *.
  destruct (ListAndWatch_loop dpi received) as [[dpi1 sent1] c1].
  destruct Hsig as [-> | ->]; simpl in *.
  - exists {| lw_Devices := mark_health key pluginapi_Unhealthy (devs dpi1) |}.
    split; [reflexivity|]. split; [by rewrite Hlen|]. split.
    + intros Hnotin. rewrite <- Hids in Hnotin.
      rewrite (mark_health_unmatched _ _ _ Hnotin). exact Hlast.
    + constructor; [reflexivity|exact Hsent].
  - exists {| lw_Devices := mark_health key pluginapi_Healthy (devs dpi1) |}.
    split; [reflexivity|]. split; [by rewrite Hlen|]. split.
    + intros Hnotin. rewrite <- Hids in Hnotin.
      rewrite (mark_health_unmatched _ _ _ Hnotin). exact Hlast.
    + constructor; [reflexivity|exact Hsent].
Qed.

Lemma ListAndWatch_one_emission_per_signal_witness :
  exists resp,
    sent_by (NewGenericDevicePlugin "foo" "/dev/vfio/" testDevices)
      ([RecvUnhealthy "2"] ++ [RecvHealthy "7"])
    = sent_by (NewGenericDevicePlugin "foo" "/dev/vfio/" testDevices) [RecvUnhealthy "2"]
      ++ [resp] /\
    length (sent_by (NewGenericDevicePlugin "foo" "/dev/vfio/" testDevices)
              [RecvUnhealthy "2"]) = 2%nat /\
    ("7" ∉ map ID (devs (NewGenericDevicePlugin "foo" "/dev/vfio/" testDevices)) ->
     last (sent_by (NewGenericDevicePlugin "foo" "/dev/vfio/" testDevices)
             [RecvUnhealthy "2"]) = Some resp) /\
    Forall (fun r => map ID (lw_Devices r)
                     = map ID (devs (NewGenericDevicePlugin "foo" "/dev/vfio/" testDevices)))
      (sent_by (NewGenericDevicePlugin "foo" "/dev/vfio/" testDevices)
         ([RecvUnhealthy "2"] ++ [RecvHealthy "7"])).
Proof.
  apply (ListAndWatch_one_emission_per_signal
           (NewGenericDevicePlugin "foo" "/dev/vfio/" testDevices)
           [RecvUnhealthy "2"] (RecvHealthy "7") "7").
  - repeat constructor.
  - right. reflexivity.
Defined.

(** The session of the package's test: the list on opening, then group 2
    unhealthy, then healthy again. *)
Example ListAndWatch_test :
  sent_by (NewGenericDevicePlugin "foo" "/dev/vfio/" testDevices)
    [RecvUnhealthy "2"; RecvHealthy "2"]
  = [ {| lw_Devices := [ {| ID := "1"; Health := "Healthy" |};
                         {| ID := "2"; Health := "Healthy" |} ] |};
      {| lw_Devices := [ {| ID := "1"; Health := "Healthy" |};
                         {| ID := "2"; Health := "Unhealthy" |} ] |};
      {| lw_Devices := [ {| ID := "1"; Health := "Healthy" |};
                         {| ID := "2"; Health := "Healthy" |} ] |} ].
Proof. reflexivity. Qed.

(** ** The statements at concrete inputs *)

Lemma Allocate_unknown_key_fails_whole_call_witness :
  exists err,
    Allocate (H := exampleExternals) legacyHost fakeIommuMap (request [["1"]; ["2"; "4"]])
    = (None, Some err).
Proof.
  apply (Allocate_unknown_key_fails_whole_call (H := exampleExternals)
           legacyHost fakeIommuMap (request [["1"]; ["2"; "4"]])
           {| DevicesIDs := ["2"; "4"] |} "4").
  - simpl. repeat constructor.
  - simpl. repeat constructor.
  - reflexivity.
Defined.

Lemma Allocate_device_nodes_per_mode_witness :
  (exists err,
     Allocate (H := exampleExternals) fdHost fakeIommuMap (request [["1"; "3"]])
     = (None, Some err)) /\
  Forall2 (fun req r =>
             length (Devices r)
             = sum_list (map (fun iommuID => length (default [] (fakeIommuMap !! iommuID)))
                           (DevicesIDs req)))
    (ContainerRequests (request [["1"; "2"]])) (ContainerResponses fdResponse12) /\
  Forall2 (fun req r => length (Devices r) = (2 * length (DevicesIDs req))%nat)
    (ContainerRequests (request [["1"]])) (ContainerResponses legacyResponse1) /\
  (exists resp,
     Allocate (H := exampleExternals) legacyHost fakeIommuMap (request [["1"]; ["2"; "3"]])
     = (Some resp, None)).
Proof.
  split; [|split; [|split]].
  - apply (proj1 (Allocate_device_nodes_per_mode (H := exampleExternals)
                    fdHost fakeIommuMap (request [["1"; "3"]])) eq_refl
             {| DevicesIDs := ["1"; "3"] |} "3"
             [{| Address := "0000:03:00.0"; DeviceID := 7042;
                 DeviceName := "GeForce GTX 1060"; IommuGroup := 3;
                 IommuFD := ""; IsNVSwitch := false |}]
             {| Address := "0000:03:00.0"; DeviceID := 7042;
                 DeviceName := "GeForce GTX 1060"; IommuGroup := 3;
                 IommuFD := ""; IsNVSwitch := false |}).
    + simpl. repeat constructor.
    + simpl. repeat constructor.
    + reflexivity.
    + repeat constructor.
    + reflexivity.
  - apply (proj1 (proj2 (Allocate_device_nodes_per_mode (H := exampleExternals)
                    fdHost fakeIommuMap (request [["1"; "2"]]))) eq_refl
             fdResponse12 eq_refl).
  - apply (proj1 (proj2 (proj2 (Allocate_device_nodes_per_mode (H := exampleExternals)
                    legacyHost fakeIommuMap (request [["1"]])))) eq_refl
             legacyResponse1 eq_refl).
  - apply (proj2 (proj2 (proj2 (Allocate_device_nodes_per_mode (H := exampleExternals)
                    legacyHost fakeIommuMap (request [["1"]; ["2"; "3"]])))) false eq_refl).
    intros req k Hreq Hk. simpl in Hreq.
    assert (Hknown : k = "1" \/ k = "2" \/ k = "3").
    { apply elem_of_cons in Hreq as [-> | Hreq]; simpl in Hk.
      - apply list_elem_of_singleton in Hk. auto.
      - apply list_elem_of_singleton in Hreq. subst req. simpl in Hk.
        apply elem_of_cons in Hk as [-> | Hk]; auto.
        apply list_elem_of_singleton in Hk. auto. }
    destruct Hknown as [-> | [-> | ->]]; eexists; (split; [reflexivity|discriminate]).
Defined.

(** The scenario of the specification: group 1 in legacy mode is answered
    with [/dev/vfio/vfio] and [/dev/vfio/1]. *)
Example Allocate_tests :
  Allocate (H := exampleExternals) legacyHost fakeIommuMap (request [["1"]])
  = (Some legacyResponse1, None) /\
  Allocate (H := exampleExternals) fdHost fakeIommuMap (request [["1"; "2"]])
  = (Some fdResponse12, None) /\
  Allocate (H := exampleExternals) fdHost fakeIommuMap (request [["3"]])
  = (None, Some (Errorf "iommufd device not available for device 0000:03:00.0")) /\
  Allocate (H := exampleExternals) legacyHost fakeIommuMap (request [["4"]])
  = (None, Some (Errorf "invalid allocation request: unknown iommu id: 4")).
Proof. repeat split. Qed.

(** After a pass whose enumeration fails, the state of the earlier pass
    is gone. *)
Lemma createIommuDeviceMap_enumeration_failure_counterexample :
  snd (supportsIOMMUFD (H := exampleExternals) enumFailsHost) = None /\
  snd (GetAllDevices enumFailsHost) = Some (ExtErr false "enumeration failed") /\
  createIommuDeviceMap (H := exampleExternals) enumFailsHost priorState <> priorState.
Proof.
  split; [reflexivity|]. split; [reflexivity|].
  intros Heq. apply (f_equal (fun st => iommuMap st !! "1")) in Heq.
  vm_compute in Heq. discriminate Heq.
Qed.

Lemma createIommuDeviceMap_on_failure_witness :
  createIommuDeviceMap (H := exampleExternals) statFailsHost priorState = priorState /\
  createIommuDeviceMap (H := exampleExternals) enumFailsHost priorState = emptyState.
Proof.
  split.
  - apply (proj1 (createIommuDeviceMap_on_failure (H := exampleExternals)
                    statFailsHost priorState) (ExtErr false "permission denied")).
    reflexivity.
  - apply (proj2 (createIommuDeviceMap_on_failure (H := exampleExternals)
                    enumFailsHost priorState) (ExtErr false "enumeration failed"));
      reflexivity.
Defined.

Lemma createIommuDeviceMap_class_keys_NoDup_witness : NoDup ["2"].
Proof.
  apply (createIommuDeviceMap_class_keys_NoDup (H := exampleExternals)
           sharedGroupHost emptyState "1b81" ["2"]).
  - reflexivity.
  - vm_compute. reflexivity.
Defined.

(** The discovery of the package's tests, with a second function in
    group 2. *)
Example createIommuDeviceMap_tests :
  deviceMap (createIommuDeviceMap (H := exampleExternals) sharedGroupHost emptyState)
    !! "1b80" = Some ["1"] /\
  deviceMap (createIommuDeviceMap (H := exampleExternals) sharedGroupHost emptyState)
    !! "1b81" = Some ["2"] /\
  map Address
    (default [] (iommuMap (createIommuDeviceMap (H := exampleExternals)
                             sharedGroupHost emptyState) !! "2"))
  = ["0000:02:00.0"; "0000:02:00.1"].
Proof. repeat split; vm_compute; reflexivity. Qed.

Lemma Start_registration_failure_keeps_endpoint_witness :
  exists dpi' done,
    Start (H := exampleExternals) registrationRefused 0%nat
      (NewGenericDevicePlugin "foo" "/dev/vfio/" testDevices)
    = (dpi', done, Some (ExtErr false "registration refused")) /\
    server dpi' = Some grpc_NewServer /\
    socketPath dpi' = socketPath (NewGenericDevicePlugin "foo" "/dev/vfio/" testDevices) /\
    done
    = [ActRemove (socketPath (NewGenericDevicePlugin "foo" "/dev/vfio/" testDevices));
       ActListen (socketPath (NewGenericDevicePlugin "foo" "/dev/vfio/" testDevices));
       ActServe grpc_NewServer
         (socketPath (NewGenericDevicePlugin "foo" "/dev/vfio/" testDevices));
       ActProbe (socketPath (NewGenericDevicePlugin "foo" "/dev/vfio/" testDevices))]
      ++ fst (Register (H := exampleExternals) registrationRefused
                (NewGenericDevicePlugin "foo" "/dev/vfio/" testDevices)) /\
    (forall srv, ActServerStop srv ∉ done) /\
    (forall path,
       ActRemove path
       ∉ fst (Register (H := exampleExternals) registrationRefused
                (NewGenericDevicePlugin "foo" "/dev/vfio/" testDevices))).
Proof.
  apply (Start_registration_failure_keeps_endpoint (H := exampleExternals)
           registrationRefused 0%nat
           (NewGenericDevicePlugin "foo" "/dev/vfio/" testDevices)
           (ExtErr false "registration refused")); reflexivity.
Defined.

Lemma Stop_without_server_is_noop_witness :
  Stop registrationRefused (NewGenericDevicePlugin "foo" "/dev/vfio/" testDevices)
  = (NewGenericDevicePlugin "foo" "/dev/vfio/" testDevices, [], Returns None).
Proof.
  apply (Stop_without_server_is_noop registrationRefused
           (NewGenericDevicePlugin "foo" "/dev/vfio/" testDevices)).
  reflexivity.
Defined.

(** A start that succeeds, and the stop of the started instance: the
    value for [ListAndWatch] goes into [term], the server is stopped and
    the socket removed. *)
Example Start_then_Stop_test :
  let o := {| remove_result := None; listen_result := None; probe_result := None;
              connect_result := None; register_result := None |} in
  let dpi := NewGenericDevicePlugin "foo" "/dev/vfio/" testDevices in
  let sock := "/var/lib/kubelet/device-plugins/sandbox-foo.sock" in
  exists started,
    Start (H := exampleExternals) o 0%nat dpi
    = (started,
       [ActRemove sock; ActListen sock; ActServe grpc_NewServer sock; ActProbe sock;
        ActConnect "/var/lib/kubelet/device-plugins/kubelet.sock";
        ActRegisterRPC "v1beta1" "sandbox-foo.sock" "nvidia.com/foo"; ActGoHealthCheck],
       None) /\
    server started = Some grpc_NewServer /\
    Stop o started
    = (set_server None (set_term [true] started),
       [ActSendTerm true; ActServerStop grpc_NewServer; ActRemove sock],
       Returns None) /\
    Start (H := exampleExternals) o 1%nat started
    = (started, [], Some (Errorf "gRPC server already started")).
Proof. eexists. repeat split. Qed.

(** ** More on discovery *)

Section DiscoveryMore.

Context `{Externals}.

Lemma discover_device_kept fd st dev :
  discover_device fd st dev =
  if discovery_kept dev then
    {| iommuMap :=
         <[discovery_key fd dev :=
             default [] (iommuMap st !! discovery_key fd dev) ++ [discovery_snapshot dev]]>
           (iommuMap st);
       deviceMap :=
         match iommuMap st !! discovery_key fd dev with
         | None =>
             <[Sprintf_04x (nvpci_Device dev) :=
                 default [] (deviceMap st !! Sprintf_04x (nvpci_Device dev))
                   ++ [discovery_key fd dev]]> (deviceMap st)
         | Some _ => deviceMap st
         end;
       nvSwitchDeviceIDs :=
         if nvpci_IsNVSwitch dev
         then <[Sprintf_04x (nvpci_Device dev) := true]> (nvSwitchDeviceIDs st)
         else nvSwitchDeviceIDs st |}
  else st.
Proof.
  unfold discover_device, discovery_kept, discovery_key, discovery_snapshot.
  destruct (nvpci_IsGPU dev); destruct (nvpci_IsNVSwitch dev);
    destruct (String.eqb (nvpci_Driver dev) "vfio-pci"); simpl; reflexivity.
Qed.

(** The devices of the enumeration that land in unit [k]. *)
Lemma discover_devices_unit fd devices st k :
  iommuMap (fold_left (discover_device fd) devices st) !! k =
  match map discovery_snapshot
          (List.filter (fun dev => discovery_kept dev
                                   && String.eqb (discovery_key fd dev) k) devices) with
  | [] => iommuMap st !! k
  | new => Some (default [] (iommuMap st !! k) ++ new)
  end.
Proof.
  revert st. induction devices as [|dev rest IH]; intros st; [reflexivity|].
  simpl fold_left. rewrite IH. clear IH. rewrite discover_device_kept. simpl List.filter.
  destruct (discovery_kept dev); simpl; [|reflexivity].
  destruct (String.eqb_spec (discovery_key fd dev) k) as [->|Hne]; simpl.
  - rewrite lookup_insert_eq. simpl.
    destruct (map discovery_snapshot _) as [|d ds]; [reflexivity|].
    by rewrite <- app_assoc.
  - by rewrite lookup_insert_ne.
Qed.

Lemma pass_units h st fd devices k unit :
  supportsIOMMUFD h = (fd, None) ->
  GetAllDevices h = (devices, None) ->
  iommuMap (createIommuDeviceMap h st) !! k = Some unit <->
  unit <> [] /\
  unit = map discovery_snapshot
           (List.filter (fun dev => discovery_kept dev
                                    && String.eqb (discovery_key fd dev) k) devices).
Proof.
  intros Hfd Hdevs. unfold createIommuDeviceMap. rewrite Hfd, Hdevs.
  rewrite discover_devices_unit. simpl. rewrite lookup_empty.
  destruct (map discovery_snapshot _) as [|d ds]; simpl.
  - split; [discriminate|]. intros [Hne ->]. done.
  - split.
    + intros [= <-]. done.
    + intros [_ ->]. done.
Qed.

(** X1: After a pass each unit holds exactly the snapshots of the enumerated
    devices that are GPUs or NVSwitches, are bound to [vfio-pci] and have
    the unit's key, in the order of the enumeration; and no unit is
    empty. *)
Theorem createIommuDeviceMap_units
    (h : Host) (st : DiscoveryState) (fd : bool) (devices : list nvpci_NvidiaPCIDevice)
    (k : string) (unit : list NvidiaPCIDevice) :
  supportsIOMMUFD h = (fd, None) ->
  GetAllDevices h = (devices, None) ->
  iommuMap (createIommuDeviceMap h st) !! k = Some unit <->
  unit <> [] /\
  unit = map discovery_snapshot
           (List.filter (fun dev => discovery_kept dev
                                    && String.eqb (discovery_key fd dev) k) devices).
Proof. apply pass_units. Qed.

Lemma index_agree_empty :
  index_agree {| iommuMap := ∅; deviceMap := ∅; nvSwitchDeviceIDs := ∅ |}.
Proof.
  split; [|split]; simpl.
  - intros k [x Hx]. by rewrite lookup_empty in Hx.
  - intros id1 id2 keys1 keys2 k Hk. by rewrite lookup_empty in Hk.
  - intros deviceID keys Hk. by rewrite lookup_empty in Hk.
Qed.

Lemma discover_device_agree fd st dev :
  class_index_inv st -> index_agree st -> index_agree (discover_device fd st dev).
Proof.
  intros Hinv (Hlisted & Huniq & Hnonempty). rewrite discover_device_kept.
  destruct (discovery_kept dev); [|by repeat split].
  set (K := discovery_key fd dev). set (I := Sprintf_04x (nvpci_Device dev)).
  destruct (iommuMap st !! K) as [unit|] eqn:HK; (split; [|split]); simpl.
  - intros k Hk. apply Hlisted.
    destruct (decide (K = k)) as [<-|Hne]; [by rewrite HK|].
    by rewrite lookup_insert_ne in Hk.
  - exact Huniq.
  - exact Hnonempty.
  - intros k Hk. destruct (decide (K = k)) as [<-|Hne].
    + exists I, (default [] (deviceMap st !! I) ++ [K]).
      rewrite lookup_insert_eq. split; [done|]. apply elem_of_app. right. by left.
    + rewrite lookup_insert_ne in Hk by done.
      destruct (Hlisted k Hk) as (id & keys & Hid & Hin).
      destruct (decide (I = id)) as [<-|HneI].
      * exists I, (default [] (deviceMap st !! I) ++ [K]).
        rewrite lookup_insert_eq, Hid. split; [done|]. apply elem_of_app. by left.
      * exists id, keys. by rewrite lookup_insert_ne.
  - assert (Hcase : forall id keys k,
               <[I := default [] (deviceMap st !! I) ++ [K]]> (deviceMap st) !! id
               = Some keys -> k ∈ keys ->
               (id = I /\ k = K) \/
               (k <> K /\ exists keys', deviceMap st !! id = Some keys' /\ k ∈ keys')).
    { assert (Hold : forall id keys k,
                 deviceMap st !! id = Some keys -> k ∈ keys -> k <> K).
      { intros id keys k Hid Hin ->. destruct (Hinv id keys Hid) as [_ Hdom].
        apply Hdom in Hin. rewrite HK in Hin. by destruct Hin. }
      intros id keys k Hid Hin. destruct (decide (I = id)) as [<-|HneI].
      - rewrite lookup_insert_eq in Hid. injection Hid as <-.
        apply elem_of_app in Hin as [Hin|Hin].
        + right. destruct (deviceMap st !! I) as [old|] eqn:HI; simpl in Hin;
            [|by apply elem_of_nil in Hin].
          split; [by apply (Hold I old)|eauto].
        + apply list_elem_of_singleton in Hin. auto.
      - rewrite lookup_insert_ne in Hid by done.
        right. split; [by apply (Hold id keys)|eauto]. }
    intros id1 id2 keys1 keys2 k H1 H2 Hin1 Hin2.
    destruct (Hcase id1 keys1 k H1 Hin1) as [[Hid1 HkK1]|[Hne1 (k1 & Hk1 & Hm1)]];
      destruct (Hcase id2 keys2 k H2 Hin2) as [[Hid2 HkK2]|[Hne2 (k2 & Hk2 & Hm2)]].
    + congruence.
    + contradiction.
    + contradiction.
    + by apply (Huniq id1 id2 k1 k2 k).
  - intros id keys Hid. destruct (decide (I = id)) as [<-|HneI].
    + rewrite lookup_insert_eq in Hid. injection Hid as <-.
      by destruct (default [] (deviceMap st !! I)).
    + rewrite lookup_insert_ne in Hid by done. by apply (Hnonempty id).
Qed.

Lemma discover_devices_agree fd devices st :
  class_index_inv st -> index_agree st ->
  index_agree (fold_left (discover_device fd) devices st).
Proof.
  revert st. induction devices as [|dev rest IH]; intros st Hinv Hagree; simpl; [done|].
  apply IH; [by apply discover_device_inv|by apply discover_device_agree].
Qed.

Lemma pass_indices h st :
  snd (supportsIOMMUFD h) = None ->
  class_index_inv (createIommuDeviceMap h st) /\ index_agree (createIommuDeviceMap h st).
Proof.
  intros Hcap. unfold createIommuDeviceMap.
  destruct (supportsIOMMUFD h) as [fd [e|]]; simpl in Hcap; [discriminate|].
  destruct (GetAllDevices h) as [devices [e|]].
  - split; [apply class_index_inv_empty|apply index_agree_empty].
  - split.
    + apply discover_devices_inv, class_index_inv_empty.
    + apply discover_devices_agree;
        [apply class_index_inv_empty|apply index_agree_empty].
Qed.

Lemma pass_listed_keys h st k :
  snd (supportsIOMMUFD h) = None ->
  is_Some (iommuMap (createIommuDeviceMap h st) !! k) <->
  exists deviceID keys,
    deviceMap (createIommuDeviceMap h st) !! deviceID = Some keys /\ k ∈ keys.
Proof.
  intros Hcap. destruct (pass_indices h st Hcap) as [Hinv (Hlisted & _)].
  split; [apply Hlisted|].
  intros (deviceID & keys & Hid & Hin). by apply (Hinv deviceID keys Hid).
Qed.

(** X2: After a pass the class index lists exactly the keys of the unit
    index: a key is a key of the unit index if and only if some class
    lists it, no key is listed by two classes, and no class has an empty
    list. *)
Theorem createIommuDeviceMap_indices_agree (h : Host) (st : DiscoveryState) :
  snd (supportsIOMMUFD h) = None ->
  (forall k,
     is_Some (iommuMap (createIommuDeviceMap h st) !! k) <->
     exists deviceID keys,
       deviceMap (createIommuDeviceMap h st) !! deviceID = Some keys /\ k ∈ keys) /\
  (forall id1 id2 keys1 keys2 k,
     deviceMap (createIommuDeviceMap h st) !! id1 = Some keys1 ->
     deviceMap (createIommuDeviceMap h st) !! id2 = Some keys2 ->
     k ∈ keys1 -> k ∈ keys2 -> id1 = id2) /\
  (forall deviceID keys,
     deviceMap (createIommuDeviceMap h st) !! deviceID = Some keys -> keys <> []).
Proof.
  intros Hcap. destruct (pass_indices h st Hcap) as [_ (_ & Huniq & Hnonempty)].
  split; [|split; [exact Huniq|exact Hnonempty]].
  intros k. by apply pass_listed_keys.
Qed.

Lemma discover_devices_nvswitch fd devices st deviceID :
  nvSwitchDeviceIDs (fold_left (discover_device fd) devices st) !! deviceID =
  if existsb (fun dev => discovery_kept dev && nvpci_IsNVSwitch dev
                         && String.eqb (Sprintf_04x (nvpci_Device dev)) deviceID) devices
  then Some true
  else nvSwitchDeviceIDs st !! deviceID.
Proof.
  revert st. induction devices as [|dev rest IH]; intros st; [reflexivity|].
  cbn [fold_left]. rewrite IH. clear IH. rewrite discover_device_kept. cbn [existsb].
  destruct (existsb _ rest); [by rewrite orb_true_r|]. rewrite orb_false_r.
  destruct (discovery_kept dev); [|reflexivity].
  destruct (nvpci_IsNVSwitch dev); [|reflexivity].
  destruct (String.eqb_spec (Sprintf_04x (nvpci_Device dev)) deviceID) as [Heq|Hne];
    cbn [andb nvSwitchDeviceIDs].
  - rewrite <- Heq. by rewrite lookup_insert_eq.
  - by rewrite lookup_insert_ne.
Qed.

(** X3: After a pass a device ID counts as an NVSwitch exactly when the
    enumeration held a kept device with that ID that [IsNVSwitch()]
    accepts. *)
Theorem createIommuDeviceMap_isNVSwitchDeviceID
    (h : Host) (st : DiscoveryState) (fd : bool) (devices : list nvpci_NvidiaPCIDevice)
    (deviceID : string) :
  supportsIOMMUFD h = (fd, None) ->
  GetAllDevices h = (devices, None) ->
  isNVSwitchDeviceID (createIommuDeviceMap h st) deviceID = true <->
  exists dev, In dev devices /\ discovery_kept dev = true /\
              nvpci_IsNVSwitch dev = true /\
              Sprintf_04x (nvpci_Device dev) = deviceID.
Proof.
  intros Hfd Hdevs. unfold isNVSwitchDeviceID, createIommuDeviceMap.
  rewrite Hfd, Hdevs, discover_devices_nvswitch. cbn [nvSwitchDeviceIDs].
  rewrite lookup_empty.
  destruct (existsb _ devices) eqn:Hex.
  - split; [intros _|reflexivity].
    apply existsb_exists in Hex as (dev & Hin & Hdev).
    apply andb_prop in Hdev as [Hdev Hid]. apply andb_prop in Hdev as [Hkept Hsw].
    exists dev. repeat split; auto. by apply String.eqb_eq.
  - split; [discriminate|]. intros (dev & Hin & Hkept & Hsw & Hid).
    assert (Hex' : existsb (fun dev => discovery_kept dev && nvpci_IsNVSwitch dev
                     && String.eqb (Sprintf_04x (nvpci_Device dev)) deviceID) devices
                   = true).
    { apply existsb_exists. exists dev. split; [done|].
      rewrite Hkept, Hsw. cbn [andb]. by apply String.eqb_eq. }
    congruence.
Qed.

Lemma unit_key_of_snapshot fd dev :
  unit_key_of fd (discovery_snapshot dev) = discovery_key fd dev.
Proof. reflexivity. Qed.

(** X4: After a pass every device of a unit is filed under its own key: its
    fd handle in fd mode when it has one, the decimal number of its IOMMU
    group otherwise.  So in legacy mode two devices are in the same unit
    exactly when they are in the same IOMMU group. *)
Theorem createIommuDeviceMap_unit_keys
    (h : Host) (st : DiscoveryState) (fd : bool) :
  supportsIOMMUFD h = (fd, None) ->
  (forall k unit d,
     iommuMap (createIommuDeviceMap h st) !! k = Some unit -> d ∈ unit ->
     unit_key_of fd d = k) /\
  (fd = false ->
   forall k1 k2 unit1 unit2 d1 d2,
     iommuMap (createIommuDeviceMap h st) !! k1 = Some unit1 -> d1 ∈ unit1 ->
     iommuMap (createIommuDeviceMap h st) !! k2 = Some unit2 -> d2 ∈ unit2 ->
     (k1 = k2 <-> IommuGroup d1 = IommuGroup d2)).
Proof.
  intros Hfd.
  assert (Hkey : forall k unit d,
             iommuMap (createIommuDeviceMap h st) !! k = Some unit -> d ∈ unit ->
             unit_key_of fd d = k).
  { intros k unit d Hunit Hd.
    destruct (GetAllDevices h) as [devices [e|]] eqn:Hdevs.
    - unfold createIommuDeviceMap in Hunit. rewrite Hfd, Hdevs in Hunit.
      simpl in Hunit. by rewrite lookup_empty in Hunit.
    - apply (pass_units h st fd devices k unit Hfd Hdevs) in Hunit as [_ ->].
      apply list_elem_of_In, in_map_iff in Hd as (dev & <- & Hdev).
      apply filter_In in Hdev as [_ Hdev]. apply andb_prop in Hdev as [_ Hk].
      rewrite unit_key_of_snapshot. by apply String.eqb_eq. }
  split; [exact Hkey|].
  intros -> k1 k2 unit1 unit2 d1 d2 H1 Hd1 H2 Hd2.
  rewrite <- (Hkey k1 unit1 d1 H1 Hd1), <- (Hkey k2 unit2 d2 H2 Hd2).
  unfold unit_key_of, strconv_Itoa. simpl. split.
  - apply (inj pretty).
  - by intros ->.
Qed.

(** X5: In legacy mode every key that a class lists after a pass can be
    allocated: a request for listed keys only succeeds, with the two
    device nodes of each key. *)
Theorem discovered_keys_allocate_legacy
    (h : Host) (st : DiscoveryState) (reqs : AllocateRequest) :
  supportsIOMMUFD h = (false, None) ->
  (forall req k, req ∈ ContainerRequests reqs -> k ∈ DevicesIDs req ->
     exists deviceID keys,
       deviceMap (createIommuDeviceMap h st) !! deviceID = Some keys /\ k ∈ keys) ->
  Allocate h (getIommuMap (createIommuDeviceMap h st)) reqs
  = (Some {| ContainerResponses :=
               map (fun req => {| Devices := flat_map legacy_nodes (DevicesIDs req) |})
                 (ContainerRequests reqs) |}, None).
Proof.
  intros Hfd Hlisted. unfold Allocate. rewrite Hfd.
  rewrite (Allocate_reqs_ok false _ (ContainerRequests reqs) []); [reflexivity|].
  rewrite Forall_forall. intros req Hreq. rewrite Forall_forall. intros k Hk.
  destruct (Hlisted req k Hreq Hk) as (deviceID & keys & Hid & Hin).
  assert (Hcap : snd (supportsIOMMUFD h) = None) by (by rewrite Hfd).
  destruct (proj2 (pass_listed_keys h st k Hcap)) as [unit Hunit]; [eauto|].
  exists unit. split; [exact Hunit|discriminate].
Qed.

(** X6: In fd mode, when every kept device of the enumeration has an fd
    handle, every key that a class lists after the pass can be allocated:
    the request succeeds with one device node per device of each
    requested unit. *)
Theorem discovered_keys_allocate_fd
    (h : Host) (st : DiscoveryState) (devices : list nvpci_NvidiaPCIDevice)
    (reqs : AllocateRequest) :
  supportsIOMMUFD h = (true, None) ->
  GetAllDevices h = (devices, None) ->
  (forall dev, In dev devices -> discovery_kept dev = true -> nvpci_IommuFD dev <> "") ->
  (forall req k, req ∈ ContainerRequests reqs -> k ∈ DevicesIDs req ->
     exists deviceID keys,
       deviceMap (createIommuDeviceMap h st) !! deviceID = Some keys /\ k ∈ keys) ->
  Allocate h (getIommuMap (createIommuDeviceMap h st)) reqs
  = (Some {| ContainerResponses :=
               map (fun req =>
                      {| Devices :=
                           flat_map (fun k =>
                              map fd_node
                                (default [] (getIommuMap (createIommuDeviceMap h st) !! k)))
                             (DevicesIDs req) |})
                 (ContainerRequests reqs) |}, None).
Proof.
  intros Hfd Hdevs Hhandles Hlisted. unfold Allocate. rewrite Hfd.
  rewrite (Allocate_reqs_ok true _ (ContainerRequests reqs) []); [reflexivity|].
  rewrite Forall_forall. intros req Hreq. rewrite Forall_forall. intros k Hk.
  assert (Hcap : snd (supportsIOMMUFD h) = None) by (by rewrite Hfd).
  destruct (proj2 (pass_listed_keys h st k Hcap)) as [unit Hunit]; [eauto|].
  exists unit. split; [exact Hunit|]. intros _.
  apply (pass_units h st true devices k unit Hfd Hdevs) in Hunit as [_ ->].
  rewrite Forall_forall. intros d Hd.
  apply list_elem_of_In, in_map_iff in Hd as (dev & <- & Hdev).
  apply filter_In in Hdev as [Hin Hdev]. apply andb_prop in Hdev as [Hkept _].
  by apply Hhandles.
Qed.


End DiscoveryMore.

(** ** Numbers in unit keys *)

Lemma pretty_N_char_digit (d : N) :
  (d < 10)%N ->
  is_digit (pretty_N_char d) = true /\
  Z.of_N (N_of_ascii (pretty_N_char d)) - 48 = Z.of_N d.
Proof.
  intros Hd.
  assert (Hcases : d = 0%N \/ d = 1%N \/ d = 2%N \/ d = 3%N \/ d = 4%N \/ d = 5%N \/
                   d = 6%N \/ d = 7%N \/ d = 8%N \/ d = 9%N) by lia.
  destruct Hcases as [->|[->|[->|[->|[->|[->|[->|[->|[->| ->]]]]]]]]];
    split; reflexivity.
Qed.

Lemma string_app_cons (x : ascii) (a b : string) :
  String x a +:+ b = String x (a +:+ b).
Proof. reflexivity. Qed.

Lemma string_app_assoc (a b c : string) : (a +:+ b) +:+ c = a +:+ (b +:+ c).
Proof.
  induction a as [|x a IH]; [reflexivity|]. rewrite !string_app_cons. by f_equal.
Qed.

Lemma pretty_N_go_app (x : N) (s : string) :
  pretty_N_go x s = pretty_N_go x "" +:+ s.
Proof.
  revert s. induction (N.lt_wf_0 x) as [x _ IH]; intros s.
  destruct (decide (x = 0%N)) as [->|Hx]; [by rewrite !pretty_N_go_0|].
  assert (Hlt : (x `div` 10 < x)%N) by (apply N.div_lt; lia).
  rewrite (pretty_N_go_step x s), (pretty_N_go_step x "") by lia.
  rewrite (IH _ Hlt (String (pretty_N_char (x `mod` 10)) s)).
  rewrite (IH _ Hlt (String (pretty_N_char (x `mod` 10)) "")).
  by rewrite string_app_assoc.
Qed.

Lemma parse_digits_app (a b : string) (n : Z) :
  parse_digits (a +:+ b) n =
  match parse_digits a n with
  | Some m => parse_digits b m
  | None => None
  end.
Proof.
  revert n. induction a as [|c a IH]; intros n; [reflexivity|].
  rewrite string_app_cons. cbn [parse_digits].
  destruct (is_digit c); [apply IH|reflexivity].
Qed.

Lemma parse_digits_pretty (x : N) :
  parse_digits (pretty_N_go x "") 0 = Some (Z.of_N x).
Proof.
  induction (N.lt_wf_0 x) as [x _ IH].
  destruct (decide (x = 0%N)) as [->|Hx]; [reflexivity|].
  rewrite pretty_N_go_step by lia. rewrite pretty_N_go_app, parse_digits_app.
  rewrite IH by (apply N.div_lt; lia). simpl.
  destruct (pretty_N_char_digit (x `mod` 10)%N) as [-> ->];
    [apply N.mod_lt; lia|].
  f_equal. rewrite (N.div_mod x 10) at 3 by lia. lia.
Qed.

Lemma pretty_N_go_digits (x : N) (s : string) :
  string_forallb is_digit s = true -> string_forallb is_digit (pretty_N_go x s) = true.
Proof.
  revert s. induction (N.lt_wf_0 x) as [x _ IH]; intros s Hs.
  destruct (decide (x = 0%N)) as [->|Hx]; [by rewrite pretty_N_go_0|].
  rewrite pretty_N_go_step by lia. apply IH; [apply N.div_lt; lia|].
  simpl. rewrite Hs, andb_true_r.
  apply pretty_N_char_digit, N.mod_lt. lia.
Qed.

(** The decimal text of a positive number: digits only, and at least
    one. *)
Lemma pretty_pos_shape (p : positive) :
  exists c r, pretty (N.pos p) = String c r /\
              is_digit c = true /\ string_forallb is_digit r = true.
Proof.
  unfold pretty, pretty_N. destruct (decide (N.pos p = 0%N)) as [|_]; [done|].
  pose proof (pretty_N_go_digits (N.pos p) "" eq_refl) as Hdigits.
  pose proof (parse_digits_pretty (N.pos p)) as Hparse.
  destruct (pretty_N_go (N.pos p) "") as [|c r]; [discriminate Hparse|].
  simpl in Hdigits. apply andb_prop in Hdigits as [Hc Hr]. eauto.
Qed.

Lemma digit_not_sign (c : ascii) :
  is_digit c = true -> Ascii.eqb c "-" = false /\ Ascii.eqb c "+" = false.
Proof. destruct c as [[] [] [] [] [] [] [] []]; vm_compute; intros Hc; by try split. Qed.

Lemma Atoi_unsigned (c : ascii) (r : string) :
  is_digit c = true ->
  strconv_Atoi (String c r) =
  match parse_digits (String c r) 0 with
  | Some n => if (- 2 ^ 63 <=? n) && (n <=? 2 ^ 63 - 1) then Some n else None
  | None => None
  end.
Proof.
  intros Hc. unfold strconv_Atoi. destruct (digit_not_sign c Hc) as [-> ->].
  reflexivity.
Qed.

Lemma Atoi_negative (c : ascii) (r : string) :
  strconv_Atoi (String "-" (String c r)) =
  match parse_digits (String c r) 0 with
  | Some n => if (- 2 ^ 63 <=? - n) && (- n <=? 2 ^ 63 - 1) then Some (- n) else None
  | None => None
  end.
Proof. reflexivity. Qed.

(** [strconv.Atoi] reads back what [strconv.Itoa] writes. *)
Lemma Atoi_Itoa (n : Z) :
  - 2 ^ 63 <= n <= 2 ^ 63 - 1 -> strconv_Atoi (strconv_Itoa n) = Some n.
Proof.
  intros Hrange. unfold strconv_Itoa, pretty, pretty_Z. destruct n as [|p|p].
  - reflexivity.
  - change (pretty p) with (pretty (N.pos p)).
    destruct (pretty_pos_shape p) as (c & r & Hshape & Hc & Hr).
    pose proof (parse_digits_pretty (N.pos p)) as Hparse.
    unfold pretty, pretty_N in Hshape |- *.
    destruct (decide (N.pos p = 0%N)) as [|_]; [done|].
    rewrite Hshape in *. rewrite (Atoi_unsigned c r Hc), Hparse.
    replace ((- 2 ^ 63 <=? Z.of_N (N.pos p)) && (Z.of_N (N.pos p) <=? 2 ^ 63 - 1))
      with true; [reflexivity|].
    symmetry. apply andb_true_intro. split; apply Z.leb_le; simpl; lia.
  - change (pretty p) with (pretty (N.pos p)).
    pose proof (parse_digits_pretty (N.pos p)) as Hparse.
    destruct (pretty_pos_shape p) as (c & r & Hshape & Hc & Hr).
    unfold pretty, pretty_N in Hshape |- *.
    destruct (decide (N.pos p = 0%N)) as [|_]; [done|].
    rewrite Hshape in *. rewrite string_app_cons.
    change ("" +:+ String c r) with (String c r).
    rewrite (Atoi_negative c r), Hparse.
    replace ((- 2 ^ 63 <=? - Z.of_N (N.pos p)) && (- Z.of_N (N.pos p) <=? 2 ^ 63 - 1))
      with true; [reflexivity|].
    symmetry. apply andb_true_intro. split; apply Z.leb_le; simpl; lia.
Qed.

Lemma cutset_letters (c : ascii) :
  string_mem c "abcdefghijklmnopqrstuvwxyzABCDEFGHIJKLMNOPQRSTUVWXYZ"
  = is_lower c || is_upper c.
Proof. destruct c as [[] [] [] [] [] [] [] []]; reflexivity. Qed.

Lemma TrimLeft_letters (prefix s : string) :
  string_forallb (fun c => is_lower c || is_upper c) prefix = true ->
  strings_TrimLeft (prefix +:+ s) "abcdefghijklmnopqrstuvwxyzABCDEFGHIJKLMNOPQRSTUVWXYZ"
  = strings_TrimLeft s "abcdefghijklmnopqrstuvwxyzABCDEFGHIJKLMNOPQRSTUVWXYZ".
Proof.
  induction prefix as [|c r IH]; [reflexivity|].
  intros Hp. cbn [string_forallb] in Hp. apply andb_prop in Hp as [Hc Hr].
  rewrite string_app_cons. cbn [strings_TrimLeft].
  rewrite cutset_letters, Hc. by apply IH.
Qed.

Lemma Itoa_first_not_letter (n : Z) :
  strings_TrimLeft (strconv_Itoa n) "abcdefghijklmnopqrstuvwxyzABCDEFGHIJKLMNOPQRSTUVWXYZ"
  = strconv_Itoa n.
Proof.
  unfold strconv_Itoa, pretty, pretty_Z. destruct n as [|p|p]; [reflexivity| |reflexivity].
  change (pretty p) with (pretty (N.pos p)).
  destruct (pretty_pos_shape p) as (c & r & -> & Hc & _).
  cbn [strings_TrimLeft]. rewrite cutset_letters.
  replace (is_lower c || is_upper c) with false; [reflexivity|].
  revert Hc. destruct c as [[] [] [] [] [] [] [] []]; vm_compute; congruence.
Qed.

Lemma extractNumber_prefix_Itoa (prefix : string) (n : Z) :
  string_forallb (fun c => is_lower c || is_upper c) prefix = true ->
  - 2 ^ 63 <= n <= 2 ^ 63 - 1 ->
  extractNumber (prefix +:+ strconv_Itoa n) = n.
Proof.
  intros Hprefix Hrange. unfold extractNumber.
  rewrite (TrimLeft_letters prefix _ Hprefix), Itoa_first_not_letter.
  by rewrite (Atoi_Itoa n Hrange).
Qed.

(** X8: A key made of letters followed by the decimal text of an [int] has
    that [int] as its number: [extractNumber] undoes [strconv.Itoa], with
    or without a prefix such as ["vfio"]. *)
Theorem extractNumber_Itoa (prefix : string) (n : Z) :
  string_forallb (fun c => is_lower c || is_upper c) prefix = true ->
  - 2 ^ 63 <= n <= 2 ^ 63 - 1 ->
  extractNumber (prefix +:+ strconv_Itoa n) = n.
Proof. apply extractNumber_prefix_Itoa. Qed.

Lemma extractNumber_Itoa_witness :
  extractNumber ("vfio" +:+ strconv_Itoa 10) = 10 /\
  extractNumber ("" +:+ strconv_Itoa (-3)) = -3.
Proof.
  split.
  - apply (extractNumber_Itoa "vfio" 10); [reflexivity|lia].
  - apply (extractNumber_Itoa "" (-3)); [reflexivity|lia].
Defined.

(** ** The CDI writer *)

Section CDIFacts.

Context `{Externals} `{CDIExternals}.

(** [sort.Slice] keeps its contract. *)
Hypothesis sort_Slice_keys_post :
  forall l, sort_Slice_post iommuKeyLess l (sort_Slice_keys l).

Lemma cdi_deviceSpecs_nil fd m keys :
  cdi_deviceSpecs fd m keys = [] <->
  forall k, k ∈ keys -> default [] (m !! k) = [].
Proof.
  unfold cdi_deviceSpecs. induction keys as [|k rest IH]; simpl.
  - split; [|done]. intros _ k Hk. by apply elem_of_nil in Hk.
  - split.
    + intros Hnil. apply app_eq_nil in Hnil as [Hk Hrest].
      apply map_eq_nil in Hk. intros k' Hk'.
      apply elem_of_cons in Hk' as [-> | Hk']; [done|]. by apply IH.
    + intros Hall. rewrite (Hall k) by (by left). simpl.
      apply IH. intros k' Hk'. apply Hall. by right.
Qed.

(** X9: [generateCDISpecForClass] writes nothing and returns nil when no
    scoped key has a device; when some has and naming, cache and write
    succeed, it writes exactly one spec, of version 0.5.0 and kind
    [<cdiVendor>/<class>], with one entry per device of the scoped units
    in the order of the sorted keys. *)
Theorem generateCDISpecForClass_skip_or_write
    (h : Host) (c : CDIOutcomes) (m : gmap string (list NvidiaPCIDevice))
    (class : string) (scopedIommuKeys : list string) (fd : bool) :
  supportsIOMMUFD h = (fd, None) ->
  ((forall k, k ∈ scopedIommuKeys -> default [] (m !! k) = []) ->
   generateCDISpecForClass h c m class scopedIommuKeys = ([], None)) /\
  (forall specName,
     (exists k, k ∈ scopedIommuKeys /\ default [] (m !! k) <> []) ->
     cdiapi_GenerateNameForSpec
       {| specs.Version := "0.5.0";
          specs.Kind := cdiVendor +:+ "/" +:+ class;
          specs.Devices := cdi_deviceSpecs fd m (sort_Slice_keys scopedIommuKeys) |}
     = (specName, None) ->
     NewCache_result c = None ->
     WriteSpec_result c
       {| specs.Version := "0.5.0";
          specs.Kind := cdiVendor +:+ "/" +:+ class;
          specs.Devices := cdi_deviceSpecs fd m (sort_Slice_keys scopedIommuKeys) |}
       specName = None ->
     generateCDISpecForClass h c m class scopedIommuKeys
     = ([CdiWriteSpec
           {| specs.Version := "0.5.0";
              specs.Kind := cdiVendor +:+ "/" +:+ class;
              specs.Devices := cdi_deviceSpecs fd m (sort_Slice_keys scopedIommuKeys) |}
           specName], None)).
Proof.
  intros Hfd. destruct (sort_Slice_keys_post scopedIommuKeys) as [Hperm _].
  unfold generateCDISpecForClass. rewrite Hfd. split.
  - intros Hall.
    assert (Hnil : cdi_deviceSpecs fd m (sort_Slice_keys scopedIommuKeys) = []).
    { apply cdi_deviceSpecs_nil. intros k Hk. apply Hall. by rewrite Hperm. }
    by rewrite Hnil.
  - intros specName (k & Hk & Hunit) Hname Hcache Hwrite.
    unfold kataCompatibleCDIVersion.
    destruct (cdi_deviceSpecs fd m (sort_Slice_keys scopedIommuKeys))
      as [|e es] eqn:Hspecs.
    + exfalso. apply Hunit.
      apply (proj1 (cdi_deviceSpecs_nil fd m (sort_Slice_keys scopedIommuKeys)) Hspecs).
      by rewrite <- Hperm.
    + by rewrite Hname, Hcache, Hwrite.
Qed.

Lemma cdi_deviceSpecs_names fd m keys e :
  e ∈ cdi_deviceSpecs fd m keys -> specs.Name e ∈ keys.
Proof.
  unfold cdi_deviceSpecs. intros He.
  apply list_elem_of_In, in_flat_map in He as (k & Hk & He).
  apply in_map_iff in He as (dev & <- & Hdev). by apply list_elem_of_In.
Qed.

(** X10: Each entry of a spec is named by a scoped key and describes one
    device of that key's unit: in legacy mode, or for a device without an
    fd handle, its nodes are the control node and the node of its name;
    for a device with a handle in fd mode they are the one node of the
    handle.  The spec has as many entries as the scoped units have
    devices. *)
Theorem cdi_deviceSpecs_entries
    (fd : bool) (m : gmap string (list NvidiaPCIDevice)) (keys : list string) :
  Forall (fun e =>
            specs.Name e ∈ keys /\
            exists dev, dev ∈ default [] (m !! specs.Name e) /\
              specs.DeviceNodes (specs.Edits e) =
              if fd && negb (String.eqb (IommuFD dev) "")
              then [ {| specs.Path :=
                          filepath_Join [vfioDevicePath; "devices"; IommuFD dev] |} ]
              else [ {| specs.Path := filepath_Join [vfioDevicePath; "vfio"] |};
                     {| specs.Path := filepath_Join [vfioDevicePath; specs.Name e] |} ])
    (cdi_deviceSpecs fd m keys) /\
  length (cdi_deviceSpecs fd m keys)
  = sum_list (map (fun k => length (default [] (m !! k))) keys).
Proof.
  split.
  - rewrite Forall_forall. intros e He. unfold cdi_deviceSpecs in He.
    apply list_elem_of_In, in_flat_map in He as (k & Hk & He).
    apply in_map_iff in He as (dev & <- & Hdev). simpl. split.
    + by apply list_elem_of_In.
    + exists dev. split; [by apply list_elem_of_In|reflexivity].
  - unfold cdi_deviceSpecs. rewrite length_flat_map_sum. f_equal.
    apply map_ext. intros k. by rewrite length_map.
Qed.

Lemma cdi_paths_fd m keys :
  Forall (fun k => Forall (fun dev => IommuFD dev <> "") (default [] (m !! k))) keys ->
  map specs.Path (flat_map (fun e => specs.DeviceNodes (specs.Edits e))
                    (cdi_deviceSpecs true m keys))
  = map HostPath (flat_map (unit_nodes true m) keys).
Proof.
  unfold cdi_deviceSpecs, unit_nodes. induction 1 as [|k rest Hk _ IH]; [reflexivity|].
  simpl. rewrite !flat_map_app, !map_app, IH. f_equal. clear IH.
  induction Hk as [|dev devs Hdev _ IHd]; [reflexivity|].
  simpl. rewrite <- IHd. unfold cdi_deviceNodes.
  destruct (String.eqb_spec (IommuFD dev) "") as [Heq|_]; [done|]. reflexivity.
Qed.

Lemma cdi_paths_legacy m keys :
  Forall (fun k => length (default [] (m !! k)) = 1%nat) keys ->
  map specs.Path (flat_map (fun e => specs.DeviceNodes (specs.Edits e))
                    (cdi_deviceSpecs false m keys))
  = map HostPath (flat_map (unit_nodes false m) keys).
Proof.
  unfold cdi_deviceSpecs, unit_nodes. induction 1 as [|k rest Hk _ IH]; [reflexivity|].
  simpl. rewrite !flat_map_app, !map_app, IH.
  destruct (default [] (m !! k)) as [|dev [|dev' devs]]; try discriminate Hk.
  reflexivity.
Qed.

(** X11: The CDI writer and [Allocate] name the same device nodes: when
    [Allocate] answers a container request (in legacy mode, for units of
    one device each), the host paths of its answer are the paths of the
    entries that the writer builds for the same keys, in the same
    order. *)
Theorem cdi_agrees_with_Allocate
    (h : Host) (m : gmap string (list NvidiaPCIDevice)) (keys : list string)
    (fd : bool) (resp : AllocateResponse) :
  supportsIOMMUFD h = (fd, None) ->
  Allocate h m {| ContainerRequests := [ {| DevicesIDs := keys |} ] |} = (Some resp, None) ->
  (fd = false -> forall k, k ∈ keys -> length (default [] (m !! k)) = 1%nat) ->
  map (fun r => map HostPath (Devices r)) (ContainerResponses resp)
  = [ map specs.Path (flat_map (fun e => specs.DeviceNodes (specs.Edits e))
                        (cdi_deviceSpecs fd m keys)) ].
Proof.
  intros Hfd Halloc Hone. unfold Allocate in Halloc. rewrite Hfd in Halloc.
  destruct (Allocate_reqs fd m _ []) as [err|rs] eqn:Hrs; [done|].
  injection Halloc as <-. simpl.
  pose proof (Allocate_reqs_inv _ _ _ _ _ Hrs) as Hok.
  rewrite (Allocate_reqs_ok _ _ _ [] Hok) in Hrs. injection Hrs as <-. simpl.
  f_equal. apply Forall_cons in Hok as [Hok _]. simpl in Hok.
  destruct fd.
  - symmetry. apply cdi_paths_fd. rewrite Forall_forall in Hok |- *.
    intros k Hk. destruct (Hok k Hk) as (unit & -> & Hall). by apply Hall.
  - symmetry. apply cdi_paths_legacy. rewrite Forall_forall. auto.
Qed.

Lemma cdi_deviceSpecs_numbers fd m keys :
  StronglySorted (fun a b => extractNumber a <= extractNumber b) keys ->
  non_decreasing (map (fun e => extractNumber (specs.Name e)) (cdi_deviceSpecs fd m keys)).
Proof.
  unfold non_decreasing, cdi_deviceSpecs.
  induction 1 as [|k rest Hrest IH Hk]; simpl; [constructor|].
  rewrite map_app. apply StronglySorted_app_2; [| |exact IH].
  - intros x1 x2 Hx1 Hx2.
    apply list_elem_of_In, in_map_iff in Hx1 as (e1 & <- & He1).
    apply in_map_iff in He1 as (d1 & <- & _). simpl.
    apply list_elem_of_In, in_map_iff in Hx2 as (e2 & <- & He2).
    apply in_flat_map in He2 as (k2 & Hk2 & He2).
    apply in_map_iff in He2 as (d2 & <- & _). simpl.
    rewrite Forall_forall in Hk. apply Hk. by apply list_elem_of_In.
  - rewrite map_map. simpl. clear.
    induction (default [] (m !! k)) as [|d ds IHd]; simpl; constructor; [done|].
    rewrite Forall_forall. intros x Hx.
    apply list_elem_of_In, in_map_iff in Hx as (d' & <- & _). lia.
Qed.

(** X12: After a pass in legacy mode the entries of a spec are in ascending
    order of IOMMU group: the name of an entry is the decimal number of
    the group of every device of its unit, [extractNumber] reads that
    number back, and the sorted keys make the numbers non-decreasing. *)
Theorem cdi_legacy_entries_by_group
    (h : Host) (st : DiscoveryState) (devices : list nvpci_NvidiaPCIDevice)
    (scopedIommuKeys : list string) :
  supportsIOMMUFD h = (false, None) ->
  GetAllDevices h = (devices, None) ->
  (forall dev, In dev devices -> - 2 ^ 63 <= nvpci_IommuGroup dev <= 2 ^ 63 - 1) ->
  non_decreasing
    (map (fun e => extractNumber (specs.Name e))
       (cdi_deviceSpecs false (iommuMap (createIommuDeviceMap h st))
          (sort_Slice_keys scopedIommuKeys))) /\
  Forall (fun e =>
            forall d, d ∈ default [] (iommuMap (createIommuDeviceMap h st) !! specs.Name e) ->
                      specs.Name e = strconv_Itoa (IommuGroup d) /\
                      extractNumber (specs.Name e) = IommuGroup d)
    (cdi_deviceSpecs false (iommuMap (createIommuDeviceMap h st))
       (sort_Slice_keys scopedIommuKeys)).
Proof.
  intros Hfd Hdevs Hrange. split.
  - apply cdi_deviceSpecs_numbers.
    destruct (sort_Slice_keys_post scopedIommuKeys) as [_ Hsorted].
    eapply StronglySorted_weaken; [|exact Hsorted].
    intros a b. unfold iommuKeyLess. lia.
  - rewrite Forall_forall. intros e He d Hd.
    destruct (iommuMap (createIommuDeviceMap h st) !! specs.Name e) as [unit|] eqn:Hunit;
      [|by apply elem_of_nil in Hd].
    simpl in Hd.
    apply (pass_units h st false devices _ unit Hfd Hdevs) in Hunit as [_ ->].
    apply list_elem_of_In, in_map_iff in Hd as (dev & <- & Hdev).
    apply filter_In in Hdev as [Hin Hdev]. apply andb_prop in Hdev as [_ Hk].
    apply String.eqb_eq in Hk. unfold discovery_key in Hk. simpl in Hk.
    simpl. rewrite <- Hk. split; [reflexivity|].
    apply (extractNumber_prefix_Itoa "" (nvpci_IommuGroup dev)); [reflexivity|auto].
Qed.

Lemma generateCDISpecForClass_actions h c m class keys a :
  a ∈ fst (generateCDISpecForClass h c m class keys) ->
  exists fd specName,
    supportsIOMMUFD h = (fd, None) /\
    cdi_deviceSpecs fd m (sort_Slice_keys keys) <> [] /\
    a = CdiWriteSpec
          {| specs.Version := "0.5.0";
             specs.Kind := cdiVendor +:+ "/" +:+ class;
             specs.Devices := cdi_deviceSpecs fd m (sort_Slice_keys keys) |} specName.
Proof.
  unfold generateCDISpecForClass.
  destruct (supportsIOMMUFD h) as [fd [e|]] eqn:Hfd; simpl; [by intros ?%elem_of_nil|].
  destruct (cdi_deviceSpecs fd m (sort_Slice_keys keys)) as [|e es] eqn:Hspecs;
    simpl; [by intros ?%elem_of_nil|].
  destruct (cdiapi_GenerateNameForSpec _) as [specName [e1|]]; simpl;
    [by intros ?%elem_of_nil|].
  destruct (NewCache_result c); simpl; [by intros ?%elem_of_nil|].
  destruct (WriteSpec_result c _ specName); simpl;
    intros ->%list_elem_of_singleton; exists fd, specName;
    rewrite Hspecs; by repeat split.
Qed.

Lemma GenerateCDISpec_per_type_actions h c st nvswitch rim range a :
  a ∈ fst (GenerateCDISpec_per_type h c st nvswitch rim range) ->
  exists deviceID keys class,
    (deviceID, keys) ∈ range /\ isNVSwitchDeviceID st deviceID = nvswitch /\
    a ∈ fst (generateCDISpecForClass h c (iommuMap st) class keys).
Proof.
  induction range as [|[deviceID keys] rest IH]; simpl; [by intros ?%elem_of_nil|].
  destruct (Bool.eqb (isNVSwitchDeviceID st deviceID) nvswitch) eqn:Hcat.
  - apply Bool.eqb_prop in Hcat.
    set (class := if String.eqb (getDeviceNameForID (rim deviceID) deviceID) ""
                  then deviceID else getDeviceNameForID (rim deviceID) deviceID).
    destruct (generateCDISpecForClass h c (iommuMap st) class keys)
      as [done1 [e|]] eqn:Hgen; simpl.
    + intros Ha. exists deviceID, keys, class. rewrite Hgen. simpl.
      split; [by left|done].
    + destruct (GenerateCDISpec_per_type h c st nvswitch rim rest) as [done2 err].
      simpl in *. intros [Ha|Ha]%elem_of_app.
      * exists deviceID, keys, class. rewrite Hgen. simpl. split; [by left|done].
      * destruct (IH Ha) as (id & ks & cl & Hin & Hcat' & Ha').
        exists id, ks, cl. split; [by right|done].
  - intros Ha. destruct (IH Ha) as (id & ks & cl & Hin & Hcat' & Ha').
    exists id, ks, cl. split; [by right|done].
Qed.

Lemma category_keys_listed st nvswitch range k :
  k ∈ category_keys st nvswitch range ->
  exists deviceID keys,
    (deviceID, keys) ∈ range /\ isNVSwitchDeviceID st deviceID = nvswitch /\ k ∈ keys.
Proof.
  unfold category_keys. intros Hk.
  apply list_elem_of_In, in_flat_map in Hk as ([deviceID keys] & Hin & Hk).
  destruct (Bool.eqb (isNVSwitchDeviceID st deviceID) nvswitch) eqn:Hcat;
    [|destruct Hk].
  exists deviceID, keys. repeat split.
  - by apply list_elem_of_In.
  - by apply Bool.eqb_prop.
  - by apply list_elem_of_In.
Qed.

Lemma GenerateCDISpec_category_actions h c st nvswitch alias failure rim range a :
  a ∈ fst (GenerateCDISpec_category h c st nvswitch alias failure rim range) ->
  exists class keys,
    a ∈ fst (generateCDISpecForClass h c (iommuMap st) class keys) /\
    forall k, k ∈ keys ->
      exists deviceID keys',
        (deviceID, keys') ∈ range /\ isNVSwitchDeviceID st deviceID = nvswitch /\
        k ∈ keys'.
Proof.
  unfold GenerateCDISpec_category. destruct (negb (String.eqb alias "")).
  - destruct (category_keys st nvswitch range) as [|k0 ks] eqn:Hkeys;
      [by intros ?%elem_of_nil|].
    destruct (generateCDISpecForClass h c (iommuMap st) alias (k0 :: ks))
      as [done1 [e|]] eqn:Hgen; simpl; intros Ha;
      (exists alias, (k0 :: ks); rewrite Hgen; split; [done|];
       intros k Hk; apply category_keys_listed; by rewrite Hkeys).
  - intros Ha.
    destruct (GenerateCDISpec_per_type_actions _ _ _ _ _ _ _ Ha)
      as (deviceID & keys & class & Hin & Hcat & Ha').
    exists class, keys. split; [done|]. intros k Hk. eauto.
Qed.

(** X13: Whatever [GenerateCDISpec] does is the creation of [cdiRoot] or the
    writing of a spec of version 0.5.0 with at least one entry: it never
    writes an empty spec. *)
Theorem GenerateCDISpec_never_writes_empty
    (h : Host) (c : CDIOutcomes) (st : DiscoveryState) (PGPUAlias NVSwitchAlias : string)
    (range_iommuMap : string -> list (string * list NvidiaPCIDevice))
    (range_gpu range_nvswitch : list (string * list string)) :
  Forall (fun a =>
            match a with
            | CdiMkdirAll path => path = cdiRoot
            | CdiWriteSpec spec _ =>
                specs.Devices spec <> [] /\ specs.Version spec = "0.5.0"
            end)
    (fst (GenerateCDISpec h c st PGPUAlias NVSwitchAlias range_iommuMap
            range_gpu range_nvswitch)).
Proof.
  assert (Hcat : forall nvswitch alias failure range a,
             a ∈ fst (GenerateCDISpec_category h c st nvswitch alias failure
                        range_iommuMap range) ->
             match a with
             | CdiMkdirAll path => path = cdiRoot
             | CdiWriteSpec spec _ =>
                 specs.Devices spec <> [] /\ specs.Version spec = "0.5.0"
             end).
  { intros nvswitch alias failure range a Ha.
    destruct (GenerateCDISpec_category_actions _ _ _ _ _ _ _ _ _ Ha)
      as (class & keys & Ha' & _).
    destruct (generateCDISpecForClass_actions _ _ _ _ _ _ Ha')
      as (fd & specName & _ & Hne & ->). by split. }
  rewrite Forall_forall. intros a. unfold GenerateCDISpec.
  destruct (bool_decide (iommuMap st = ∅)); [by intros ?%elem_of_nil|].
  destruct (MkdirAll_result c); simpl; [by intros ->%list_elem_of_singleton|].
  destruct (GenerateCDISpec_category h c st false PGPUAlias _ range_iommuMap range_gpu)
    as [done1 [e|]] eqn:H1; simpl.
  - intros [-> | Ha]%elem_of_cons; [done|].
    apply (Hcat false PGPUAlias "failed to generate GPU CDI spec" range_gpu).
    by rewrite H1.
  - destruct (GenerateCDISpec_category h c st true NVSwitchAlias _ range_iommuMap
                range_nvswitch) as [done2 err] eqn:H2. simpl.
    intros [-> | [Ha|Ha]%elem_of_app]%elem_of_cons; [done| |].
    + apply (Hcat false PGPUAlias "failed to generate GPU CDI spec" range_gpu).
      by rewrite H1.
    + apply (Hcat true NVSwitchAlias "failed to generate NVSwitch CDI spec"
               range_nvswitch).
      by rewrite H2.
Qed.

(** X14: The specs of a category hold the units of that category only: every
    entry written by the GPU part of [GenerateCDISpec] is named by a key
    that a class visited by the loop lists and that is not an NVSwitch
    class, and every entry written by the NVSwitch part by a key of an
    NVSwitch class, with or without alias. *)
Theorem GenerateCDISpec_category_names
    (h : Host) (c : CDIOutcomes) (st : DiscoveryState) (nvswitch : bool)
    (alias failure : string)
    (range_iommuMap : string -> list (string * list NvidiaPCIDevice))
    (range_deviceMap : list (string * list string)) (name : string) :
  name ∈ written_names (fst (GenerateCDISpec_category h c st nvswitch alias failure
                               range_iommuMap range_deviceMap)) ->
  exists deviceID keys,
    (deviceID, keys) ∈ range_deviceMap /\
    isNVSwitchDeviceID st deviceID = nvswitch /\
    name ∈ keys.
Proof.
  unfold written_names. intros Hname.
  apply list_elem_of_In, in_flat_map in Hname as (a & Ha & Hname).
  apply list_elem_of_In in Ha.
  destruct (GenerateCDISpec_category_actions _ _ _ _ _ _ _ _ _ Ha)
    as (class & keys & Ha' & Hlisted).
  destruct (generateCDISpecForClass_actions _ _ _ _ _ _ Ha')
    as (fd & specName & _ & _ & ->).
  simpl in Hname. apply in_map_iff in Hname as (e & <- & He).
  apply Hlisted. destruct (sort_Slice_keys_post keys) as [Hperm _].
  rewrite Hperm.
  apply (cdi_deviceSpecs_names fd (iommuMap st)). by apply list_elem_of_In.
Qed.

Lemma pass_nothing_kept h st :
  snd (supportsIOMMUFD h) = None ->
  snd (GetAllDevices h) <> None \/
  (forall dev, In dev (fst (GetAllDevices h)) -> discovery_kept dev = false) ->
  iommuMap (createIommuDeviceMap h st) = ∅.
Proof.
  intros Hcap Hnone. unfold createIommuDeviceMap.
  destruct (supportsIOMMUFD h) as [fd [e|]]; simpl in Hcap; [discriminate|].
  destruct (GetAllDevices h) as [devices [e|]]; simpl in *; [reflexivity|].
  destruct Hnone as [Hne|Hnone]; [done|].
  apply map_eq. intros k. rewrite discover_devices_unit. simpl. rewrite lookup_empty.
  replace (List.filter _ devices) with (@nil nvpci_NvidiaPCIDevice); [reflexivity|].
  symmetry. induction devices as [|dev rest IH]; [reflexivity|].
  simpl. rewrite (Hnone dev) by (by left). simpl. apply IH. intros d Hd. apply Hnone.
  by right.
Qed.

(** X15: After a pass that kept no device, because the enumeration failed or
    because no device of it is a VFIO-bound GPU or NVSwitch,
    [GenerateCDISpec] returns nil without creating the directory or
    writing a spec. *)
Theorem GenerateCDISpec_without_devices
    (h : Host) (c : CDIOutcomes) (st : DiscoveryState) (PGPUAlias NVSwitchAlias : string)
    (range_iommuMap : string -> list (string * list NvidiaPCIDevice))
    (range_gpu range_nvswitch : list (string * list string)) :
  snd (supportsIOMMUFD h) = None ->
  snd (GetAllDevices h) <> None \/
  (forall dev, In dev (fst (GetAllDevices h)) -> discovery_kept dev = false) ->
  GenerateCDISpec h c (createIommuDeviceMap h st) PGPUAlias NVSwitchAlias
    range_iommuMap range_gpu range_nvswitch = ([], None).
Proof.
  intros Hcap Hnone. unfold GenerateCDISpec.
  rewrite (pass_nothing_kept h st Hcap Hnone).
  by rewrite bool_decide_eq_true_2.
Qed.

End CDIFacts.

(** ** Start, Stop and restart *)

Section StartStopFacts.

Context `{Externals}.

Lemma Start_result (o : Outcomes) (c : chan) (dpi : GenericDevicePlugin) :
  server dpi = None ->
  Start o c dpi =
  match snd (cleanup o dpi) with
  | Some err => (set_stop c dpi, [ActRemove (socketPath dpi)], Some err)
  | None =>
      match listen_result o with
      | Some err =>
          (set_stop c dpi, [ActRemove (socketPath dpi); ActListen (socketPath dpi)],
           Some err)
      | None =>
          match snd (Register o dpi) with
          | Some err =>
              (set_server (Some grpc_NewServer) (set_stop c dpi),
               [ActRemove (socketPath dpi); ActListen (socketPath dpi);
                ActServe grpc_NewServer (socketPath dpi); ActProbe (socketPath dpi)]
                 ++ fst (Register o dpi), Some err)
          | None =>
              (set_server (Some grpc_NewServer) (set_stop c dpi),
               [ActRemove (socketPath dpi); ActListen (socketPath dpi);
                ActServe grpc_NewServer (socketPath dpi); ActProbe (socketPath dpi)]
                 ++ fst (Register o dpi) ++ [ActGoHealthCheck], None)
          end
      end
  end.
Proof.
  intros Hserver. unfold Start. rewrite Hserver. unfold cleanup. simpl.
  destruct (remove_result o) as [e|]; simpl.
  - destruct (errors_Is_ErrNotExist e); simpl; [|reflexivity].
    destruct (listen_result o); [reflexivity|].
    change (Register o (set_server (Some grpc_NewServer) (set_stop c dpi)))
      with (Register o dpi).
    destruct (Register o dpi) as [done3 [e3|]]; reflexivity.
  - destruct (listen_result o); [reflexivity|].
    change (Register o (set_server (Some grpc_NewServer) (set_stop c dpi)))
      with (Register o dpi).
    destruct (Register o dpi) as [done3 [e3|]]; reflexivity.
Qed.

(** X16: [Start] returns nil exactly when the instance has no server yet, the
    removal of the stale socket succeeds or finds no file, the listen
    succeeds, and so do the connection to the kubelet and the
    registration call; the outcome of the readiness probe plays no part.
    The health watcher is launched exactly in that case. *)
Theorem Start_succeeds_iff (o : Outcomes) (c : chan) (dpi : GenericDevicePlugin) :
  (snd (Start o c dpi) = None <->
   server dpi = None /\
   (forall err, remove_result o = Some err -> errors_Is_ErrNotExist err = true) /\
   listen_result o = None /\ connect_result o = None /\ register_result o = None) /\
  (ActGoHealthCheck ∈ snd (fst (Start o c dpi)) <-> snd (Start o c dpi) = None).
Proof.
  destruct (server dpi) as [srv|] eqn:Hserver.
  - unfold Start. rewrite Hserver. simpl. split.
    + split; [discriminate|]. by intros [? _].
    + split; [by intros ?%elem_of_nil|discriminate].
  - rewrite (Start_result o c dpi Hserver). unfold cleanup, Register. simpl.
    destruct (remove_result o) as [e|]; simpl.
    + destruct (errors_Is_ErrNotExist e) eqn:He; simpl.
      * destruct (listen_result o), (connect_result o), (register_result o); simpl;
          (split; [split; [try discriminate; intros _; repeat split; congruence
                          |try (intros (_ & _ & ? & ? & ?); congruence)]
                  |split; [rewrite ?elem_of_cons, ?elem_of_nil; intros Hin;
                           try (repeat (destruct Hin as [Hin|Hin]; try discriminate);
                                done); done
                          |try discriminate; intros _;
                           rewrite ?elem_of_cons; auto 10]]).
      * split.
        -- split; [discriminate|]. intros (_ & Hrm & _).
           specialize (Hrm e eq_refl). congruence.
        -- split; [|discriminate]. rewrite list_elem_of_singleton. discriminate.
    + destruct (listen_result o), (connect_result o), (register_result o); simpl;
        (split; [split; [try discriminate; intros _; repeat split; congruence
                        |try (intros (_ & _ & ? & ? & ?); congruence)]
                |split; [rewrite ?elem_of_cons, ?elem_of_nil; intros Hin;
                         try (repeat (destruct Hin as [Hin|Hin]; try discriminate);
                              done); done
                        |try discriminate; intros _;
                         rewrite ?elem_of_cons; auto 10]]).
Qed.

Lemma Start_server_after (o : Outcomes) (c : chan) (dpi : GenericDevicePlugin) :
  server dpi = None ->
  server (fst (fst (Start o c dpi))) =
  match snd (cleanup o dpi), listen_result o with
  | None, None => Some grpc_NewServer
  | _, _ => None
  end.
Proof.
  intros Hserver. rewrite (Start_result o c dpi Hserver).
  destruct (snd (cleanup o dpi)); simpl; [done|].
  destruct (listen_result o); simpl; [done|].
  by destruct (snd (Register o dpi)).
Qed.

(** X17: What a second [Start] does after a first one on an instance without
    server.  If the first failed before the listener was bound (at the
    removal of the stale socket or at the listen), the instance has no
    server and the second runs as on the original instance.  Once the
    listener was bound, whether the registration then succeeded or
    failed, every further [Start] is refused as already started and does
    nothing. *)
Theorem Start_after_Start
    (o1 o2 : Outcomes) (c1 c2 : chan) (dpi : GenericDevicePlugin) :
  server dpi = None ->
  (snd (cleanup o1 dpi) <> None \/ listen_result o1 <> None ->
   Start o2 c2 (fst (fst (Start o1 c1 dpi))) = Start o2 c2 dpi) /\
  (snd (cleanup o1 dpi) = None -> listen_result o1 = None ->
   Start o2 c2 (fst (fst (Start o1 c1 dpi)))
   = (fst (fst (Start o1 c1 dpi)), [], Some (Errorf "gRPC server already started"))).
Proof.
  intros Hserver. split.
  - intros Hfail. rewrite (Start_result o1 c1 dpi Hserver).
    destruct (snd (cleanup o1 dpi)) as [e|]; simpl.
    + unfold Start. simpl. by rewrite Hserver.
    + destruct (listen_result o1) as [e|]; simpl.
      * unfold Start. simpl. by rewrite Hserver.
      * by destruct Hfail.
  - intros Hclean Hlisten.
    pose proof (Start_server_after o1 c1 dpi Hserver) as Hafter.
    rewrite Hclean, Hlisten in Hafter.
    unfold Start at 1. by rewrite Hafter.
Qed.

Lemma Start_keeps (o : Outcomes) (c : chan) (dpi : GenericDevicePlugin) :
  server dpi = None ->
  term (fst (fst (Start o c dpi))) = term dpi /\
  stop (fst (fst (Start o c dpi))) = Some c /\
  socketPath (fst (fst (Start o c dpi))) = socketPath dpi /\
  devs (fst (fst (Start o c dpi))) = devs dpi.
Proof.
  intros Hserver. rewrite (Start_result o c dpi Hserver).
  destruct (snd (cleanup o dpi)); simpl; [done|].
  destruct (listen_result o); simpl; [done|].
  by destruct (snd (Register o dpi)).
Qed.

Lemma restart_result
    (o1 o2 : Outcomes) (c : chan) (dpi : GenericDevicePlugin) (srv : grpc_Server) :
  server dpi = Some srv -> term dpi = [] ->
  restart o1 o2 c dpi
  = (fst (fst (Start o2 c (set_server None (set_term [true] dpi)))),
     [ActSendTerm true; ActServerStop srv; ActRemove (socketPath dpi)]
       ++ snd (fst (Start o2 c (set_server None (set_term [true] dpi)))),
     Returns (snd (Start o2 c (set_server None (set_term [true] dpi))))).
Proof.
  intros Hserver Hterm.
  unfold restart, Stop. rewrite Hserver, Hterm. unfold cleanup. simpl.
  by destruct (Start o2 c (set_server None (set_term [true] dpi))) as [[d a] e].
Qed.

(** X18: [restart] on an instance without server returns an error and does
    nothing.  On an instance with a server and an empty [term] it puts
    the value for [ListAndWatch] into [term], stops the server and
    removes the socket, drops whatever error the removal gave, and then
    runs [Start] on the stopped instance with the new channel: it
    returns what that [Start] returns, and the instance holds the value
    in [term] and the new channel as [stop]. *)
Theorem restart_steps
    (o1 o2 : Outcomes) (c : chan) (dpi : GenericDevicePlugin) :
  (server dpi = None ->
   restart o1 o2 c dpi
   = (dpi, [],
      Returns (Some (Errorf ("grpc server instance not found for " +:+ deviceName dpi))))) /\
  (forall srv, server dpi = Some srv -> term dpi = [] ->
     restart o1 o2 c dpi
     = (fst (fst (Start o2 c (set_server None (set_term [true] dpi)))),
        [ActSendTerm true; ActServerStop srv; ActRemove (socketPath dpi)]
          ++ snd (fst (Start o2 c (set_server None (set_term [true] dpi)))),
        Returns (snd (Start o2 c (set_server None (set_term [true] dpi))))) /\
     term (fst (fst (restart o1 o2 c dpi))) = [true] /\
     stop (fst (fst (restart o1 o2 c dpi))) = Some c).
Proof.
  split.
  - intros Hserver. unfold restart. by rewrite Hserver.
  - intros srv Hserver Hterm.
    split; [exact (restart_result o1 o2 c dpi srv Hserver Hterm)|].
    rewrite (restart_result o1 o2 c dpi srv Hserver Hterm). simpl.
    destruct (Start_keeps o2 c (set_server None (set_term [true] dpi)) eq_refl)
      as (Hterm' & Hstop' & _).
    by rewrite Hterm', Hstop'.
Qed.

(** X19: After a restart that succeeded, a second restart waits in [Stop] for
    as long as no [ListAndWatch] session has taken the value of the
    first out of [term]: it stops nothing and starts nothing.  Once a
    session has received on [term], the second restart stops the new
    server, removes the socket and goes on to [Start]. *)
Theorem second_restart_waits_for_session
    (o1 o2 o3 o4 : Outcomes) (c c' : chan) (dpi : GenericDevicePlugin)
    (srv : grpc_Server) :
  server dpi = Some srv -> term dpi = [] ->
  snd (restart o1 o2 c dpi) = Returns None ->
  restart o3 o4 c' (fst (fst (restart o1 o2 c dpi)))
  = (fst (fst (restart o1 o2 c dpi)), [], Blocks) /\
  exists dpi' done err,
    restart o3 o4 c'
      (fst (fst (ListAndWatch (fst (fst (restart o1 o2 c dpi))) [RecvTerm])))
    = (dpi',
       [ActSendTerm true; ActServerStop grpc_NewServer; ActRemove (socketPath dpi)]
         ++ done,
       Returns err).
Proof.
  intros Hserver Hterm Hok.
  rewrite (restart_result o1 o2 c dpi srv Hserver Hterm) in *.
  cbn [fst snd] in *.
  set (dpi0 := set_server None (set_term [true] dpi)) in *.
  assert (Hserver0 : server dpi0 = None) by done.
  destruct (Start_keeps o2 c dpi0 Hserver0) as (Hterm1 & _ & Hsock1 & _).
  pose proof (Start_server_after o2 c dpi0 Hserver0) as Hserver1.
  assert (Hnew : server (fst (fst (Start o2 c dpi0))) = Some grpc_NewServer).
  { rewrite Hserver1. rewrite (Start_result o2 c dpi0 Hserver0) in Hok.
    destruct (snd (cleanup o2 dpi0)); simpl in *; [congruence|].
    destruct (listen_result o2); simpl in *; [congruence|]. done. }
  remember (fst (fst (Start o2 c dpi0))) as dpi1 eqn:Hdpi1.
  split.
  - unfold restart, Stop. rewrite Hnew, Hterm1. done.
  - remember (fst (fst (ListAndWatch dpi1 [RecvTerm]))) as dpi2 eqn:Hdpi2.
    assert (Hserver2 : server dpi2 = Some grpc_NewServer) by (by rewrite Hdpi2).
    assert (Hterm2 : term dpi2 = []).
    { rewrite Hdpi2. simpl. by rewrite Hterm1. }
    assert (Hsock2 : socketPath dpi2 = socketPath dpi) by (by rewrite Hdpi2).
    rewrite (restart_result o3 o4 c' dpi2 grpc_NewServer Hserver2 Hterm2).
    rewrite Hsock2. eauto.
Qed.

Lemma Start_healthCheck_iff (o : Outcomes) (c : chan) (dpi : GenericDevicePlugin) :
  ActGoHealthCheck ∈ snd (fst (Start o c dpi)) <-> snd (Start o c dpi) = None.
Proof.
  destruct (server dpi) as [srv|] eqn:Hserver.
  - unfold Start. rewrite Hserver. simpl.
    split; [by intros ?%elem_of_nil|discriminate].
  - rewrite (Start_result o c dpi Hserver). unfold Register.
    destruct (snd (cleanup o dpi)); simpl.
    { split; [|discriminate]. rewrite list_elem_of_singleton. discriminate. }
    destruct (listen_result o), (connect_result o), (register_result o); simpl;
      (split; [rewrite ?elem_of_cons, ?elem_of_nil; intros Hin;
               try (repeat (destruct Hin as [Hin|Hin]; try discriminate); done); done
              |try discriminate; intros _; rewrite ?elem_of_cons; auto 10]).
Qed.

(** X20: A restart of an instance with a server and an empty [term] launches
    a health watcher exactly when it returns nil, and it returns nil
    exactly when the removal of the socket before the listen, the
    listen, the connection to the kubelet and the registration call
    succeed; the outcome of the removal of the socket in [Stop] plays no
    part.  After a restart that failed, no health watcher is left to
    try again. *)
Theorem restart_launches_watcher_iff
    (o1 o2 : Outcomes) (c : chan) (dpi : GenericDevicePlugin) (srv : grpc_Server) :
  server dpi = Some srv -> term dpi = [] ->
  (ActGoHealthCheck ∈ snd (fst (restart o1 o2 c dpi)) <->
   snd (restart o1 o2 c dpi) = Returns None) /\
  (snd (restart o1 o2 c dpi) = Returns None <->
   (forall err, remove_result o2 = Some err -> errors_Is_ErrNotExist err = true) /\
   listen_result o2 = None /\ connect_result o2 = None /\ register_result o2 = None).
Proof.
  intros Hserver Hterm. rewrite (restart_result o1 o2 c dpi srv Hserver Hterm).
  cbn [fst snd]. set (dpi0 := set_server None (set_term [true] dpi)).
  split.
  - split.
    + intros Hin. apply elem_of_app in Hin as [Hin|Hin].
      * rewrite !elem_of_cons, elem_of_nil in Hin.
        repeat (destruct Hin as [Hin|Hin]; try discriminate). done.
      * destruct (Start_healthCheck_iff o2 c dpi0) as [Hnil _]. by rewrite (Hnil Hin).
    + intros [= Hnil]. apply elem_of_app. right.
      by apply (Start_healthCheck_iff o2 c dpi0).
  - rewrite (Start_result o2 c dpi0 eq_refl). unfold cleanup, Register. cbn [snd].
    destruct (remove_result o2) as [e|]; cbn [negb].
    + destruct (errors_Is_ErrNotExist e) eqn:He; cbn [negb].
      * destruct (listen_result o2), (connect_result o2), (register_result o2); simpl;
          (split; [try discriminate; intros _; repeat split; congruence
                  |try (intros (_ & ? & ? & ?); congruence)]).
      * simpl. split; [discriminate|]. intros (Hrm & _).
        specialize (Hrm e eq_refl). congruence.
    + destruct (listen_result o2), (connect_result o2), (register_result o2); simpl;
        (split; [try discriminate; intros _; repeat split; congruence
                |try (intros (_ & ? & ? & ?); congruence)]).
Qed.

End StartStopFacts.

(** ** Classes, names and the plugins made for them *)

Section PluginFacts.

Context `{Externals}.

Lemma discover_device_first fd st dev :
  (forall k unit, iommuMap st !! k = Some unit ->
     exists d rest keys, unit = d :: rest /\
       deviceMap st !! Sprintf_04x (DeviceID d) = Some keys /\ k ∈ keys) ->
  forall k unit, iommuMap (discover_device fd st dev) !! k = Some unit ->
    exists d rest keys, unit = d :: rest /\
      deviceMap (discover_device fd st dev) !! Sprintf_04x (DeviceID d) = Some keys /\
      k ∈ keys.
Proof.
  intros Hinv k unit. rewrite discover_device_kept.
  destruct (discovery_kept dev); [|apply Hinv]. cbn [iommuMap deviceMap].
  set (k0 := discovery_key fd dev). set (id0 := Sprintf_04x (nvpci_Device dev)).
  destruct (iommuMap st !! k0) as [unit0|] eqn:Hunit0; cbn [default].
  - destruct (decide (k0 = k)) as [Hk|Hk].
    + subst k. rewrite lookup_insert_eq. intros [= <-].
      destruct (Hinv k0 unit0 Hunit0) as (d & rest & keys & -> & Hkeys & Hin).
      exists d, (rest ++ [discovery_snapshot dev]), keys. done.
    + rewrite lookup_insert_ne by done. apply Hinv.
  - destruct (decide (k0 = k)) as [Hk|Hk].
    + subst k. rewrite lookup_insert_eq. intros [= <-].
      exists (discovery_snapshot dev), [], (default [] (deviceMap st !! id0) ++ [k0]).
      split; [done|]. split.
      * cbn [discovery_snapshot DeviceID]. fold id0. by rewrite lookup_insert_eq.
      * apply elem_of_app. right. by apply list_elem_of_singleton.
    + rewrite lookup_insert_ne by done. intros Hunit.
      destruct (Hinv k unit Hunit) as (d & rest & keys & -> & Hkeys & Hin).
      destruct (decide (id0 = Sprintf_04x (DeviceID d))) as [Hid|Hid].
      * exists d, rest, (keys ++ [k0]). split; [done|]. split.
        -- rewrite <- Hid, lookup_insert_eq. rewrite Hid, Hkeys. done.
        -- apply elem_of_app. by left.
      * exists d, rest, keys. split; [done|]. by rewrite lookup_insert_ne.
Qed.

Lemma discover_devices_first fd devices st :
  (forall k unit, iommuMap st !! k = Some unit ->
     exists d rest keys, unit = d :: rest /\
       deviceMap st !! Sprintf_04x (DeviceID d) = Some keys /\ k ∈ keys) ->
  forall k unit, iommuMap (fold_left (discover_device fd) devices st) !! k = Some unit ->
    exists d rest keys, unit = d :: rest /\
      deviceMap (fold_left (discover_device fd) devices st) !! Sprintf_04x (DeviceID d)
        = Some keys /\
      k ∈ keys.
Proof.
  revert st. induction devices as [|dev rest IH]; intros st Hinv; [exact Hinv|].
  cbn [fold_left]. apply IH. by apply discover_device_first.
Qed.

Lemma pass_first h st k unit :
  snd (supportsIOMMUFD h) = None ->
  iommuMap (createIommuDeviceMap h st) !! k = Some unit ->
  exists d rest keys, unit = d :: rest /\
    deviceMap (createIommuDeviceMap h st) !! Sprintf_04x (DeviceID d) = Some keys /\
    k ∈ keys.
Proof.
  intros Hcap. unfold createIommuDeviceMap.
  destruct (supportsIOMMUFD h) as [fd [e|]]; simpl in Hcap; [discriminate|].
  destruct (GetAllDevices h) as [devices [e|]].
  - cbn [iommuMap]. by rewrite lookup_empty.
  - apply discover_devices_first. intros k' unit'. cbn [iommuMap].
    by rewrite lookup_empty.
Qed.

Lemma pass_class_IDs h st deviceID keys :
  snd (supportsIOMMUFD h) = None ->
  deviceMap (createIommuDeviceMap h st) !! deviceID = Some keys ->
  exists k unit d rest,
    k ∈ keys /\ iommuMap (createIommuDeviceMap h st) !! k = Some unit /\
    unit = d :: rest /\ deviceID = Sprintf_04x (DeviceID d).
Proof.
  intros Hcap Hkeys.
  destruct (pass_indices h st Hcap) as [Hinv (_ & Hone & Hne)].
  destruct keys as [|k keys']; [by destruct (Hne deviceID [] Hkeys)|].
  assert (Hk : k ∈ k :: keys') by (apply elem_of_cons; by left).
  destruct (proj2 (Hinv deviceID _ Hkeys) k Hk) as [unit Hunit].
  destruct (pass_first h st k unit Hcap Hunit) as (d & rest & keys2 & -> & Hkeys2 & Hin2).
  exists k, (d :: rest), d, rest. repeat split; try done.
  exact (Hone _ _ _ _ k Hkeys Hkeys2 Hk Hin2).
Qed.


Lemma getDeviceNameForID_devices_cases devices deviceID :
  match getDeviceNameForID_devices devices deviceID with
  | None => forall dev, dev ∈ devices -> Sprintf_04x (DeviceID dev) <> deviceID
  | Some name =>
      exists dev, dev ∈ devices /\ Sprintf_04x (DeviceID dev) = deviceID /\
                  name = formatDeviceName (DeviceName dev)
  end.
Proof.
  induction devices as [|dev rest IH]; cbn [getDeviceNameForID_devices].
  - intros dev Hdev. by apply elem_of_nil in Hdev.
  - destruct (String.eqb_spec (Sprintf_04x (DeviceID dev)) deviceID) as [Heq|Hne].
    + exists dev. split; [apply elem_of_cons; by left|done].
    + destruct (getDeviceNameForID_devices rest deviceID) as [name|].
      * destruct IH as (d & Hd & Hid & Hname). exists d.
        split; [apply elem_of_cons; by right|done].
      * intros d Hd. apply elem_of_cons in Hd as [->|Hd]; [done|by apply IH].
Qed.

Lemma getDeviceNameForID_cases range_iommuMap deviceID :
  (getDeviceNameForID range_iommuMap deviceID = "" /\
   forall k devices dev, (k, devices) ∈ range_iommuMap -> dev ∈ devices ->
                         Sprintf_04x (DeviceID dev) <> deviceID) \/
  (exists k devices dev,
     (k, devices) ∈ range_iommuMap /\ dev ∈ devices /\
     Sprintf_04x (DeviceID dev) = deviceID /\
     getDeviceNameForID range_iommuMap deviceID = formatDeviceName (DeviceName dev)).
Proof.
  induction range_iommuMap as [|[k devices] rest IH]; cbn [getDeviceNameForID].
  - left. split; [done|]. intros k devices dev Hin. by apply elem_of_nil in Hin.
  - pose proof (getDeviceNameForID_devices_cases devices deviceID) as Hdevices.
    destruct (getDeviceNameForID_devices devices deviceID) as [name|].
    + right. destruct Hdevices as (dev & Hdev & Hid & ->).
      exists k, devices, dev. split; [apply elem_of_cons; by left|done].
    + destruct IH as [[Hres Hnone]|(k' & devices' & dev & Hin & Hdev & Hid & Hres)].
      * left. split; [done|]. intros k' devices' dev Hin Hdev.
        apply elem_of_cons in Hin as [[= -> ->]|Hin]; [by apply Hdevices|].
        by apply (Hnone k' devices').
      * right. exists k', devices', dev. split; [apply elem_of_cons; by right|done].
Qed.

Section NameFacts.

Hypothesis ToUpper_ascii :
  forall s, string_forallb is_ascii s = true -> strings_ToUpper s = ascii_ToUpper s.
Hypothesis ToUpper_no_lower :
  forall s, string_forallb (fun c => negb (is_lower c)) (strings_ToUpper s) = true.

(** X22: [getDeviceNameForID] returns the empty string when no device of the
    unit index has the ID; when one has, it returns the formatted name
    of a device with the ID.  What it returns is always a formatted
    name: formatting it again changes nothing. *)
Theorem getDeviceNameForID_result
    (range_iommuMap : list (string * list NvidiaPCIDevice)) (deviceID : string) :
  ((forall k devices dev, (k, devices) ∈ range_iommuMap -> dev ∈ devices ->
                          Sprintf_04x (DeviceID dev) <> deviceID) ->
   getDeviceNameForID range_iommuMap deviceID = "") /\
  ((exists k devices dev, (k, devices) ∈ range_iommuMap /\ dev ∈ devices /\
                          Sprintf_04x (DeviceID dev) = deviceID) ->
   exists k devices dev,
     (k, devices) ∈ range_iommuMap /\ dev ∈ devices /\
     Sprintf_04x (DeviceID dev) = deviceID /\
     getDeviceNameForID range_iommuMap deviceID = formatDeviceName (DeviceName dev)) /\
  formatDeviceName (getDeviceNameForID range_iommuMap deviceID)
  = getDeviceNameForID range_iommuMap deviceID.
Proof.
  destruct (getDeviceNameForID_cases range_iommuMap deviceID)
    as [[Hres Hnone]|(k & devices & dev & Hin & Hdev & Hid & Hres)].
  - split; [done|]. split; [|by rewrite Hres].
    intros (k & devices & dev & Hin & Hdev & Hid). by destruct (Hnone k devices dev).
  - split; [|split].
    + intros Hnone. by destruct (Hnone k devices dev).
    + intros _. by exists k, devices, dev.
    + rewrite Hres.
      apply (formatDeviceName_fixes_output ToUpper_ascii),
        (formatDeviceName_output ToUpper_no_lower).
Qed.

End NameFacts.

Lemma createDevicePlugins_loop_made start st fd PGPUAlias NVSwitchAlias r range acc :
  fst (createDevicePlugins_loop start st fd PGPUAlias NVSwitchAlias r range acc)
  = map (fun e => createDevicePlugins_plugin st fd PGPUAlias NVSwitchAlias
                    (r (fst e)) (fst e) (snd e)) range.
Proof.
  revert acc. induction range as [|[deviceID keys] rest IH]; intros acc; [done|].
  cbn [createDevicePlugins_loop map fst snd].
  destruct (start _) as [dp' err].
  specialize (IH (match err with Some _ => acc | None => acc ++ [dp'] end)).
  destruct (createDevicePlugins_loop _ _ _ _ _ _ rest _) as [made kept].
  simpl in *. by rewrite IH.
Qed.

Lemma createDevicePlugins_loop_kept start st fd PGPUAlias NVSwitchAlias r range acc dp :
  dp ∈ snd (createDevicePlugins_loop start st fd PGPUAlias NVSwitchAlias r range acc) ->
  dp ∈ acc \/
  exists deviceID keys,
    (deviceID, keys) ∈ range /\
    start (createDevicePlugins_plugin st fd PGPUAlias NVSwitchAlias
             (r deviceID) deviceID keys) = (dp, None).
Proof.
  revert acc. induction range as [|[deviceID keys] rest IH]; intros acc; [by left|].
  cbn [createDevicePlugins_loop].
  destruct (start _) as [dp' err] eqn:Hstart.
  specialize (IH (match err with Some _ => acc | None => acc ++ [dp'] end)).
  destruct (createDevicePlugins_loop _ _ _ _ _ _ rest _) as [made kept].
  simpl in *. intros Hdp. destruct (IH Hdp) as [Hacc|(id & ks & Hin & Hs)].
  - destruct err as [e|]; [by left|].
    apply elem_of_app in Hacc as [Hacc|Hacc]; [by left|].
    apply list_elem_of_singleton in Hacc. subst dp'. right.
    exists deviceID, keys. split; [apply elem_of_cons; by left|done].
  - right. exists id, ks. split; [apply elem_of_cons; by right|done].
Qed.

Lemma advertised_IDs_made st fd PGPUAlias NVSwitchAlias r range :
  advertised_IDs
    (map (fun e => createDevicePlugins_plugin st fd PGPUAlias NVSwitchAlias
                     (r (fst e)) (fst e) (snd e)) range)
  = flat_map snd range.
Proof.
  induction range as [|[deviceID keys] rest IH]; [done|].
  unfold advertised_IDs in *. cbn [map flat_map fst snd]. rewrite IH. f_equal.
  unfold createDevicePlugins_plugin, NewGenericDevicePlugin. cbn [devs].
  rewrite map_map. cbn [ID]. apply map_id.
Qed.

Lemma NoDup_flat_map_disjoint {A B : Type} (f : A -> list B) (l : list A) :
  NoDup l ->
  (forall x, x ∈ l -> NoDup (f x)) ->
  (forall x y k, x ∈ l -> y ∈ l -> k ∈ f x -> k ∈ f y -> x = y) ->
  NoDup (flat_map f l).
Proof.
  induction l as [|x l IH]; intros Hl Hf Hdisj; cbn [flat_map]; [constructor|].
  apply NoDup_cons in Hl as [Hx Hl].
  apply NoDup_app. split; [|split].
  - apply Hf, elem_of_cons. by left.
  - intros k Hk Hk'. apply list_elem_of_In, in_flat_map in Hk' as (y & Hy & Hk').
    apply list_elem_of_In in Hy, Hk'.
    assert (x = y) as ->; [|done].
    apply (Hdisj x y k); [apply elem_of_cons; by left|apply elem_of_cons; by right|done..].
  - apply IH; [done|..].
    + intros y Hy. apply Hf, elem_of_cons. by right.
    + intros y z k Hy Hz. apply Hdisj; apply elem_of_cons; by right.
Qed.

(** X23: After a discovery pass, the plugins that [createDevicePlugins] makes
    offer every unit of the unit index, each unit in one plugin only and
    once, and every device they offer starts as healthy. *)
Theorem createDevicePlugins_units_once
    (startDevicePlugin : GenericDevicePlugin -> GenericDevicePlugin * option error)
    (h : Host) (st : DiscoveryState) (PGPUAlias NVSwitchAlias : string)
    (range_iommuMap : string -> list (string * list NvidiaPCIDevice))
    (range_deviceMap : list (string * list string)) :
  snd (supportsIOMMUFD h) = None ->
  range_deviceMap ≡ₚ map_to_list (deviceMap (createIommuDeviceMap h st)) ->
  NoDup (advertised_IDs
           (fst (createDevicePlugins startDevicePlugin h (createIommuDeviceMap h st)
                   PGPUAlias NVSwitchAlias range_iommuMap range_deviceMap))) /\
  (forall k,
     k ∈ advertised_IDs
           (fst (createDevicePlugins startDevicePlugin h (createIommuDeviceMap h st)
                   PGPUAlias NVSwitchAlias range_iommuMap range_deviceMap)) <->
     is_Some (iommuMap (createIommuDeviceMap h st) !! k)) /\
  (forall dp dev,
     dp ∈ fst (createDevicePlugins startDevicePlugin h (createIommuDeviceMap h st)
                 PGPUAlias NVSwitchAlias range_iommuMap range_deviceMap) ->
     dev ∈ devs dp -> Health dev = pluginapi_Healthy).
Proof.
  intros Hcap Hrange.
  assert (Hmade :
    fst (createDevicePlugins startDevicePlugin h (createIommuDeviceMap h st)
           PGPUAlias NVSwitchAlias range_iommuMap range_deviceMap)
    = map (fun e => createDevicePlugins_plugin (createIommuDeviceMap h st)
                      (fst (supportsIOMMUFD h)) PGPUAlias NVSwitchAlias
                      (range_iommuMap (fst e)) (fst e) (snd e)) range_deviceMap).
  { unfold createDevicePlugins.
    destruct (supportsIOMMUFD h) as [fd [e|]]; [discriminate|].
    apply createDevicePlugins_loop_made. }
  rewrite Hmade, advertised_IDs_made. clear Hmade.
  destruct (pass_indices h st Hcap) as [Hinv (Hlisted & Hone & _)].
  assert (Hentry : forall deviceID keys,
            (deviceID, keys) ∈ range_deviceMap <->
            deviceMap (createIommuDeviceMap h st) !! deviceID = Some keys).
  { intros deviceID keys. rewrite Hrange. apply elem_of_map_to_list. }
  split; [|split].
  - apply NoDup_flat_map_disjoint.
    + rewrite Hrange. apply NoDup_map_to_list.
    + intros [deviceID keys] Hin. apply Hentry in Hin. by apply (Hinv deviceID keys).
    + intros [id1 keys1] [id2 keys2] k Hin1 Hin2 Hk1 Hk2.
      apply Hentry in Hin1, Hin2. cbn [snd] in *.
      assert (id1 = id2) as -> by exact (Hone _ _ _ _ k Hin1 Hin2 Hk1 Hk2).
      congruence.
  - intros k. split.
    + intros Hk. apply list_elem_of_In, in_flat_map in Hk as ([deviceID keys] & Hin & Hk).
      apply list_elem_of_In in Hin, Hk. apply Hentry in Hin.
      by apply (Hinv deviceID keys Hin).
    + intros Hk. destruct (Hlisted k Hk) as (deviceID & keys & Hkeys & Hin).
      apply list_elem_of_In, in_flat_map. exists (deviceID, keys).
      split; apply list_elem_of_In; [by apply Hentry|done].
  - intros dp dev Hdp Hdev.
    apply list_elem_of_In, in_map_iff in Hdp as ([deviceID keys] & <- & _).
    unfold createDevicePlugins_plugin, NewGenericDevicePlugin in Hdev. cbn [devs] in Hdev.
    apply list_elem_of_In, in_map_iff in Hdev as (k & <- & _). done.
Qed.

(** X24: A plugin that [createDevicePlugins] keeps after starting it with
    [startDevicePluginFunc] was made for an entry of the class index,
    offers that entry's keys, runs a server, holds the channel of the
    package as [stop] and has nothing in [term]: at shutdown its [Stop]
    does not wait, it signals [ListAndWatch], stops the server and
    removes the socket. *)
Theorem createDevicePlugins_kept_started
    (o : Outcomes) (c : chan) (h : Host) (st : DiscoveryState)
    (PGPUAlias NVSwitchAlias : string)
    (range_iommuMap : string -> list (string * list NvidiaPCIDevice))
    (range_deviceMap : list (string * list string)) (dp : GenericDevicePlugin) :
  dp ∈ snd (createDevicePlugins (startDevicePluginFunc o c) h st PGPUAlias NVSwitchAlias
              range_iommuMap range_deviceMap) ->
  (exists deviceID keys, (deviceID, keys) ∈ range_deviceMap /\ map ID (devs dp) = keys) /\
  server dp = Some grpc_NewServer /\ stop dp = Some c /\ term dp = [] /\
  forall o',
    Stop o' dp
    = (set_server None (set_term [true] dp),
       [ActSendTerm true; ActServerStop grpc_NewServer; ActRemove (socketPath dp)],
       Returns (snd (cleanup o' dp))).
Proof.
  unfold createDevicePlugins.
  destruct (supportsIOMMUFD h) as [fd [e|]]; [by intros ?%elem_of_nil|].
  intros Hdp. apply createDevicePlugins_loop_kept in Hdp
    as [Hdp|(deviceID & keys & Hin & Hstart)]; [by apply elem_of_nil in Hdp|].
  set (dp0 := createDevicePlugins_plugin st fd PGPUAlias NVSwitchAlias
                (range_iommuMap deviceID) deviceID keys) in *.
  assert (Hserver0 : server dp0 = None) by done.
  assert (Hterm0 : term dp0 = []) by done.
  assert (Hdevs0 : map ID (devs dp0) = keys).
  { unfold dp0, createDevicePlugins_plugin, NewGenericDevicePlugin. cbn [devs].
    rewrite map_map. cbn [ID]. apply map_id. }
  unfold startDevicePluginFunc in Hstart.
  destruct (Start_keeps o c dp0 Hserver0) as (Hterm & Hstop & _ & Hdevs).
  pose proof (Start_server_after o c dp0 Hserver0) as Hserver.
  pose proof (Start_result o c dp0 Hserver0) as Hres.
  destruct (Start o c dp0) as [[dp1 done1] err1]. cbn [fst snd] in *.
  injection Hstart as -> ->.
  assert (Hsrv : server dp = Some grpc_NewServer).
  { rewrite Hserver.
    destruct (snd (cleanup o dp0)); [by injection Hres|].
    destruct (listen_result o); [by injection Hres|]. done. }
  split; [|split; [|split; [|split]]].
  - exists deviceID, keys. split; [done|]. by rewrite Hdevs.
  - exact Hsrv.
  - exact Hstop.
  - by rewrite Hterm.
  - intros o'. unfold Stop. rewrite Hsrv, Hterm, Hterm0. unfold cleanup. done.
Qed.

(** X25: After a discovery pass [getGPUDeviceName] returns the empty string
    exactly when the class index holds no class of GPUs; otherwise it
    returns the name under which [createDevicePlugins] registers the
    first GPU class in the order of its [range]. *)
Theorem getGPUDeviceName_result
    (h : Host) (st : DiscoveryState) (fd : bool) (PGPUAlias NVSwitchAlias : string)
    (range_iommuMap : string -> list (string * list NvidiaPCIDevice))
    (range_deviceMap : list (string * list string)) :
  snd (supportsIOMMUFD h) = None ->
  (forall deviceID keys, (deviceID, keys) ∈ range_deviceMap ->
     deviceMap (createIommuDeviceMap h st) !! deviceID = Some keys) ->
  (getGPUDeviceName (createIommuDeviceMap h st) PGPUAlias range_iommuMap range_deviceMap
   = "" <->
   forall deviceID keys, (deviceID, keys) ∈ range_deviceMap ->
     isNVSwitchDeviceID (createIommuDeviceMap h st) deviceID = true) /\
  (forall pre deviceID keys post,
     range_deviceMap = pre ++ (deviceID, keys) :: post ->
     (forall e, e ∈ pre -> isNVSwitchDeviceID (createIommuDeviceMap h st) (fst e) = true) ->
     isNVSwitchDeviceID (createIommuDeviceMap h st) deviceID = false ->
     getGPUDeviceName (createIommuDeviceMap h st) PGPUAlias range_iommuMap range_deviceMap
     = deviceName (createDevicePlugins_plugin (createIommuDeviceMap h st) fd PGPUAlias
                     NVSwitchAlias (range_iommuMap deviceID) deviceID keys)).
Proof.
  intros Hcap Hrange. split.
  - induction range_deviceMap as [|[deviceID keys] rest IH]; cbn [getGPUDeviceName].
    + split; [|done]. intros _ deviceID keys Hin. by apply elem_of_nil in Hin.
    + assert (Hrest : forall id ks, (id, ks) ∈ rest ->
                deviceMap (createIommuDeviceMap h st) !! id = Some ks).
      { intros id ks Hin. apply Hrange, elem_of_cons. by right. }
      specialize (IH Hrest).
      destruct (isNVSwitchDeviceID (createIommuDeviceMap h st) deviceID) eqn:Hsw.
      * rewrite IH. split.
        -- intros Hall id ks Hin. apply elem_of_cons in Hin as [[= -> ->]|Hin]; [done|].
           by apply (Hall id ks).
        -- intros Hall id ks Hin. apply (Hall id ks), elem_of_cons. by right.
      * assert (Hid : deviceID <> "").
        { destruct (pass_class_IDs h st deviceID keys Hcap) as (k & unit & d & r & _ & _ & _ & ->).
          - apply Hrange, elem_of_cons. by left.
          - discriminate. }
        split.
        -- intros Hname. exfalso.
           destruct (negb (String.eqb PGPUAlias "")) eqn:Halias.
           ++ destruct (String.eqb_spec PGPUAlias "") as [->|Hne]; [done|].
              cbn zeta in Hname. rewrite Hname in *. done.
           ++ cbn zeta in Hname.
              destruct (String.eqb_spec
                          (getDeviceNameForID (range_iommuMap deviceID) deviceID) "")
                as [Hempty|Hne]; congruence.
        -- intros Hall. specialize (Hall deviceID keys).
           rewrite Hsw in Hall. discriminate Hall. apply elem_of_cons. by left.
  - clear Hrange. intros pre deviceID keys post -> Hpre Hgpu.
    induction pre as [|[id ks] pre IH]; cbn [app getGPUDeviceName].
    + rewrite Hgpu. unfold createDevicePlugins_plugin, NewGenericDevicePlugin.
      cbn [deviceName]. by rewrite Hgpu.
    + assert (Hsw : isNVSwitchDeviceID (createIommuDeviceMap h st) id = true).
      { apply (Hpre (id, ks)), elem_of_cons. by left. }
      rewrite Hsw. apply IH. intros e He. apply Hpre, elem_of_cons. by right.
Qed.

End PluginFacts.

(** ** The health watcher *)

Section WatcherFacts.

Context `{Externals}.

Variable filepath_Dir : string -> string.

Lemma healthCheck_watch_values w path ds m0 watched0 m watched err :
  healthCheck_watch w path ds m0 watched0 = (m, watched, err) ->
  forall p v, m !! p = Some v ->
    m0 !! p = Some v \/
    exists d, d ∈ ds /\ p = filepath_Join [path; ID d] /\ v = ID d.
Proof.
  revert m0 watched0. induction ds as [|d0 rest IH]; intros m0 watched0;
    cbn [healthCheck_watch].
  - intros [= <- _ _] p v Hp. by left.
  - assert (Hstep : forall p v,
              <[filepath_Join [path; ID d0] := ID d0]> m0 !! p = Some v ->
              m0 !! p = Some v \/
              exists d, d ∈ d0 :: rest /\ p = filepath_Join [path; ID d] /\ v = ID d).
    { intros p v. destruct (decide (filepath_Join [path; ID d0] = p)) as [<-|Hne].
      - rewrite lookup_insert_eq. intros [= <-]. right. exists d0.
        split; [apply elem_of_cons; by left|done].
      - rewrite lookup_insert_ne by done. by left. }
    destruct (watcher_Add_result w (filepath_Join [path; ID d0])).
    + intros [= <- _ _]. exact Hstep.
    + intros Hrest p v Hp.
      destruct (IH _ _ Hrest p v Hp) as [Hp'|(d & Hd & Hpd & Hv)]; [by apply Hstep|].
      right. exists d. split; [apply elem_of_cons; by right|done].
Qed.

Lemma healthCheck_watch_ok w path ds m0 watched0 m watched :
  healthCheck_watch w path ds m0 watched0 = (m, watched, None) ->
  watched = watched0 ++ map (fun d => filepath_Join [path; ID d]) ds /\
  (forall d, d ∈ ds -> watcher_Add_result w (filepath_Join [path; ID d]) = None) /\
  (forall p v, m0 !! p = Some v ->
     (forall d, d ∈ ds -> filepath_Join [path; ID d] = p -> ID d = v) ->
     m !! p = Some v) /\
  (forall d, d ∈ ds ->
     (forall d', d' ∈ ds -> filepath_Join [path; ID d'] = filepath_Join [path; ID d] ->
                 ID d' = ID d) ->
     m !! filepath_Join [path; ID d] = Some (ID d)).
Proof.
  revert m0 watched0. induction ds as [|d0 rest IH]; intros m0 watched0;
    cbn [healthCheck_watch].
  - intros [= <- <-]. rewrite app_nil_r. repeat split.
    + intros d Hd. by apply elem_of_nil in Hd.
    + done.
    + intros d Hd. by apply elem_of_nil in Hd.
  - destruct (watcher_Add_result w (filepath_Join [path; ID d0])) eqn:Hadd; [discriminate|].
    intros Hrest. destruct (IH _ _ Hrest) as (Hwatched & Hadds & Hkeep & Hnew).
    split; [|split; [|split]].
    + rewrite Hwatched. cbn [map]. by rewrite <- app_assoc.
    + intros d Hd. apply elem_of_cons in Hd as [->|Hd]; [done|by apply Hadds].
    + intros p v Hp Hinj. apply Hkeep.
      * destruct (decide (filepath_Join [path; ID d0] = p)) as [Heq|Hne].
        -- rewrite <- Heq, lookup_insert_eq. f_equal. apply Hinj; [|done].
           apply elem_of_cons. by left.
        -- by rewrite lookup_insert_ne.
      * intros d Hd. apply Hinj, elem_of_cons. by right.
    + intros d Hd Hinj. apply elem_of_cons in Hd as [->|Hd].
      * apply Hkeep; [by rewrite lookup_insert_eq|].
        intros d' Hd'. apply Hinj, elem_of_cons. by right.
      * apply Hnew; [done|]. intros d' Hd'. apply Hinj, elem_of_cons. by right.
Qed.

Lemma healthCheck_watch_fails w path ds m0 watched0 :
  (forall d, d ∈ ds -> watcher_Add_result w (filepath_Join [path; ID d]) = None) ->
  snd (healthCheck_watch w path ds m0 watched0) = None.
Proof.
  revert m0 watched0. induction ds as [|d0 rest IH]; intros m0 watched0 Hadds;
    cbn [healthCheck_watch]; [done|].
  rewrite (Hadds d0) by (apply elem_of_cons; by left).
  apply IH. intros d Hd. apply Hadds, elem_of_cons. by right.
Qed.

Lemma healthCheck_setup_watch w h dpi m watched :
  healthCheck_setup filepath_Dir w h dpi = (m, watched, None) ->
  healthCheck_watch w (devicePath dpi) (devs dpi) ∅ [filepath_Dir (socketPath dpi)]
  = (m, watched, None).
Proof.
  unfold healthCheck_setup.
  destruct (NewWatcher_result w); [discriminate|].
  destruct (watcher_Add_result w (filepath_Dir (socketPath dpi))); [discriminate|].
  destruct (os_Stat h (devicePath dpi)) as [e|]; [|done].
  destruct (negb (errors_Is_ErrNotExist e)); [discriminate|done].
Qed.

Lemma healthCheck_setup_tracked w h dpi m watched :
  healthCheck_setup filepath_Dir w h dpi = (m, watched, None) ->
  (forall p v, m !! p = Some v ->
     exists d, d ∈ devs dpi /\ p = filepath_Join [devicePath dpi; ID d] /\ v = ID d) /\
  (forall d, d ∈ devs dpi ->
     (forall d', d' ∈ devs dpi ->
        filepath_Join [devicePath dpi; ID d'] = filepath_Join [devicePath dpi; ID d] ->
        ID d' = ID d) ->
     m !! filepath_Join [devicePath dpi; ID d] = Some (ID d)).
Proof.
  intros Hsetup. apply healthCheck_setup_watch in Hsetup. split.
  - intros p v Hp.
    destruct (healthCheck_watch_values _ _ _ _ _ _ _ _ Hsetup p v Hp) as [Hempty|Hd];
      [by rewrite lookup_empty in Hempty|done].
  - by destruct (healthCheck_watch_ok _ _ _ _ _ _ _ Hsetup) as (_ & _ & _ & Hnew).
Qed.

(** X26: The set-up of [healthCheck] succeeds exactly when the watcher can be
    created, the directory of the socket and the path of every device
    can be watched, and [os.Stat] of the device directory succeeds or
    finds nothing: a missing device directory is no error. *)
Theorem healthCheck_setup_succeeds_iff
    (w : WatchOutcomes) (h : Host) (dpi : GenericDevicePlugin) :
  snd (healthCheck_setup filepath_Dir w h dpi) = None <->
  NewWatcher_result w = None /\
  watcher_Add_result w (filepath_Dir (socketPath dpi)) = None /\
  (forall err, os_Stat h (devicePath dpi) = Some err -> errors_Is_ErrNotExist err = true) /\
  (forall d, d ∈ devs dpi ->
     watcher_Add_result w (filepath_Join [devicePath dpi; ID d]) = None).
Proof.
  split.
  - intros Hok.
    destruct (healthCheck_setup filepath_Dir w h dpi) as [[m watched] err] eqn:Hsetup.
    cbn [snd] in Hok. subst err.
    pose proof (healthCheck_setup_watch w h dpi m watched Hsetup) as Hwatch.
    destruct (healthCheck_watch_ok _ _ _ _ _ _ _ Hwatch) as (_ & Hadds & _).
    unfold healthCheck_setup in Hsetup.
    destruct (NewWatcher_result w); [discriminate|].
    destruct (watcher_Add_result w (filepath_Dir (socketPath dpi))); [discriminate|].
    repeat split; try done.
    intros err Herr. rewrite Herr in Hsetup.
    destruct (errors_Is_ErrNotExist err); [done|discriminate].
  - intros (Hnew & Hdir & Hstat & Hadds). unfold healthCheck_setup.
    rewrite Hnew, Hdir.
    destruct (os_Stat h (devicePath dpi)) as [e|].
    + rewrite (Hstat e eq_refl). cbn [negb]. by apply healthCheck_watch_fails.
    + by apply healthCheck_watch_fails.
Qed.

(** X27: After a set-up that succeeded the watcher watches the directory of
    the socket and then the path of every device, in the order of the
    device list; every path it tracks is the path of a device and stands
    for that device's ID; and the path of a device stands for this
    device when no device with another ID has the same path. *)
Theorem healthCheck_setup_map
    (w : WatchOutcomes) (h : Host) (dpi : GenericDevicePlugin)
    (m : gmap string string) (watched : list string) :
  healthCheck_setup filepath_Dir w h dpi = (m, watched, None) ->
  watched = filepath_Dir (socketPath dpi)
              :: map (fun d => filepath_Join [devicePath dpi; ID d]) (devs dpi) /\
  (forall p v, m !! p = Some v ->
     exists d, d ∈ devs dpi /\ p = filepath_Join [devicePath dpi; ID d] /\ v = ID d) /\
  (forall d, d ∈ devs dpi ->
     (forall d', d' ∈ devs dpi ->
        filepath_Join [devicePath dpi; ID d'] = filepath_Join [devicePath dpi; ID d] ->
        ID d' = ID d) ->
     m !! filepath_Join [devicePath dpi; ID d] = Some (ID d)).
Proof.
  intros Hsetup. split; [|exact (healthCheck_setup_tracked w h dpi m watched Hsetup)].
  apply healthCheck_setup_watch in Hsetup.
  by destruct (healthCheck_watch_ok _ _ _ _ _ _ _ Hsetup) as (-> & _).
Qed.

End WatcherFacts.

Lemma healthCheck_loop_signals m socketPath0 received s :
  s ∈ fst (healthCheck_loop m socketPath0 received) ->
  exists p v, m !! p = Some v /\ (s = RecvHealthy v \/ s = RecvUnhealthy v).
Proof.
  induction received as [|[|event] rest IH]; cbn [healthCheck_loop fst];
    try (by intros ?%elem_of_nil).
  destruct (m !! ev_Name event) as [v|] eqn:Hv.
  - destruct (healthCheck_loop m socketPath0 rest) as [sent e]. cbn [fst] in *.
    destruct (ev_Op event =? fsnotify_Create)%N; cbn [fst].
    + intros Hs. apply elem_of_cons in Hs as [->|Hs]; [|by apply IH].
      exists (ev_Name event), v. split; [done|by left].
    + destruct ((ev_Op event =? fsnotify_Remove)%N || (ev_Op event =? fsnotify_Rename)%N);
        cbn [fst]; [|exact IH].
      intros Hs. apply elem_of_cons in Hs as [->|Hs]; [|by apply IH].
      exists (ev_Name event), v. split; [done|by right].
  - destruct (String.eqb (ev_Name event) socketPath0 && (ev_Op event =? fsnotify_Remove)%N);
      [by intros ?%elem_of_nil|exact IH].
Qed.

Lemma healthCheck_loop_app m socketPath0 received later :
  snd (healthCheck_loop m socketPath0 received) = StillWatching ->
  healthCheck_loop m socketPath0 (received ++ later)
  = (fst (healthCheck_loop m socketPath0 received)
       ++ fst (healthCheck_loop m socketPath0 later),
     snd (healthCheck_loop m socketPath0 later)).
Proof.
  induction received as [|[|event] rest IH]; cbn [healthCheck_loop app fst snd].
  - intros _. by destruct (healthCheck_loop m socketPath0 later).
  - discriminate.
  - destruct (m !! ev_Name event) as [v|].
    + destruct (healthCheck_loop m socketPath0 rest) as [sent e]. cbn [fst snd] in IH.
      destruct (ev_Op event =? fsnotify_Create)%N; cbn [fst snd].
      * intros He. by rewrite (IH He).
      * destruct ((ev_Op event =? fsnotify_Remove)%N || (ev_Op event =? fsnotify_Rename)%N);
          cbn [fst snd]; intros He; by rewrite (IH He).
    + destruct (String.eqb (ev_Name event) socketPath0
                && (ev_Op event =? fsnotify_Remove)%N); [discriminate|exact IH].
Qed.

Lemma ListAndWatch_loop_health dpi received :
  Forall is_health_signal received ->
  length (snd (fst (ListAndWatch_loop dpi received))) = length received /\
  snd (ListAndWatch_loop dpi received) = Blocks.
Proof.
  intros Hall. revert dpi. induction Hall as [|s rest Hs _ IH]; intros dpi; [done|].
  destruct s as [k|k| |]; try done; cbn [ListAndWatch_loop].
  - specialize (IH (set_devs (mark_health k pluginapi_Unhealthy (devs dpi)) dpi)).
    destruct (ListAndWatch_loop _ rest) as [[dpi' sent] c]. cbn [fst snd length] in *.
    destruct IH as [-> ->]. done.
  - specialize (IH (set_devs (mark_health k pluginapi_Healthy (devs dpi)) dpi)).
    destruct (ListAndWatch_loop _ rest) as [[dpi' sent] c]. cbn [fst snd length] in *.
    destruct IH as [-> ->]. done.
Qed.


Section WatcherSessionFacts.

Context `{Externals}.

Variable filepath_Dir : string -> string.

(** X28: Whatever events arrive, the watcher only ever reports IDs of devices
    of its instance, as healthy or as unhealthy; a session of
    [ListAndWatch] that receives what the watcher reports answers each
    report with one response and is not ended by any of them. *)
Theorem healthCheck_reports_device_IDs
    (w : WatchOutcomes) (h : Host) (dpi : GenericDevicePlugin)
    (m : gmap string string) (watched : list string) (received : list watch_input) :
  healthCheck_setup filepath_Dir w h dpi = (m, watched, None) ->
  (forall s, s ∈ fst (healthCheck_loop m (socketPath dpi) received) ->
     exists d, d ∈ devs dpi /\ (s = RecvHealthy (ID d) \/ s = RecvUnhealthy (ID d))) /\
  length (sent_by dpi (fst (healthCheck_loop m (socketPath dpi) received)))
  = S (length (fst (healthCheck_loop m (socketPath dpi) received))) /\
  snd (ListAndWatch dpi (fst (healthCheck_loop m (socketPath dpi) received))) = Blocks.
Proof.
  intros Hsetup.
  destruct (healthCheck_setup_tracked filepath_Dir w h dpi m watched Hsetup) as [Hvalues _].
  assert (Hsignals : forall s, s ∈ fst (healthCheck_loop m (socketPath dpi) received) ->
            exists d, d ∈ devs dpi /\ (s = RecvHealthy (ID d) \/ s = RecvUnhealthy (ID d))).
  { intros s Hs. apply healthCheck_loop_signals in Hs as (p & v & Hp & Hs).
    destruct (Hvalues p v Hp) as (d & Hd & _ & ->). by exists d. }
  split; [exact Hsignals|].
  assert (Hall : Forall is_health_signal
                   (fst (healthCheck_loop m (socketPath dpi) received))).
  { apply Forall_forall. intros s Hs.
    destruct (Hsignals s Hs) as (d & _ & [-> | ->]); done. }
  destruct (ListAndWatch_loop_health dpi _ Hall) as [Hlen Hblocks].
  unfold sent_by, ListAndWatch.
  destruct (ListAndWatch_loop dpi _) as [[dpi' sent] c]. cbn [fst snd length] in *.
  by rewrite Hlen, Hblocks.
Qed.


End WatcherSessionFacts.

(** X30: The loop of the watcher ends at the first receive on [stop] and at
    the first removal of the socket, and nothing that arrives later is
    looked at.  The removal of the socket ends it only when the path of
    the socket is not the path of a device: if it is, the removal is
    reported as that device being unhealthy and the watcher goes on. *)
Theorem healthCheck_loop_ends
    (m : gmap string string) (socketPath0 : string)
    (received later : list watch_input) :
  snd (healthCheck_loop m socketPath0 received) = StillWatching ->
  healthCheck_loop m socketPath0 (received ++ WatchStop :: later)
  = (fst (healthCheck_loop m socketPath0 received), WatchStopped) /\
  (m !! socketPath0 = None ->
   healthCheck_loop m socketPath0
     (received ++ WatchEvent {| ev_Name := socketPath0; ev_Op := fsnotify_Remove |} :: later)
   = (fst (healthCheck_loop m socketPath0 received), SocketRemoved)) /\
  (forall v, m !! socketPath0 = Some v ->
   healthCheck_loop m socketPath0
     (received ++ WatchEvent {| ev_Name := socketPath0; ev_Op := fsnotify_Remove |} :: later)
   = (fst (healthCheck_loop m socketPath0 received)
        ++ RecvUnhealthy v :: fst (healthCheck_loop m socketPath0 later),
      snd (healthCheck_loop m socketPath0 later))).
Proof.
  intros Hpre. rewrite !(healthCheck_loop_app _ _ _ _ Hpre).
  cbn [healthCheck_loop ev_Name ev_Op fst snd]. split; [|split].
  - by rewrite app_nil_r.
  - intros ->. rewrite String.eqb_refl. cbn. by rewrite app_nil_r.
  - intros v ->. cbn.
    by destruct (healthCheck_loop m socketPath0 later).
Qed.

(** ** The further statements at concrete inputs *)

Lemma createIommuDeviceMap_units_witness :
  iommuMap (createIommuDeviceMap (H := exampleExternals) sharedGroupHost emptyState) !! "2"
  = Some (map (discovery_snapshot (H := exampleExternals))
            [vfioGPU "0000:02:00.0" 7041 "GeForce GTX 1070" 2;
             vfioGPU "0000:02:00.1" 7041 "GeForce GTX 1070" 2]).
Proof.
  apply (createIommuDeviceMap_units (H := exampleExternals) sharedGroupHost emptyState
           false (fst (GetAllDevices sharedGroupHost)) "2"); [reflexivity..|].
  split; [discriminate|reflexivity].
Defined.

Lemma createIommuDeviceMap_indices_agree_witness :
  is_Some (iommuMap (createIommuDeviceMap (H := exampleExternals) sharedGroupHost emptyState)
             !! "2") <->
  exists deviceID keys,
    deviceMap (createIommuDeviceMap (H := exampleExternals) sharedGroupHost emptyState)
      !! deviceID = Some keys /\ "2" ∈ keys.
Proof.
  apply (proj1 (createIommuDeviceMap_indices_agree (H := exampleExternals)
                  sharedGroupHost emptyState eq_refl) "2").
Defined.

Lemma createIommuDeviceMap_isNVSwitchDeviceID_witness :
  isNVSwitchDeviceID (createIommuDeviceMap (H := exampleExternals) switchHost emptyState)
    "22a3" = true.
Proof.
  apply (createIommuDeviceMap_isNVSwitchDeviceID (H := exampleExternals) switchHost
           emptyState false (fst (GetAllDevices switchHost)) "22a3"); [reflexivity..|].
  exists (vfioDevice "0000:05:00.0" 425984 8867 "NVSwitch" 9 "").
  split; [right; left; reflexivity|]. repeat split.
Defined.

Lemma createIommuDeviceMap_unit_keys_witness :
  unit_key_of false
    (discovery_snapshot (H := exampleExternals)
       (vfioGPU "0000:02:00.1" 7041 "GeForce GTX 1070" 2)) = "2".
Proof.
  apply (proj1 (createIommuDeviceMap_unit_keys (H := exampleExternals) sharedGroupHost
                  emptyState false eq_refl) "2"
           (map (discovery_snapshot (H := exampleExternals))
              [vfioGPU "0000:02:00.0" 7041 "GeForce GTX 1070" 2;
               vfioGPU "0000:02:00.1" 7041 "GeForce GTX 1070" 2])).
  - vm_compute. reflexivity.
  - simpl. repeat constructor.
Defined.

Lemma discovered_keys_allocate_legacy_witness :
  Allocate (H := exampleExternals) sharedGroupHost
    (getIommuMap (createIommuDeviceMap (H := exampleExternals) sharedGroupHost emptyState))
    (request [["2"]; ["1"]])
  = (Some {| ContainerResponses :=
               map (fun req => {| Devices := flat_map (legacy_nodes (H := exampleExternals))
                                               (DevicesIDs req) |})
                 (ContainerRequests (request [["2"]; ["1"]])) |}, None).
Proof.
  apply (discovered_keys_allocate_legacy (H := exampleExternals) sharedGroupHost emptyState
           (request [["2"]; ["1"]])); [reflexivity|].
  intros req k Hreq Hk. simpl in Hreq.
  apply elem_of_cons in Hreq as [-> | Hreq]; simpl in Hk.
  - apply list_elem_of_singleton in Hk. subst k.
    exists "1b81", ["2"]. split; [vm_compute; reflexivity|repeat constructor].
  - apply list_elem_of_singleton in Hreq. subst req. simpl in Hk.
    apply list_elem_of_singleton in Hk. subst k.
    exists "1b80", ["1"]. split; [vm_compute; reflexivity|repeat constructor].
Defined.

Lemma discovered_keys_allocate_fd_witness :
  Allocate (H := exampleExternals) fdDevicesHost
    (getIommuMap (createIommuDeviceMap (H := exampleExternals) fdDevicesHost emptyState))
    (request [["vfio4"]])
  = (Some {| ContainerResponses :=
               map (fun req =>
                      {| Devices :=
                           flat_map
                             (fun k =>
                                map (fd_node (H := exampleExternals))
                                  (default []
                                     (getIommuMap
                                        (createIommuDeviceMap (H := exampleExternals)
                                           fdDevicesHost emptyState) !! k)))
                             (DevicesIDs req) |})
                 (ContainerRequests (request [["vfio4"]])) |}, None).
Proof.
  apply (discovered_keys_allocate_fd (H := exampleExternals) fdDevicesHost emptyState
           (fst (GetAllDevices fdDevicesHost)) (request [["vfio4"]])); [reflexivity..| |].
  - intros dev [<-|[<-|[]]] _; discriminate.
  - intros req k Hreq Hk. simpl in Hreq.
    apply list_elem_of_singleton in Hreq. subst req. simpl in Hk.
    apply list_elem_of_singleton in Hk. subst k.
    exists "1b81", ["vfio4"]. split; [vm_compute; reflexivity|repeat constructor].
Defined.


Lemma generateCDISpecForClass_skip_or_write_witness :
  generateCDISpecForClass (H := exampleExternals) (H0 := exampleCDIExternals)
    legacyHost cdiSucceeds fakeIommuMap "GEFORCE" ["4"] = ([], None) /\
  exists spec,
    generateCDISpecForClass (H := exampleExternals) (H0 := exampleCDIExternals)
      legacyHost cdiSucceeds fakeIommuMap "GEFORCE" ["2"; "1"]
    = ([CdiWriteSpec spec "nvidia.com-GEFORCE"], None) /\
    map specs.Name (specs.Devices spec) = ["1"; "2"].
Proof.
  split.
  - apply (proj1 (generateCDISpecForClass_skip_or_write (H := exampleExternals)
                    (H0 := exampleCDIExternals) sortedKeys_post
                    legacyHost cdiSucceeds fakeIommuMap "GEFORCE" ["4"] false eq_refl)).
    intros k Hk. apply list_elem_of_singleton in Hk. subst k. reflexivity.
  - eexists. split.
    + apply (proj2 (generateCDISpecForClass_skip_or_write (H := exampleExternals)
                      (H0 := exampleCDIExternals) sortedKeys_post
                      legacyHost cdiSucceeds fakeIommuMap "GEFORCE" ["2"; "1"] false eq_refl)
               "nvidia.com-GEFORCE"); try reflexivity.
      exists "2". split; [repeat constructor|discriminate].
    + reflexivity.
Defined.

Lemma cdi_agrees_with_Allocate_witness :
  map (fun r => map HostPath (Devices r)) (ContainerResponses legacyResponse1)
  = [map specs.Path
       (flat_map (fun e => specs.DeviceNodes (specs.Edits e))
          (cdi_deviceSpecs (H := exampleExternals) false fakeIommuMap ["1"]))].
Proof.
  apply (cdi_agrees_with_Allocate (H := exampleExternals) legacyHost fakeIommuMap ["1"]
           false legacyResponse1); [reflexivity..|].
  intros _ k Hk. apply list_elem_of_singleton in Hk. subst k. reflexivity.
Defined.

Lemma cdi_legacy_entries_by_group_witness :
  non_decreasing
    (map (fun e => extractNumber (specs.Name e))
       (cdi_deviceSpecs (H := exampleExternals) false
          (iommuMap (createIommuDeviceMap (H := exampleExternals) sharedGroupHost emptyState))
          (sort_Slice_keys (CDIExternals := exampleCDIExternals) ["2"; "1"]))).
Proof.
  apply (cdi_legacy_entries_by_group (H := exampleExternals) (H0 := exampleCDIExternals)
           sortedKeys_post sharedGroupHost emptyState (fst (GetAllDevices sharedGroupHost))
           ["2"; "1"]); [reflexivity..|].
  intros dev [<-|[<-|[<-|[]]]]; simpl; lia.
Defined.

Lemma GenerateCDISpec_category_names_witness :
  exists deviceID keys,
    (deviceID, keys) ∈ [("1b80", ["1"]); ("1b81", ["2"])] /\
    isNVSwitchDeviceID
      (createIommuDeviceMap (H := exampleExternals) sharedGroupHost emptyState) deviceID
    = false /\
    "2" ∈ keys.
Proof.
  apply (GenerateCDISpec_category_names (H := exampleExternals) (H0 := exampleCDIExternals)
           sortedKeys_post sharedGroupHost cdiSucceeds
           (createIommuDeviceMap (H := exampleExternals) sharedGroupHost emptyState)
           false "pgpu" "failed to generate CDI spec for GPU"
           (fun _ => []) [("1b80", ["1"]); ("1b81", ["2"])] "2").
  vm_compute. repeat constructor.
Defined.

Lemma GenerateCDISpec_without_devices_witness :
  GenerateCDISpec (H := exampleExternals) (H0 := exampleCDIExternals)
    otherDriverHost cdiSucceeds
    (createIommuDeviceMap (H := exampleExternals) otherDriverHost priorState)
    "pgpu" "" (fun _ => []) [] []
  = ([], None).
Proof.
  apply (GenerateCDISpec_without_devices (H := exampleExternals)
           (H0 := exampleCDIExternals) otherDriverHost cdiSucceeds priorState
           "pgpu" "" (fun _ => []) [] []); [reflexivity|].
  right. intros dev [<-|[]]. reflexivity.
Defined.

Lemma Start_after_Start_witness :
  Start (H := exampleExternals) startSucceeds 1%nat
    (fst (fst (Start (H := exampleExternals) listenFails 0%nat testPlugin)))
  = Start (H := exampleExternals) startSucceeds 1%nat testPlugin /\
  Start (H := exampleExternals) startSucceeds 1%nat
    (fst (fst (Start (H := exampleExternals) registrationRefused 0%nat testPlugin)))
  = (fst (fst (Start (H := exampleExternals) registrationRefused 0%nat testPlugin)), [],
     Some (Errorf "gRPC server already started")).
Proof.
  split.
  - apply (proj1 (Start_after_Start (H := exampleExternals) listenFails startSucceeds
                    0%nat 1%nat testPlugin eq_refl)).
    right. discriminate.
  - apply (proj2 (Start_after_Start (H := exampleExternals) registrationRefused
                    startSucceeds 0%nat 1%nat testPlugin eq_refl)); reflexivity.
Defined.

Lemma restart_steps_witness :
  restart (H := exampleExternals) startSucceeds startSucceeds 1%nat testPlugin
  = (testPlugin, [],
     Returns (Some (Errorf "grpc server instance not found for foo"))) /\
  term (fst (fst (restart (H := exampleExternals) listenFails startSucceeds 1%nat
                    runningPlugin))) = [true] /\
  stop (fst (fst (restart (H := exampleExternals) listenFails startSucceeds 1%nat
                    runningPlugin))) = Some 1%nat.
Proof.
  split.
  - apply (proj1 (restart_steps (H := exampleExternals) startSucceeds startSucceeds
                    1%nat testPlugin)).
    reflexivity.
  - apply (proj2 (restart_steps (H := exampleExternals) listenFails startSucceeds
                    1%nat runningPlugin) grpc_NewServer); reflexivity.
Defined.

Lemma second_restart_waits_for_session_witness :
  restart (H := exampleExternals) startSucceeds startSucceeds 2%nat
    (fst (fst (restart (H := exampleExternals) startSucceeds startSucceeds 1%nat
                 runningPlugin)))
  = (fst (fst (restart (H := exampleExternals) startSucceeds startSucceeds 1%nat
                 runningPlugin)), [], Blocks).
Proof.
  apply (second_restart_waits_for_session (H := exampleExternals) startSucceeds
           startSucceeds startSucceeds startSucceeds 1%nat 2%nat runningPlugin
           grpc_NewServer); reflexivity.
Defined.

Lemma restart_launches_watcher_iff_witness :
  ActGoHealthCheck
  ∈ snd (fst (restart (H := exampleExternals) listenFails startSucceeds 1%nat
                runningPlugin)) /\
  snd (restart (H := exampleExternals) startSucceeds listenFails 1%nat runningPlugin)
  <> Returns None.
Proof.
  split.
  - apply (proj1 (restart_launches_watcher_iff (H := exampleExternals) listenFails
                    startSucceeds 1%nat runningPlugin grpc_NewServer eq_refl eq_refl)).
    reflexivity.
  - intros Hnil.
    apply (proj2 (restart_launches_watcher_iff (H := exampleExternals) startSucceeds
                    listenFails 1%nat runningPlugin grpc_NewServer eq_refl eq_refl))
      in Hnil.
    destruct Hnil as (_ & Hlisten & _). discriminate Hlisten.
Defined.


Lemma getDeviceNameForID_result_witness :
  getDeviceNameForID (H := exampleExternals) (map_to_list fakeIommuMap) "ffff" = "" /\
  formatDeviceName (H := exampleExternals)
    (getDeviceNameForID (H := exampleExternals) (map_to_list fakeIommuMap) "1b81")
  = getDeviceNameForID (H := exampleExternals) (map_to_list fakeIommuMap) "1b81".
Proof.
  assert (Hascii : forall s, string_forallb is_ascii s = true ->
                     strings_ToUpper (Externals := exampleExternals) s = ascii_ToUpper s)
    by reflexivity.
  split.
  - apply (proj1 (getDeviceNameForID_result (H := exampleExternals) Hascii
                    ascii_ToUpper_no_lower (map_to_list fakeIommuMap) "ffff")).
    intros k devices dev Hin Hdev.
    apply elem_of_map_to_list in Hin.
    destruct (decide (k = "1")) as [->|H1].
    { vm_compute in Hin. injection Hin as <-.
      apply list_elem_of_singleton in Hdev. subst dev. discriminate. }
    destruct (decide (k = "2")) as [->|H2].
    { vm_compute in Hin. injection Hin as <-.
      apply list_elem_of_singleton in Hdev. subst dev. discriminate. }
    destruct (decide (k = "3")) as [->|H3].
    { vm_compute in Hin. injection Hin as <-.
      apply list_elem_of_singleton in Hdev. subst dev. discriminate. }
    unfold fakeIommuMap in Hin.
    rewrite !lookup_insert_ne, lookup_empty in Hin by done. discriminate.
  - apply (proj2 (proj2 (getDeviceNameForID_result (H := exampleExternals) Hascii
                           ascii_ToUpper_no_lower (map_to_list fakeIommuMap) "1b81"))).
Defined.

Lemma createDevicePlugins_units_once_witness :
  NoDup (advertised_IDs
           (fst (createDevicePlugins (H := exampleExternals)
                   (startDevicePluginFunc (H := exampleExternals) startSucceeds 0%nat)
                   sharedGroupHost
                   (createIommuDeviceMap (H := exampleExternals) sharedGroupHost emptyState)
                   "" "" (fun _ => [])
                   (map_to_list
                      (deviceMap (createIommuDeviceMap (H := exampleExternals)
                                    sharedGroupHost emptyState)))))).
Proof.
  apply (createDevicePlugins_units_once (H := exampleExternals)
           (startDevicePluginFunc (H := exampleExternals) startSucceeds 0%nat)
           sharedGroupHost emptyState "" "" (fun _ => [])
           (map_to_list
              (deviceMap (createIommuDeviceMap (H := exampleExternals)
                            sharedGroupHost emptyState)))); reflexivity.
Defined.

Lemma createDevicePlugins_kept_started_witness :
  server (fst (fst (Start (H := exampleExternals) startSucceeds 0%nat
                      (createDevicePlugins_plugin (H := exampleExternals) emptyState false
                         "pgpu" "" [] "1b80" ["1"]))))
  = Some grpc_NewServer.
Proof.
  apply (createDevicePlugins_kept_started (H := exampleExternals) startSucceeds 0%nat
           legacyHost emptyState "pgpu" "" (fun _ => []) [("1b80", ["1"])]).
  vm_compute. repeat constructor.
Defined.

Lemma getGPUDeviceName_result_witness :
  getGPUDeviceName (H := exampleExternals)
    (createIommuDeviceMap (H := exampleExternals) switchHost emptyState) ""
    (fun _ => map_to_list
                (iommuMap (createIommuDeviceMap (H := exampleExternals) switchHost
                             emptyState)))
    [("22a3", ["9"]); ("2303", ["7"])]
  = deviceName
      (createDevicePlugins_plugin (H := exampleExternals)
         (createIommuDeviceMap (H := exampleExternals) switchHost emptyState) false "" ""
         (map_to_list
            (iommuMap (createIommuDeviceMap (H := exampleExternals) switchHost emptyState)))
         "2303" ["7"]).
Proof.
  apply (proj2 (getGPUDeviceName_result (H := exampleExternals) switchHost emptyState false
                  "" ""
                  (fun _ => map_to_list
                              (iommuMap (createIommuDeviceMap (H := exampleExternals)
                                           switchHost emptyState)))
                  [("22a3", ["9"]); ("2303", ["7"])] eq_refl
                  ltac:(intros deviceID keys Hin;
                        apply elem_of_cons in Hin as [Hin|Hin];
                        [injection Hin as -> ->; vm_compute; reflexivity|];
                        apply list_elem_of_singleton in Hin;
                        injection Hin as -> ->; vm_compute; reflexivity))
           [("22a3", ["9"])] "2303" ["7"] []).
  - reflexivity.
  - intros e He. apply list_elem_of_singleton in He. subst e. vm_compute. reflexivity.
  - vm_compute. reflexivity.
Defined.

Lemma healthCheck_setup_succeeds_iff_witness :
  snd (healthCheck_setup (H := trimmingExternals) (fun p => dir_of p "" "") watchSucceeds
         legacyHost testPlugin) = None.
Proof.
  apply (proj2 (healthCheck_setup_succeeds_iff (H := trimmingExternals)
                  (fun p => dir_of p "" "") watchSucceeds legacyHost testPlugin)).
  repeat split. intros err [= <-]. reflexivity.
Defined.

Lemma healthCheck_setup_map_witness :
  ["/var/lib/kubelet/device-plugins"; "/dev/vfio/1"; "/dev/vfio/2"]
  = dir_of (socketPath testPlugin) "" ""
      :: map (fun d => filepath_Join (Externals := trimmingExternals)
                         [devicePath testPlugin; ID d]) (devs testPlugin).
Proof.
  apply (healthCheck_setup_map (H := trimmingExternals) (fun p => dir_of p "" "")
           watchSucceeds legacyHost testPlugin testPathDeviceMap
           ["/var/lib/kubelet/device-plugins"; "/dev/vfio/1"; "/dev/vfio/2"]).
  vm_compute. reflexivity.
Defined.

Lemma healthCheck_reports_device_IDs_witness :
  length (sent_by testPlugin
            (fst (healthCheck_loop testPathDeviceMap (socketPath testPlugin)
                    [WatchEvent {| ev_Name := "/dev/vfio/2"; ev_Op := fsnotify_Remove |};
                     WatchEvent {| ev_Name := "/dev/vfio/2"; ev_Op := fsnotify_Chmod |};
                     WatchEvent {| ev_Name := "/dev/vfio/2"; ev_Op := fsnotify_Create |}])))
  = S (length
         (fst (healthCheck_loop testPathDeviceMap (socketPath testPlugin)
                 [WatchEvent {| ev_Name := "/dev/vfio/2"; ev_Op := fsnotify_Remove |};
                  WatchEvent {| ev_Name := "/dev/vfio/2"; ev_Op := fsnotify_Chmod |};
                  WatchEvent {| ev_Name := "/dev/vfio/2"; ev_Op := fsnotify_Create |}]))).
Proof.
  apply (healthCheck_reports_device_IDs (H := trimmingExternals) (fun p => dir_of p "" "")
           watchSucceeds legacyHost testPlugin testPathDeviceMap
           ["/var/lib/kubelet/device-plugins"; "/dev/vfio/1"; "/dev/vfio/2"]).
  vm_compute. reflexivity.
Defined.


Lemma healthCheck_loop_ends_witness :
  healthCheck_loop testPathDeviceMap (socketPath testPlugin)
    ([WatchEvent {| ev_Name := "/dev/vfio/1"; ev_Op := fsnotify_Rename |}]
       ++ WatchEvent {| ev_Name := socketPath testPlugin; ev_Op := fsnotify_Remove |}
       :: [WatchEvent {| ev_Name := "/dev/vfio/1"; ev_Op := fsnotify_Create |}])
  = ([RecvUnhealthy "1"], SocketRemoved).
Proof.
  apply (proj1 (proj2 (healthCheck_loop_ends testPathDeviceMap (socketPath testPlugin)
                         [WatchEvent {| ev_Name := "/dev/vfio/1";
                                        ev_Op := fsnotify_Rename |}]
                         [WatchEvent {| ev_Name := "/dev/vfio/1";
                                        ev_Op := fsnotify_Create |}]
                         eq_refl))).
  vm_compute. reflexivity.
Defined.

Lemma Start_succeeds_iff_witness :
  snd (Start (H := exampleExternals) startSucceeds 0%nat testPlugin) = None.
Proof.
  apply (proj1 (Start_succeeds_iff (H := exampleExternals) startSucceeds 0%nat testPlugin)).
  repeat split. discriminate.
Defined.
